(** * Studify: the planner client, the analysis modal and the timetable engine

    A shallow embedding of the TypeScript client of Studify
    ([src/services/api.ts], [src/features/planner/PlannerView.tsx],
    [src/features/analyze/components/AnalysisModal.tsx],
    [src/features/analyze/AnalyzeView.tsx],
    [src/features/dashboard/DashboardView.tsx] and the subject-management
    component) together with a model of the timetable engine that the
    client calls through [generateTimetable]. *)

From Stdlib Require Import ZArith QArith Qround Qabs Qpower Lqa Lia String Ascii List.
From stdpp Require Import base list strings pretty gmap.

Open Scope string_scope.
Open Scope list_scope.

(* ================================================================== *)
(** * Part I.  The host language                                       *)
(* ================================================================== *)

(** ** Numbers

    A JavaScript [number] is an IEEE-754 binary64 value.  Every finite
    binary64 value is a rational, so a finite number is carried as the
    rational it denotes.  The two zeros are identified: the code below never
    divides by a zero and never prints one differently from the other. *)

Inductive number : Type :=
  | NaN
  | Infinity (negative : bool)
  | Finite (q : Q).

(** The order of the extended reals on numbers; [NaN] is unordered. *)
Definition num_le (a b : number) : Prop :=
  match a, b with
  | NaN, _ | _, NaN => False
  | Infinity true, _ => True
  | _, Infinity false => True
  | Finite x, Finite y => (x <= y)%Q
  | _, _ => False
  end.

(** Equality of the denoted values. *)
Definition num_eq (a b : number) : Prop :=
  match a, b with
  | NaN, NaN => True
  | Infinity s, Infinity t => s = t
  | Finite x, Finite y => (x == y)%Q
  | _, _ => False
  end.

(** A number that is finite and not negative, as a count is. *)
Definition nonnegative (n : number) : Prop :=
  match n with
  | Finite q => (0 <= q)%Q
  | _ => False
  end.

(** A number that is finite and not negative, or the positive infinity. *)
Definition nonneg (n : number) : Prop :=
  match n with
  | Finite q => (0 <= q)%Q
  | Infinity false => True
  | _ => False
  end.

(** ** Rounding

    The result of an arithmetic operation is the exact result rounded to
    binary64: to the nearest value with 53 significant bits, ties going to
    the even one, with the exponent kept above that of the subnormal
    numbers and with an infinity from 2^1024 on. *)

(** The exponent [e] of a positive rational: [2^e <= x < 2^(e+1)]. *)
Definition binade (x : Q) : Z :=
  let e := (Z.log2 (Qnum x) - Z.log2 (Zpos (Qden x)))%Z in
  if Qle_bool (2 ^ e) x then e else (e - 1)%Z.

(** The nearest integer, a tie going to the even one. *)
Definition round_half_even (q : Q) : Z :=
  let f := Qfloor q in
  match Qcompare (q - inject_Z f) (1 # 2) with
  | Lt => f
  | Gt => (f + 1)%Z
  | Eq => if Z.even f then f else (f + 1)%Z
  end.

(** The distance between two consecutive binary64 values around a
    positive rational. *)
Definition ulp (a : Q) : Q := (2 ^ (Z.max (binade a) (-1022) - 52))%Q.

(** The multiple of the [ulp] nearest to a positive rational. *)
Definition nearest (a : Q) : Q := (inject_Z (round_half_even (a / ulp a)) * ulp a)%Q.

(** The rounding of an exact result, in lowest terms. *)
Definition binary64 (x : Q) : number :=
  match Qcompare x 0 with
  | Eq => Finite 0
  | Gt =>
      if Qle_bool (2 ^ 1024) (nearest x) then Infinity false
      else Finite (Qred (nearest x))
  | Lt =>
      if Qle_bool (2 ^ 1024) (nearest (- x)) then Infinity true
      else Finite (Qred (- nearest (- x)))
  end.

(** ** Operators *)

(** [ToBoolean] on a number: [NaN] and the zeros are falsy. *)
Definition truthy (n : number) : bool :=
  match n with
  | NaN => false
  | Infinity _ => true
  | Finite q => negb (Qeq_bool q 0)
  end.

(** [a || b] on numbers. *)
Definition num_or (a b : number) : number := if truthy a then a else b.

(** [x?.field || b] where the field may be [undefined]. *)
Definition opt_num_or (a : option number) (b : number) : number :=
  match a with
  | Some n => num_or n b
  | None => b
  end.

(** [a === b] on numbers: [NaN] is not equal to itself. *)
Definition num_strict_eq (a b : number) : bool :=
  match a, b with
  | Infinity s, Infinity t => Bool.eqb s t
  | Finite x, Finite y => Qeq_bool x y
  | _, _ => false
  end.

(** [a < b]: false as soon as one side is [NaN]. *)
Definition num_lt (a b : number) : bool :=
  match a, b with
  | NaN, _ | _, NaN => false
  | Infinity true, Infinity true => false
  | Infinity true, _ => true
  | _, Infinity true => false
  | Infinity false, _ => false
  | Finite _, Infinity false => true
  | Finite x, Finite y => negb (Qle_bool y x)
  end.

(** [a > b]. *)
Definition num_gt (a b : number) : bool := num_lt b a.

Definition is_negative (q : Q) : bool := negb (Qle_bool 0 q).

(** [a / b].  A zero divisor is taken to be the positive zero. *)
Definition num_div (a b : number) : number :=
  match a, b with
  | NaN, _ | _, NaN => NaN
  | Infinity _, Infinity _ => NaN
  | Infinity s, Finite y => Infinity (xorb s (is_negative y))
  | Finite x, Infinity _ => Finite 0
  | Finite x, Finite y =>
      if Qeq_bool y 0
      then (if Qeq_bool x 0 then NaN else Infinity (is_negative x))
      else binary64 (x / y)
  end.

(** [a + b]. *)
Definition num_add (a b : number) : number :=
  match a, b with
  | NaN, _ | _, NaN => NaN
  | Infinity s, Infinity t => if Bool.eqb s t then Infinity s else NaN
  | Infinity s, Finite _ => Infinity s
  | Finite _, Infinity t => Infinity t
  | Finite x, Finite y => binary64 (x + y)
  end.

(** [a - b]. *)
Definition num_sub (a b : number) : number :=
  match a, b with
  | NaN, _ | _, NaN => NaN
  | Infinity s, Infinity t => if Bool.eqb s t then NaN else Infinity s
  | Infinity s, Finite _ => Infinity s
  | Finite _, Infinity t => Infinity (negb t)
  | Finite x, Finite y => binary64 (x - y)
  end.

(** [a * b]. *)
Definition num_mul (a b : number) : number :=
  match a, b with
  | NaN, _ | _, NaN => NaN
  | Infinity s, Infinity t => Infinity (xorb s t)
  | Infinity s, Finite y =>
      if Qeq_bool y 0 then NaN else Infinity (xorb s (is_negative y))
  | Finite x, Infinity t =>
      if Qeq_bool x 0 then NaN else Infinity (xorb (is_negative x) t)
  | Finite x, Finite y => binary64 (x * y)
  end.

(** Truncation of a rational towards zero. *)
Definition Qtrunc (q : Q) : Z := if Qle_bool 0 q then Qfloor q else Qceiling q.

(** [a % b]: the remainder of the truncating division, which binary64
    computes without rounding. *)
Definition num_rem (a b : number) : number :=
  match a, b with
  | NaN, _ | _, NaN => NaN
  | Infinity _, _ => NaN
  | Finite x, Infinity _ => Finite x
  | Finite x, Finite y =>
      if Qeq_bool y 0 then NaN
      else Finite (Qred (x - y * inject_Z (Qtrunc (x / y))))
  end.

Definition Math_floor (a : number) : number :=
  match a with
  | Finite x => Finite (inject_Z (Qfloor x))
  | _ => a
  end.

Definition Math_ceil (a : number) : number :=
  match a with
  | Finite x => Finite (inject_Z (Qceiling x))
  | _ => a
  end.

(** [Math.round]: the nearest integer, a tie going towards +infinity. *)
Definition Math_round (a : number) : number :=
  match a with
  | Finite x => Finite (inject_Z (Qfloor (x + (1 # 2))))
  | _ => a
  end.

(** [Math.min] and [Math.max] of two arguments: [NaN] if either is. *)
Definition Math_min (a b : number) : number :=
  match a, b with
  | NaN, _ | _, NaN => NaN
  | _, _ => if num_lt b a then b else a
  end.

Definition Math_max (a b : number) : number :=
  match a, b with
  | NaN, _ | _, NaN => NaN
  | _, _ => if num_lt a b then b else a
  end.

(** A number literal of the source text, and an integer literal. *)
Definition lit (q : Q) : number := binary64 q.
Definition int (z : Z) : number := Finite (inject_Z z).

(** ** Number to string *)

Definition is_integer (q : Q) : bool := Qeq_bool q (inject_Z (Qfloor q)).

(** [Number::toString] prints the shortest digit string that reads back
    as the number.  For an integer of magnitude at most 2^53 that is its
    decimal numeral, the zeros printing as "0"; for the other finite
    numbers the digits are those that the host generates, a parameter of
    the model. *)
Class Host : Type := {
  shortest_notation : Q -> string;
}.

Definition Number_toString `{Host} (n : number) : string :=
  match n with
  | NaN => "NaN"
  | Infinity false => "Infinity"
  | Infinity true => "-Infinity"
  | Finite q =>
      if is_integer q && (Z.abs (Qfloor q) <=? 2 ^ 53)%Z
      then pretty (Qfloor q)
      else shortest_notation q
  end.

(** The [f] low decimal digits of [r], the most significant first. *)
Fixpoint fraction_digits (f : nat) (r : Z) : string :=
  match f with
  | O => ""
  | S f' =>
      fraction_digits f' (r / 10) +:+ String (pretty_N_char (Z.to_N (r mod 10))) ""
  end.

(** [Number.prototype.toFixed(f)] for [f] from 0 to 100.  Below 10^21 the
    digits are those of the integer [n] for which [n / 10^f] is nearest to
    the exact value of the number, the larger one of two that are equally
    near: the numeral of [n] with a point before its last [f] digits, zeros
    added in front so that a digit precedes the point.  A negative number
    keeps its sign even when every digit is zero. *)
Definition toFixed `{Host} (x : number) (f : nat) : string :=
  match x with
  | Finite q =>
      if Qle_bool (10 ^ 21) (Qabs q) then Number_toString x
      else
        let n := Qfloor (Qabs q * 10 ^ Z.of_nat f + (1 # 2)) in
        let m :=
          pretty (n / 10 ^ Z.of_nat f)%Z
          +:+ match f with
              | O => ""
              | S _ => "." +:+ fraction_digits f n
              end in
        if is_negative q then "-" +:+ m else m
  | _ => Number_toString x
  end.

(** ** Strings

    A string is the sequence of the bytes of its UTF-8 encoding.  The code
    below only ever inspects ASCII characters, apart from the white space
    that [parseFloat] and [parseInt] skip. *)

Definition byte_of (c : ascii) : N := N_of_ascii c.

(** [WhiteSpace] and [LineTerminator] code points of one byte: TAB, LF,
    VT, FF, CR and SP. *)
Definition is_space1 (b : N) : bool :=
  ((9 <=? b) && (b <=? 13) || (b =? 32))%N.

(** U+00A0. *)
Definition is_space2 (b1 b2 : N) : bool :=
  ((b1 =? 194) && (b2 =? 160))%N.

(** U+1680, U+2000 to U+200A, U+2028, U+2029, U+202F, U+205F, U+3000 and
    U+FEFF. *)
Definition is_space3 (b1 b2 b3 : N) : bool :=
  ((b1 =? 225) && (b2 =? 154) && (b3 =? 128)
   || (b1 =? 226) && (b2 =? 128)
      && ((128 <=? b3) && (b3 <=? 138) || (b3 =? 168) || (b3 =? 169) || (b3 =? 175))
   || (b1 =? 226) && (b2 =? 129) && (b3 =? 159)
   || (b1 =? 227) && (b2 =? 128) && (b3 =? 128)
   || (b1 =? 239) && (b2 =? 187) && (b3 =? 191))%N.

(** [TrimString(s, start)]. *)
Fixpoint trim_start (s : string) : string :=
  match s with
  | EmptyString => s
  | String c1 r1 =>
      if is_space1 (byte_of c1) then trim_start r1
      else
        match r1 with
        | EmptyString => s
        | String c2 r2 =>
            if is_space2 (byte_of c1) (byte_of c2) then trim_start r2
            else
              match r2 with
              | EmptyString => s
              | String c3 r3 =>
                  if is_space3 (byte_of c1) (byte_of c2) (byte_of c3)
                  then trim_start r3
                  else s
              end
        end
  end.

(** [TrimString(s, end)]: a string ends where only white space is left. *)
Fixpoint trim_end (s : string) : string :=
  match s with
  | EmptyString => EmptyString
  | String c r =>
      match trim_start s with
      | EmptyString => EmptyString
      | _ => String c (trim_end r)
      end
  end.

(** [s.trim()]. *)
Definition trim (s : string) : string := trim_end (trim_start s).

(** The value of a digit in radix 10, and in radix 16. *)
Definition decimal_digit (c : ascii) : option Z :=
  let b := byte_of c in
  if ((48 <=? b) && (b <=? 57))%N then Some (Z.of_N b - 48)%Z else None.

Definition hex_digit (c : ascii) : option Z :=
  let b := byte_of c in
  if ((48 <=? b) && (b <=? 57))%N then Some (Z.of_N b - 48)%Z
  else if ((97 <=? b) && (b <=? 102))%N then Some (Z.of_N b - 87)%Z
  else if ((65 <=? b) && (b <=? 70))%N then Some (Z.of_N b - 55)%Z
  else None.

(** The longest run of digits at the head of a string: its value in the
    radix, its length, and what follows it. *)
Record digits := { dvalue : Z; dcount : Z; drest : string }.

Fixpoint scan_digits (digit : ascii -> option Z) (radix : Z)
    (s : string) (value count : Z) : digits :=
  match s with
  | EmptyString => {| dvalue := value; dcount := count; drest := s |}
  | String c r =>
      match digit c with
      | Some d => scan_digits digit radix r (value * radix + d) (count + 1)
      | None => {| dvalue := value; dcount := count; drest := s |}
      end
  end.

(** An optional sign at the head of a string. *)
Definition scan_sign (s : string) : bool * string :=
  match s with
  | String "-" r => (true, r)
  | String "+" r => (false, r)
  | _ => (false, s)
  end.

(** [ExponentPart]: [e] or [E], an optional sign and at least one digit;
    when it is not all there, the literal ends before it. *)
Definition scan_exponent (s : string) : Z :=
  match s with
  | String c r =>
      if (Ascii.eqb c "e" || Ascii.eqb c "E")%bool then
        let (neg, r') := scan_sign r in
        let d := scan_digits decimal_digit 10 r' 0 0 in
        if (0 <? dcount d)%Z
        then (if neg then - dvalue d else dvalue d)%Z
        else 0%Z
      else 0%Z
  | EmptyString => 0%Z
  end.

(** The mathematical value of the longest prefix that is a
    [StrUnsignedDecimalLiteral]: [None] when there is no such prefix,
    [Some None] for [Infinity]. *)
Definition scan_unsigned_decimal (s : string) : option (option Q) :=
  if String.prefix "Infinity" s then Some None
  else
    let ip := scan_digits decimal_digit 10 s 0 0 in
    if (0 <? dcount ip)%Z then
      match drest ip with
      | String "." r =>
          let fp := scan_digits decimal_digit 10 r 0 0 in
          let m := (dvalue ip * 10 ^ dcount fp + dvalue fp)%Z in
          Some (Some (inject_Z m * Qpower 10 (scan_exponent (drest fp) - dcount fp))%Q)
      | r =>
          Some (Some (inject_Z (dvalue ip) * Qpower 10 (scan_exponent r))%Q)
      end
    else
      match s with
      | String "." r =>
          let fp := scan_digits decimal_digit 10 r 0 0 in
          if (0 <? dcount fp)%Z
          then Some (Some (inject_Z (dvalue fp)
                           * Qpower 10 (scan_exponent (drest fp) - dcount fp))%Q)
          else None
      | _ => None
      end.

(** [parseFloat(s)]: skip leading white space, read the longest prefix
    that is a decimal literal, [NaN] when there is none. *)
Definition parseFloat (s : string) : number :=
  let (neg, r) := scan_sign (trim_start s) in
  match scan_unsigned_decimal r with
  | None => NaN
  | Some None => Infinity neg
  | Some (Some v) => binary64 (if neg then - v else v)%Q
  end.

(** [parseInt(s)] without a radix: radix 16 after [0x] or [0X], radix 10
    otherwise; [NaN] when no digit follows the sign and the prefix. *)
Definition parseInt (s : string) : number :=
  let (neg, r) := scan_sign (trim_start s) in
  let d :=
    match r with
    | String "0" (String x r') =>
        if (Ascii.eqb x "x" || Ascii.eqb x "X")%bool
        then scan_digits hex_digit 16 r' 0 0
        else scan_digits decimal_digit 10 r 0 0
    | _ => scan_digits decimal_digit 10 r 0 0
    end in
  if (0 <? dcount d)%Z
  then binary64 (inject_Z (if neg then - dvalue d else dvalue d))
  else NaN.

(** [s.replace(/[hm]/g, '')]. *)
Fixpoint remove_h_m (s : string) : string :=
  match s with
  | EmptyString => EmptyString
  | String c r =>
      if (Ascii.eqb c "h" || Ascii.eqb c "m")%bool
      then remove_h_m r
      else String c (remove_h_m r)
  end.

(** [s || d] on strings: the empty string is falsy. *)
Definition str_or (s d : string) : string :=
  match s with EmptyString => d | _ => s end.

Definition opt_str_or (s : option string) (d : string) : string :=
  match s with Some s => str_or s d | None => d end.

(* ================================================================== *)
(** * Part II.  The client                                             *)
(* ================================================================== *)

(** ** Values that arrive over the wire

    [request<T>] returns [res.json()] typed as [T] without inspecting it,
    and TypeScript types are erased at run time: an element of
    [result.sessions] is whatever object the backend sent, and [s.field] is
    [undefined] when the object has no such field. *)

Inductive jsvalue : Type :=
  | JUndefined
  | JNull
  | JBool (b : bool)
  | JNumber (n : number)
  | JString (s : string).

Definition get (o : gmap string jsvalue) (field : string) : jsvalue :=
  default JUndefined (o !! field).

(** An interface declaration: the fields and the type of each. *)
Inductive tstype : Type := TString | TNumber.

Definition has_type (v : jsvalue) (t : tstype) : bool :=
  match t, v with
  | TString, JString _ => true
  | TNumber, JNumber _ => true
  | _, _ => false
  end.

Definition conforms (o : gmap string jsvalue) (iface : list (string * tstype)) : bool :=
  forallb (fun ft => has_type (get o ft.1) ft.2) iface.

(** ** [src/services/api.ts] *)

Module Api.

Definition API_BASE : string := "/api".

Record SubjectResponse : Type := {
  id : string;
  name : string;
  description : option string;
  color : string;
  file_count : number;
  total_study_time : number;
  created_at : string;
  updated_at : string;
}.

(** [interface StudySessionResponse] *)
Definition StudySessionResponse : list (string * tstype) :=
  [ ("id", TString);
    ("subject", TString);
    ("subject_color", TString);
    ("title", TString);
    ("duration", TNumber);
    ("start_time", TString);
    ("day", TString);
    ("session_type", TString) ].

Record TimetableResponse : Type := {
  sessions : list (gmap string jsvalue);
  total_hours : number;
  days : number;
  subjects_covered : number;
}.

(** The argument of [generateTimetable].  [handleGenerate], its only
    caller, supplies every field; [exam_date] may be [undefined]. *)
Record GenerateRequest : Type := {
  subject_ids : list string;
  hours_per_day : number;
  preferred_blocks : list string;
  exam_date : option string;
  days_count : number;
}.

(** What [fetch] is asked to do. *)
Record ApiCall : Type := {
  path : string;
  method : string;
  body : GenerateRequest;
}.

(** How the awaited promise settles: [res.json()] when [res.ok], an
    [Error] carrying the detail otherwise. *)
Inductive settled : Type :=
  | Resolved (result : TimetableResponse)
  | Rejected (detail : string).

(** [generateTimetable(data)]: one POST to [/api/timetable/generate].
    The backend is the function that settles the call; the calls issued
    are returned next to the outcome. *)
Definition generateTimetable (backend : ApiCall -> settled) (data : GenerateRequest)
    : settled * list ApiCall :=
  let call := {| path := API_BASE +:+ "/timetable/generate";
                 method := "POST";
                 body := data |} in
  (backend call, [call]).


(** [interface SlideDetail], [interface FileAnalysisResponse] and
    [interface UploadedFileResponse]. *)
Module File.

Record SlideDetail : Type := {
  slide_number : number;
  word_count : number;
  image_count : number;
  has_text : bool;
  has_images : bool;
  estimated_minutes : number;
}.

Record FileAnalysisResponse : Type := {
  slide_count : number;
  total_word_count : number;
  total_image_count : number;
  total_char_count : number;
  estimated_reading_time : number;
  estimated_study_time : number;
  difficulty : string;
  slides : list SlideDetail;
  ai_estimated_study_time : option number;
  ai_difficulty : option string;
  ai_key_topics : option (list string);
  ai_study_tips : option (list string);
  ai_reasoning : option string;
}.

Record UploadedFileResponse : Type := {
  id : string;
  file_name : string;
  original_name : string;
  file_type : string;
  file_size : number;
  subject_id : string;
  subject_name : option string;
  subject_color : option string;
  uploaded_at : string;
  analysis : option FileAnalysisResponse;
}.

End File.

(** The body of a request: none, the JSON text of a subject form, or the
    form data of an upload, a file (known by its name) and a subject. *)
Inductive Body : Type :=
  | NoBody
  | SubjectJson (name description color : string)
  | UploadForm (file subject_id : string).

(** What [fetch], or the [XMLHttpRequest] of an upload, is given: the
    address, and the method and the body when there are any. *)
Record Fetch : Type := {
  address : string;
  options_method : option string;
  options_body : Body;
}.

(** How an awaited promise settles. *)
Inductive promise (A : Type) : Type :=
  | Fulfilled (value : A)
  | Failed (message : string).
Arguments Fulfilled {A} value.
Arguments Failed {A} message.

(** The [fetch] of [request(path, options)]. *)
Definition request (path : string) (method : option string) (body : Body) : Fetch :=
  {| address := API_BASE +:+ path; options_method := method; options_body := body |}.

Definition fetchSubjects : Fetch := request "/subjects/" None NoBody.

Definition createSubject (name description color : string) : Fetch :=
  request "/subjects/" (Some "POST") (SubjectJson name description color).

Definition updateSubject (id : string) (name description color : string) : Fetch :=
  request ("/subjects/" +:+ id) (Some "PUT") (SubjectJson name description color).

Definition deleteSubject (id : string) : Fetch :=
  request ("/subjects/" +:+ id) (Some "DELETE") NoBody.

(** [uploadFile] with a progress callback: a POST of the form data. *)
Definition uploadFile (file subjectId : string) : Fetch :=
  {| address := API_BASE +:+ "/files/upload";
     options_method := Some "POST";
     options_body := UploadForm file subjectId |}.

(** The [onprogress] handler of that upload: the percentage that it
    passes to the callback, when the length of the upload is known. *)
Definition onprogress (lengthComputable : bool) (loaded total : number) : option number :=
  if lengthComputable
  then Some (Math_round (num_mul (num_div loaded total) (int 100)))
  else None.

(** [fetchFiles(subjectId?)]: the filter is left out for an absent and
    for an empty subject. *)
Definition fetchFiles (subjectId : option string) : Fetch :=
  let query :=
    match subjectId with
    | Some (String _ _ as s) => "?subject_id=" +:+ s
    | _ => ""
    end in
  request ("/files/" +:+ query) None NoBody.

Definition deleteFile (fileId : string) : Fetch :=
  request ("/files/" +:+ fileId) (Some "DELETE") NoBody.

End Api.

(** What a handler does besides updating its state, in order: the
    requests it sends and the toasts it shows with [showToast]. *)
Inductive Event : Type :=
  | Sent (f : Api.Fetch)
  | Toast (message type : string).

(** ** [src/features/planner/PlannerView.tsx] *)

Module PlannerView.
Import Api.

(** The [StudySession] of the planner components, as [handleGenerate]
    builds it. *)
Record StudySession : Type := {
  id : jsvalue;
  subject : jsvalue;
  title : jsvalue;
  duration : jsvalue;
  startTime : jsvalue;
  color : jsvalue;
  type : jsvalue;
}.

Record FormData : Type := {
  hoursPerDay : string;
  studyBlocks : list string;
  examDate : string;
  selectedSubjectIds : list string;
  daysCount : string;
}.

Record TimetableStats : Type := {
  totalHours : number;
  days : number;
  subjectsCovered : number;
}.

Inductive ViewMode : Type := week | list_.

(** The state hooks of the component. *)
Record State : Type := {
  showGenerateForm : bool;
  showEditModal : bool;
  selectedSession : option StudySession;
  viewMode : ViewMode;
  subjects : list SubjectResponse;
  studySessions : list StudySession;
  generating : bool;
  timetableStats : TimetableStats;
  formData : FormData;
}.

Definition initial : State := {|
  showGenerateForm := false;
  showEditModal := false;
  selectedSession := None;
  viewMode := week;
  subjects := [];
  studySessions := [];
  generating := false;
  timetableStats := {| totalHours := int 0; days := int 0; subjectsCovered := int 0 |};
  formData := {| hoursPerDay := "4"; studyBlocks := []; examDate := "";
                 selectedSubjectIds := []; daysCount := "7" |};
|}.

Definition setGenerating (b : bool) (st : State) : State :=
  {| showGenerateForm := showGenerateForm st; showEditModal := showEditModal st;
     selectedSession := selectedSession st; viewMode := viewMode st;
     subjects := subjects st; studySessions := studySessions st;
     generating := b;
     timetableStats := timetableStats st; formData := formData st |}.

Definition setStudySessions (l : list StudySession) (st : State) : State :=
  {| showGenerateForm := showGenerateForm st; showEditModal := showEditModal st;
     selectedSession := selectedSession st; viewMode := viewMode st;
     subjects := subjects st; studySessions := l;
     generating := generating st;
     timetableStats := timetableStats st; formData := formData st |}.

Definition setTimetableStats (s : TimetableStats) (st : State) : State :=
  {| showGenerateForm := showGenerateForm st; showEditModal := showEditModal st;
     selectedSession := selectedSession st; viewMode := viewMode st;
     subjects := subjects st; studySessions := studySessions st;
     generating := generating st;
     timetableStats := s; formData := formData st |}.

Definition setShowGenerateForm (b : bool) (st : State) : State :=
  {| showGenerateForm := b; showEditModal := showEditModal st;
     selectedSession := selectedSession st; viewMode := viewMode st;
     subjects := subjects st; studySessions := studySessions st;
     generating := generating st;
     timetableStats := timetableStats st; formData := formData st |}.

Definition timeBlocks : list string :=
  ["Morning (6-12)"; "Afternoon (12-18)"; "Evening (18-24)"].

(** [toggleArrayItem]: drop every occurrence of an item that is
    included, append one that is not. *)
Definition toggleArrayItem (array : list string) (item : string) : list string :=
  if bool_decide (item ∈ array)
  then filter (fun i => i ≠ item) array
  else array ++ [item].

(** The element that [result.sessions.map] builds from [s]. *)
Definition toStudySession (s : gmap string jsvalue) : StudySession :=
  {| id := get s "id";
     subject := get s "subject";
     title := get s "title";
     duration := get s "duration";
     startTime := get s "start_time";
     color := get s "subject_color";
     type := get s "session_type" |}.

(** The object literal passed to [generateTimetable]. *)
Definition generateRequest (f : FormData) : GenerateRequest :=
  {| subject_ids := selectedSubjectIds f;
     hours_per_day := num_or (parseFloat (hoursPerDay f)) (int 4);
     preferred_blocks :=
       if (0 <? length (studyBlocks f))%nat
       then studyBlocks f
       else ["Morning (6-12)"; "Afternoon (12-18)"];
     exam_date := match examDate f with EmptyString => None | d => Some d end;
     days_count := num_or (parseInt (daysCount f)) (int 7) |}.

(** [handleGenerate], from the click to the end of its [finally]: the
    state it leaves and the calls it issued.  A rejected call is caught
    and logged; it changes nothing but [generating]. *)
Definition handleGenerate (backend : ApiCall -> settled) (st : State)
    : State * list ApiCall :=
  if (length (selectedSubjectIds (formData st)) =? 0)%nat then (st, [])
  else
    let st1 := setGenerating true st in
    let (outcome, calls) := generateTimetable backend (generateRequest (formData st1)) in
    match outcome with
    | Resolved result =>
        let st2 := setStudySessions (map toStudySession (sessions result)) st1 in
        let st3 := setTimetableStats
                     {| totalHours := total_hours result;
                        days := Api.days result;
                        subjectsCovered := subjects_covered result |} st2 in
        let st4 := setShowGenerateForm false st3 in
        (setGenerating false st4, calls)
    | Rejected _ =>
        (setGenerating false st1, calls)
    end.

(** The [disabled] attribute of the "Generate Timetable" button. *)
Definition generateDisabled (st : State) : bool :=
  generating st || (length (selectedSubjectIds (formData st)) =? 0)%nat.


Definition setSubjects (l : list SubjectResponse) (st : State) : State :=
  {| showGenerateForm := showGenerateForm st; showEditModal := showEditModal st;
     selectedSession := selectedSession st; viewMode := viewMode st;
     subjects := l; studySessions := studySessions st;
     generating := generating st;
     timetableStats := timetableStats st; formData := formData st |}.

Definition setFormData (f : FormData) (st : State) : State :=
  {| showGenerateForm := showGenerateForm st; showEditModal := showEditModal st;
     selectedSession := selectedSession st; viewMode := viewMode st;
     subjects := subjects st; studySessions := studySessions st;
     generating := generating st;
     timetableStats := timetableStats st; formData := f |}.

(** The effect that loads the subjects when the planner mounts, once
    [fetchSubjects()] has settled: the subjects are kept and all of them
    selected; a rejection is swallowed. *)
Definition loadSubjects (outcome : promise (list SubjectResponse)) (st : State) : State :=
  match outcome with
  | Fulfilled data =>
      let st1 := setSubjects data st in
      setFormData
        {| hoursPerDay := hoursPerDay (formData st1);
           studyBlocks := studyBlocks (formData st1);
           examDate := examDate (formData st1);
           selectedSubjectIds := map Api.id data;
           daysCount := daysCount (formData st1) |} st1
  | Failed _ => st
  end.


(** The [onClick] of the badge of a subject. *)
Definition toggleSubject (subjectId : string) (st : State) : State :=
  setFormData
    {| hoursPerDay := hoursPerDay (formData st);
       studyBlocks := studyBlocks (formData st);
       examDate := examDate (formData st);
       selectedSubjectIds := toggleArrayItem (selectedSubjectIds (formData st)) subjectId;
       daysCount := daysCount (formData st) |} st.

End PlannerView.

(** ** [src/features/analyze/components/AnalysisModal.tsx] *)

Module AnalysisModal.

Inductive Difficulty : Type := easy | medium | hard.

Record RecommendedSession : Type := {
  duration : number;
  type : string;
}.

Record AnalysisResult : Type := {
  totalPages : number;
  contentDensity : number;
  estimatedHours : number;
  difficulty : Difficulty;
  recommendedSessions : list RecommendedSession;
  suggestedTopics : list string;
  aiReasoning : option string;
  studyTips : option (list string);
}.

(** The [fileMetadata] prop; each of its fields is optional. *)
Record FileMetadata : Type := {
  pages : option number;
  estimatedTime : option string;
  md_difficulty : option Difficulty;
  aiKeyTopics : option (list string);
  aiStudyTips : option (list string);
  md_aiReasoning : option string;
  wordCount : option number;
  imageCount : option number;
}.

(** [fileMetadata?.field] *)
Definition field {A} (md : option FileMetadata) (f : FileMetadata -> option A) : option A :=
  match md with Some m => f m | None => None end.

Record Step : Type := { label : string; step_duration : Z }.

Definition steps : list Step :=
  [ {| label := "Processing file..."; step_duration := 300 |};
    {| label := "Extracting content..."; step_duration := 400 |};
    {| label := "Analyzing with AI..."; step_duration := 500 |};
    {| label := "Estimating study time..."; step_duration := 300 |};
    {| label := "Generating insights..."; step_duration := 200 |} ].

(** The state hooks of the modal. *)
Record State : Type := {
  progress : number;
  currentStep : string;
  isComplete : bool;
  result : option AnalysisResult;
}.

Definition closed : State :=
  {| progress := int 0; currentStep := "Uploading file...";
     isComplete := false; result := None |}.

(** The object literal [analysisResult] of [runAnalysis]. *)
Definition analysisResult (fileMetadata : option FileMetadata) : AnalysisResult :=
  let pages := opt_num_or (field fileMetadata pages) (int 20) in
  let estimatedTimeStr := opt_str_or (field fileMetadata estimatedTime) "3h" in
  let hours := num_or (parseFloat (remove_h_m estimatedTimeStr)) (int 3) in
  {| totalPages := pages;
     contentDensity :=
       Math_min
         (num_add
            (Math_floor
               (num_div
                  (num_div (opt_num_or (field fileMetadata wordCount) (int 0))
                           (Math_max pages (int 1)))
                  (lit (12 # 10))))
            (int 30))
         (int 100);
     estimatedHours := Math_ceil hours;
     difficulty := default medium (field fileMetadata md_difficulty);
     recommendedSessions :=
       [ {| duration := int 90; type := "Deep focus" |};
         {| duration := int 60; type := "Review" |};
         {| duration := int 90; type := "Deep focus" |};
         {| duration := int 30; type := "Quick recap" |} ];
     suggestedTopics :=
       default ["Core concepts"; "Key principles"; "Applications"; "Practice problems"]
               (field fileMetadata aiKeyTopics);
     aiReasoning := field fileMetadata md_aiReasoning;
     studyTips := field fileMetadata aiStudyTips |}.

(** One turn of the loop over [steps], after its timer has fired. *)
Definition runStep (acc : number * State) (step : Step) : number * State :=
  let (currentProgress, st) := acc in
  let increment := num_div (int 100) (int (Z.of_nat (length steps))) in
  let currentProgress := num_add currentProgress increment in
  (currentProgress,
   {| progress := Math_min currentProgress (int 100);
      currentStep := label step;
      isComplete := isComplete st;
      result := result st |}).

(** [runAnalysis], run to its end on an open modal. *)
Definition runAnalysis (fileMetadata : option FileMetadata) (st : State) : State :=
  let st := (foldl runStep (int 0, st) steps).2 in
  {| progress := progress st;
     currentStep := currentStep st;
     isComplete := true;
     result := Some (analysisResult fileMetadata) |}.

End AnalysisModal.

(** ** The four [formatMinutes] helpers *)

(** The subject-management component ([src/unnamed/part_000]). *)
Module SubjectManagement.
Section S.
Context `{Host}.

Definition formatMinutes (minutes : number) : string :=
  if num_strict_eq minutes (int 0) then "0m"
  else if num_lt minutes (int 60) then Number_toString (Math_round minutes) +:+ "m"
  else
    let h := Math_floor (num_div minutes (int 60)) in
    let m := Math_round (num_rem minutes (int 60)) in
    if num_gt m (int 0)
    then Number_toString h +:+ "h " +:+ Number_toString m +:+ "m"
    else Number_toString h +:+ "h".

End S.

Definition SUBJECT_COLORS : list string :=
  [ "#8B5CF6"; "#EC4899"; "#F59E0B"; "#10B981";
    "#3B82F6"; "#F97316"; "#06B6D4"; "#EF4444" ].

Record FormData : Type := {
  name : string;
  description : string;
  color : string;
}.

(** The state hooks of the component. *)
Record State : Type := {
  subjects : list Api.SubjectResponse;
  isModalOpen : bool;
  editingSubject : option Api.SubjectResponse;
  formData : FormData;
}.

(** The form [{ name: '', description: '', color: SUBJECT_COLORS[0] }]. *)
Definition emptyForm : FormData :=
  {| name := ""; description := ""; color := default "" (SUBJECT_COLORS !! 0%nat) |}.

Definition initial : State :=
  {| subjects := []; isModalOpen := false; editingSubject := None;
     formData := emptyForm |}.

(** [loadSubjects]: the list is replaced by what [fetchSubjects] resolves
    with; a rejection is caught and shown. *)
Definition loadSubjects (backend : Api.Fetch -> Api.promise (list Api.SubjectResponse))
    (st : State) : State * list Event :=
  match backend Api.fetchSubjects with
  | Api.Fulfilled data =>
      ({| subjects := data; isModalOpen := isModalOpen st;
          editingSubject := editingSubject st; formData := formData st |},
       [Sent Api.fetchSubjects])
  | Api.Failed _ =>
      (st, [Sent Api.fetchSubjects; Toast "Failed to load subjects" "error"])
  end.

Definition handleOpenModal (subject : option Api.SubjectResponse) (st : State) : State :=
  match subject with
  | Some s =>
      {| subjects := subjects st; isModalOpen := true;
         editingSubject := Some s;
         formData := {| name := Api.name s;
                        description := opt_str_or (Api.description s) "";
                        color := Api.color s |} |}
  | None =>
      {| subjects := subjects st; isModalOpen := true;
         editingSubject := None; formData := emptyForm |}
  end.

Definition handleCloseModal (st : State) : State :=
  {| subjects := subjects st; isModalOpen := false;
     editingSubject := None; formData := emptyForm |}.

(** The request that [handleSubmit] sends to save the form. *)
Definition saveRequest (st : State) : Api.Fetch :=
  let f := formData st in
  match editingSubject st with
  | Some s => Api.updateSubject (Api.id s) (name f) (description f) (color f)
  | None => Api.createSubject (name f) (description f) (color f)
  end.

(** [handleSubmit].  [save] settles the saving request and [load] the
    [fetchSubjects] of the [loadSubjects] that follows it. *)
Definition handleSubmit
    (save : Api.Fetch -> Api.promise Api.SubjectResponse)
    (load : Api.Fetch -> Api.promise (list Api.SubjectResponse))
    (st : State) : State * list Event :=
  match trim (name (formData st)) with
  | EmptyString => (st, [Toast "Subject name is required" "error"])
  | _ =>
      match save (saveRequest st) with
      | Api.Fulfilled _ =>
          let saved :=
            match editingSubject st with
            | Some _ => "Subject updated successfully"
            | None => "Subject created successfully"
            end in
          let (st1, events) := loadSubjects load st in
          (handleCloseModal st1,
           [Sent (saveRequest st); Toast saved "success"] ++ events)
      | Api.Failed _ =>
          (st, [Sent (saveRequest st); Toast "Failed to save subject" "error"])
      end
  end.

(** [handleDelete]; [confirmed] is the answer to [window.confirm]. *)
Definition handleDelete
    (confirmed : bool)
    (remove : Api.Fetch -> Api.promise unit)
    (load : Api.Fetch -> Api.promise (list Api.SubjectResponse))
    (id : string) (st : State) : State * list Event :=
  if confirmed then
    match remove (Api.deleteSubject id) with
    | Api.Fulfilled _ =>
        let (st1, events) := loadSubjects load st in
        (st1, [Sent (Api.deleteSubject id); Toast "Subject deleted successfully" "success"]
              ++ events)
    | Api.Failed _ =>
        (st, [Sent (Api.deleteSubject id); Toast "Failed to delete subject" "error"])
    end
  else (st, []).

End SubjectManagement.

(** [src/features/dashboard/DashboardView.tsx] *)
Module DashboardView.
Section S.
Context `{Host}.

Definition formatMinutes (minutes : number) : string :=
  if num_strict_eq minutes (int 0) then "0m"
  else if num_lt minutes (int 60) then Number_toString (Math_round minutes) +:+ "m"
  else
    let h := Math_floor (num_div minutes (int 60)) in
    let m := Math_round (num_rem minutes (int 60)) in
    if num_gt m (int 0)
    then Number_toString h +:+ "h " +:+ Number_toString m +:+ "m"
    else Number_toString h +:+ "h".

End S.

Section Clock.
Context `{Host}.

(** The clock of the host: [Date.now()], and the time value of
    [new Date(s)], which is [NaN] for a string that is not a date. *)
Variable Date_now : number.
Variable Date_getTime : string -> number.

Definition getTimeAgo (dateStr : option string) : string :=
  match dateStr with
  | None | Some EmptyString => ""
  | Some s =>
      let diff := num_sub Date_now (Date_getTime s) in
      let hours :=
        Math_floor (num_div diff (num_mul (num_mul (int 1000) (int 60)) (int 60))) in
      if num_lt hours (int 1) then "Just now"
      else if num_lt hours (int 24) then Number_toString hours +:+ "h ago"
      else
        let days := Math_floor (num_div hours (int 24)) in
        if num_strict_eq days (int 1) then "Yesterday"
        else Number_toString days +:+ "d ago"
  end.

End Clock.
End DashboardView.

(** [src/features/analyze/AnalyzeView.tsx] *)
Module AnalyzeView.
Section S.
Context `{Host}.

Definition formatMinutes (minutes : number) : string :=
  if num_lt minutes (int 60) then Number_toString (Math_round minutes) +:+ "m"
  else
    let h := Math_floor (num_div minutes (int 60)) in
    let m := Math_round (num_rem minutes (int 60)) in
    if num_gt m (int 0)
    then Number_toString h +:+ "h " +:+ Number_toString m +:+ "m"
    else Number_toString h +:+ "h".

End S.

(** The state hooks of the component. *)
Record State : Type := {
  subjects : list Api.SubjectResponse;
  selectedSubjectId : string;
  uploadedFiles : list Api.File.UploadedFileResponse;
  uploadingFiles : gmap string number;
  analyzingFile : option Api.File.UploadedFileResponse;
  loading : bool;
}.

Definition setUploadedFiles (l : list Api.File.UploadedFileResponse) (st : State) : State :=
  {| subjects := subjects st; selectedSubjectId := selectedSubjectId st;
     uploadedFiles := l; uploadingFiles := uploadingFiles st;
     analyzingFile := analyzingFile st; loading := loading st |}.

Definition setUploadingFiles (m : gmap string number) (st : State) : State :=
  {| subjects := subjects st; selectedSubjectId := selectedSubjectId st;
     uploadedFiles := uploadedFiles st; uploadingFiles := m;
     analyzingFile := analyzingFile st; loading := loading st |}.

Definition setAnalyzingFile (f : option Api.File.UploadedFileResponse) (st : State) : State :=
  {| subjects := subjects st; selectedSubjectId := selectedSubjectId st;
     uploadedFiles := uploadedFiles st; uploadingFiles := uploadingFiles st;
     analyzingFile := f; loading := loading st |}.

Definition setLoading (b : bool) (st : State) : State :=
  {| subjects := subjects st; selectedSubjectId := selectedSubjectId st;
     uploadedFiles := uploadedFiles st; uploadingFiles := uploadingFiles st;
     analyzingFile := analyzingFile st; loading := b |}.

(** [loadData].  Both requests are sent before either is awaited, and
    [Promise.all] rejects as soon as one of them does. *)
Definition loadData
    (subjectsBackend : Api.Fetch -> Api.promise (list Api.SubjectResponse))
    (filesBackend : Api.Fetch -> Api.promise (list Api.File.UploadedFileResponse))
    (st : State) : State * list Event :=
  let sent := [Sent Api.fetchSubjects; Sent (Api.fetchFiles None)] in
  match subjectsBackend Api.fetchSubjects, filesBackend (Api.fetchFiles None) with
  | Api.Fulfilled subjectsData, Api.Fulfilled filesData =>
      ({| subjects := subjectsData;
          selectedSubjectId :=
            match subjectsData, selectedSubjectId st with
            | s :: _, EmptyString => Api.id s
            | _, _ => selectedSubjectId st
            end;
          uploadedFiles := filesData;
          uploadingFiles := uploadingFiles st;
          analyzingFile := analyzingFile st;
          loading := false |},
       sent)
  | _, _ =>
      (setLoading false st,
       sent ++ [Toast "Failed to load data. Is the backend running?" "error"])
  end.

Definition handleDelete (backend : Api.Fetch -> Api.promise unit) (fileId : string) (st : State)
    : State * list Event :=
  match backend (Api.deleteFile fileId) with
  | Api.Fulfilled _ =>
      (setUploadedFiles (filter (fun f => Api.File.id f ≠ fileId) (uploadedFiles st)) st,
       [Sent (Api.deleteFile fileId); Toast "File deleted" "success"])
  | Api.Failed _ =>
      (st, [Sent (Api.deleteFile fileId); Toast "Failed to delete file" "error"])
  end.

(** One file of the list given to [handleUpload]: its name, what
    [Date.now()] returns when its turn comes, the percentages that the
    upload reports while it runs, and how the upload settles.  The loop
    awaits each upload, so it reaches its end when every upload settles;
    [handleUpload] below is the handler run to that end. *)
Record Upload : Type := {
  file_name : string;
  started : number;
  progress : list number;
  outcome : Api.promise Api.File.UploadedFileResponse;
}.

Section Files.
Context `{Host}.

Definition tempId (u : Upload) : string :=
  "uploading_" +:+ Number_toString (started u) +:+ "_" +:+ file_name u.

(** One turn of the loop of [handleUpload]. *)
Definition uploadOne (subjectId : string) (acc : State * list Event) (u : Upload)
    : State * list Event :=
  let (st, events) := acc in
  let st1 := setUploadingFiles (<[tempId u := int 0]> (uploadingFiles st)) st in
  let st2 :=
    foldl (fun s p => setUploadingFiles (<[tempId u := p]> (uploadingFiles s)) s)
          st1 (progress u) in
  let st3 := setUploadingFiles (delete (tempId u) (uploadingFiles st2)) st2 in
  match outcome u with
  | Api.Fulfilled result =>
      let st4 := setUploadedFiles (result :: uploadedFiles st3) st3 in
      let st5 :=
        match Api.File.analysis result with
        | Some _ => setAnalyzingFile (Some result) st4
        | None => st4
        end in
      (st5, events ++ [Sent (Api.uploadFile (file_name u) subjectId);
                       Toast (file_name u +:+ " uploaded and analyzed!") "success"])
  | Api.Failed message =>
      (st3, events ++ [Sent (Api.uploadFile (file_name u) subjectId);
                       Toast (str_or message "Upload failed") "error"])
  end.

Definition handleUpload (files : list Upload) (st : State) : State * list Event :=
  match selectedSubjectId st with
  | EmptyString => (st, [Toast "Please select a subject first" "error"])
  | subjectId => foldl (uploadOne subjectId) (st, []) files
  end.

Definition formatFileSize (bytes : number) : string :=
  if num_lt bytes (int 1024) then Number_toString bytes +:+ " B"
  else if num_lt bytes (num_mul (int 1024) (int 1024))
  then toFixed (num_div bytes (int 1024)) 1 +:+ " KB"
  else toFixed (num_div bytes (num_mul (int 1024) (int 1024))) 2 +:+ " MB".

End Files.
End AnalyzeView.

(** The library view, the second component of
    [src/features/analyze/components/AnalysisModal.tsx]. *)
Module LibraryView.
Section S.
Context `{Host}.

Definition formatMinutes (minutes : number) : string :=
  if num_lt minutes (int 60) then Number_toString (Math_round minutes) +:+ "m"
  else
    let h := Math_floor (num_div minutes (int 60)) in
    let m := Math_round (num_rem minutes (int 60)) in
    if num_gt m (int 0)
    then Number_toString h +:+ "h " +:+ Number_toString m +:+ "m"
    else Number_toString h +:+ "h".

End S.

(** The updater that [toggleTag] passes to [setSelectedTags]. *)
Definition toggleTag (tag : string) (prev : list string) : list string :=
  if bool_decide (tag ∈ prev)
  then filter (fun t => t ≠ tag) prev
  else prev ++ [tag].

(** [handleDelete], on the [files] hook, the only one it sets; a failure
    is logged to the console. *)
Definition handleDelete (backend : Api.Fetch -> Api.promise unit) (fileId : string)
    (files : list Api.File.UploadedFileResponse)
    : list Api.File.UploadedFileResponse * list Event :=
  match backend (Api.deleteFile fileId) with
  | Api.Fulfilled _ =>
      (filter (fun f => Api.File.id f ≠ fileId) files, [Sent (Api.deleteFile fileId)])
  | Api.Failed _ => (files, [Sent (Api.deleteFile fileId)])
  end.

Section Files.
Context `{Host}.

Definition formatFileSize (bytes : number) : string :=
  if num_lt bytes (int 1024) then Number_toString bytes +:+ " B"
  else if num_lt bytes (num_mul (int 1024) (int 1024))
  then toFixed (num_div bytes (int 1024)) 1 +:+ " KB"
  else toFixed (num_div bytes (num_mul (int 1024) (int 1024))) 2 +:+ " MB".

End Files.
End LibraryView.

(* ================================================================== *)
(** * Part III.  The timetable engine                                  *)
(* ================================================================== *)

(** The engine behind [POST /api/timetable/generate] belongs to the
    backend; the client sources hold only its caller, [generateTimetable].
    It is modelled here from sections 3, 4, 6 and 7 of the specification,
    one definition for each step that the specification describes. *)

Module Engine.

(** *** Data model (section 3) *)

Inductive TimeBlock : Type := Morning | Afternoon | Evening.

#[global] Instance TimeBlock_eq_dec : EqDecision TimeBlock.
Proof. solve_decision. Defined.

(** Modelled from the spec: the window of a time block.  The
    specification names the blocks and gives each "an implicit duration
    ceiling per day"; the hours are those of the labels that the planner
    offers, [Morning (6-12)], [Afternoon (12-18)] and [Evening (18-24)].
    Times of day are minutes after midnight. *)
Definition window_start (b : TimeBlock) : Z :=
  match b with
  | Morning => 6 * 60
  | Afternoon => 12 * 60
  | Evening => 18 * 60
  end.

Definition window_length : Z := 6 * 60.

Inductive SessionType : Type := deep_focus | review | quick_recap.

Record Subject : Type := {
  name : string;
  color : string;
  outstanding_minutes : Q;
}.

Record GenerationRequest : Type := {
  subject_ids : list string;
  hours_per_day : option Q;
  preferred_blocks : list TimeBlock;
  exam_date : option string;
  days_count : option Z;
}.

Record StudySession : Type := {
  id : string;
  subject_id : string;
  subject_name : string;
  subject_color : string;
  title : string;
  duration_minutes : Z;
  start_time : Z;
  day_index : nat;
  session_type : SessionType;
}.

Record Schedule : Type := {
  sessions : list StudySession;
  total_hours : Q;
  days : nat;
  subjects_covered : nat;
}.

(** *** Errors (section 7) *)

Inductive Reason : Type :=
  | EmptySubjectIds
  | NonPositiveHoursPerDay
  | NonPositiveDaysCount
  | UnparseableExamDate
  | UnknownSubject (id : string).

Inductive Error : Type := InvalidRequest (why : Reason).

(** *** Calendar dates *)

Definition is_leap (y : Z) : bool :=
  ((y mod 4 =? 0) && (negb (y mod 100 =? 0) || (y mod 400 =? 0)))%Z.

Definition days_in_month (y m : Z) : Z :=
  if (m =? 2)%Z then (if is_leap y then 29 else 28)%Z
  else if ((m =? 4) || (m =? 6) || (m =? 9) || (m =? 11))%Z then 30%Z
  else 31%Z.

(** The number of days from 1970-01-01 to a date of the proleptic
    Gregorian calendar. *)
Definition days_from_civil (y m d : Z) : Z :=
  (let y' := if m <=? 2 then y - 1 else y in
   let era := y' / 400 in
   let yoe := y' - era * 400 in
   let doy := (153 * (if 2 <? m then m - 3 else m + 9) + 2) / 5 + d - 1 in
   let doe := yoe * 365 + yoe / 4 - yoe / 100 + doy in
   era * 146097 + doe - 719468)%Z.

Definition number_of (cs : list ascii) : option Z :=
  foldl (fun acc c =>
           match acc, decimal_digit c with
           | Some n, Some d => Some (n * 10 + d)%Z
           | _, _ => None
           end) (Some 0%Z) cs.

(** Modelled from the spec: the parser of [exam_date], an ISO calendar
    date [YYYY-MM-DD]; [None] is the "unparseable" of section 7. *)
Definition parse_iso_date (s : string) : option Z :=
  match String.list_ascii_of_string s with
  | [y1; y2; y3; y4; "-"%char; m1; m2; "-"%char; d1; d2] =>
      match number_of [y1; y2; y3; y4], number_of [m1; m2], number_of [d1; d2] with
      | Some y, Some m, Some d =>
          if ((1 <=? m) && (m <=? 12) && (1 <=? d) && (d <=? days_in_month y m))%Z
          then Some (days_from_civil y m d)
          else None
      | _, _, _ => None
      end
  | _ => None
  end.

(** *** Validation (sections 6 and 7) *)

Definition Qltb (a b : Q) : bool := negb (Qle_bool b a).

(** The subjects of a request, in input order without repetition, each
    with its snapshot from the store; the first unknown id otherwise. *)
Fixpoint resolve (store : gmap string Subject) (ids : list string)
    : Error + list (string * Subject) :=
  match ids with
  | [] => inr []
  | i :: rest =>
      match store !! i with
      | None => inl (InvalidRequest (UnknownSubject i))
      | Some s =>
          match resolve store rest with
          | inl e => inl e
          | inr l => inr ((i, s) :: l)
          end
      end
  end.

(** A request with its defaults filled in. *)
Record Constraints : Type := {
  subjects : list (string * Subject);
  hours : Q;
  blocks : list TimeBlock;
  exam_day : option Z;
  horizon : Z;
}.

(** Modelled from the spec: the validation of section 7 and the defaults
    of section 6.  It happens "before any allocation work". *)
Definition validate (store : gmap string Subject) (req : GenerationRequest)
    : Error + Constraints :=
  let h := default (4 # 1) (hours_per_day req) in
  let n := default 7%Z (days_count req) in
  match subject_ids req with
  | [] => inl (InvalidRequest EmptySubjectIds)
  | _ =>
      if Qle_bool h 0%Q then inl (InvalidRequest NonPositiveHoursPerDay)
      else if (n <=? 0)%Z then inl (InvalidRequest NonPositiveDaysCount)
      else
        match exam_date req, from_option parse_iso_date None (exam_date req) with
        | Some _, None => inl (InvalidRequest UnparseableExamDate)
        | _, e =>
            match resolve store (remove_dups (subject_ids req)) with
            | inl err => inl err
            | inr subs =>
                inr {| subjects := subs;
                       hours := h;
                       blocks := match preferred_blocks req with
                                 | [] => [Morning; Afternoon]
                                 | bs => bs
                                 end;
                       exam_day := e;
                       horizon := n |}
            end
        end
  end.

(** Modelled from the spec: the effective horizon of section 4.3, step 5:
    [min(days_count, days_until(exam_date))], and no day at all when the
    exam date is earlier than tomorrow. *)
Definition effective_days_count (today : Z) (c : Constraints) : Z :=
  match exam_day c with
  | None => horizon c
  | Some e =>
      if (e <? today + 1)%Z then 0%Z
      else Z.min (horizon c) (e - today)
  end.

(** *** Time-debt distribution (section 4.1) *)

Definition Qsum (l : list Q) : Q := foldr Qplus 0%Q l.

Definition Qmin (a b : Q) : Q := if Qle_bool a b then a else b.

(** Steps 1 and 2: the equal split when nothing is owed, the capped
    proportional target otherwise. *)
Definition targets (available : Q) (owed : list Q) : list Q :=
  let total := Qsum owed in
  if Qeq_bool total 0%Q
  then map (fun _ => available / inject_Z (Z.of_nat (length owed)))%Q owed
  else map (fun o => Qmin o (available * o / total))%Q owed.

(** Step 3, one pass: what is left of the capacity goes, in proportion to
    what they owe, to the subjects still below their ceiling.  A share is
    the pair of what a subject owes and what it has been given. *)
Definition redistribute (available : Q) (shares : list (Q * Q)) : list (Q * Q) :=
  let remainder := (available - Qsum (map snd shares))%Q in
  let below := List.filter (fun s => Qltb s.2 s.1) shares in
  let weight := Qsum (map fst below) in
  if Qltb 0%Q remainder && Qltb 0%Q weight
  then map (fun s => if Qltb s.2 s.1
                     then (s.1, Qmin s.1 (s.2 + remainder * s.1 / weight)%Q)
                     else s) shares
  else shares.

(** Step 3: at most [N] passes for [N] subjects. *)
Definition water_fill (available : Q) (owed : list Q) : list Q :=
  map snd (Nat.iter (length owed) (redistribute available)
                    (zip owed (targets available owed))).

Definition granularity : Z := 30.

Definition round_down (a : Q) : Z := (granularity * Qfloor (a / inject_Z granularity))%Z.

(** Whether the first subject has the larger ratio of outstanding to
    allocated minutes; the ratios are compared by cross-multiplication, so
    that a subject that was rounded down to nothing comes first. *)
Definition larger_ratio (a b : Q * Z) : bool :=
  Qltb (b.1 * inject_Z a.2)%Q (a.1 * inject_Z b.2)%Q.

(** The position of the subject with the largest ratio, the earliest one
    in case of a tie. *)
Fixpoint neediest (best : nat * (Q * Z)) (i : nat) (l : list (Q * Z)) : nat :=
  match l with
  | [] => best.1
  | x :: rest =>
      if larger_ratio x best.2 then neediest (i, x) (S i) rest
      else neediest best (S i) rest
  end.

(** Step 4: every allocation is rounded down to the granularity and the
    whole minutes lost to rounding are donated to the neediest subject. *)
Definition round_and_donate (owed allocations : list Q) : list Z :=
  let rounded := map round_down allocations in
  let leftover := Qfloor (Qsum allocations - inject_Z (foldr Z.add 0%Z rounded))%Q in
  match zip owed rounded with
  | [] => rounded
  | x :: rest =>
      let i := neediest (0%nat, x) 1 rest in
      alter (Z.add leftover) i rounded
  end.

(** Modelled from the spec: the distribution of section 4.1, from the
    subjects and the capacity of the horizon to the minutes allocated to
    each subject. *)
Definition distribute (available : Q) (subs : list (string * Subject))
    : list ((string * Subject) * Z) :=
  let owed := map (fun s => outstanding_minutes s.2) subs in
  zip subs (round_and_donate owed (water_fill available owed)).

(** *** Session-type sequencing (section 4.2) *)

Definition catalog : list (SessionType * Z) :=
  [ (deep_focus, 90%Z); (review, 60%Z); (deep_focus, 90%Z); (quick_recap, 30%Z) ].

Definition catalog_minutes : Z := foldr Z.add 0%Z (map snd catalog).

Definition minimum_session : Z := 15.

(** One walk along the catalog with less than a full cycle left: the
    entries that fit, then one last session of what remains when that is
    at least the minimum.  The minutes that make no session are handed
    back. *)
Fixpoint walk (entries : list (SessionType * Z)) (remaining : Z)
    : list (SessionType * Z) * Z :=
  match entries with
  | [] => ([], remaining)
  | (ty, d) :: rest =>
      if (d <=? remaining)%Z then
        let (l, carry) := walk rest (remaining - d) in ((ty, d) :: l, carry)
      else if (minimum_session <=? remaining)%Z then ([(ty, remaining)], 0%Z)
      else ([], remaining)
  end.

(** The catalog applied cyclically to an allocation: the full cycles,
    then the walk along the last, partial one. *)
Definition sequence_sessions (allocated : Z) : list (SessionType * Z) * Z :=
  let (l, carry) := walk catalog (allocated mod catalog_minutes) in
  (concat (replicate (Z.to_nat (allocated / catalog_minutes)) catalog) ++ l, carry).

(** A session that has a subject, a type and a duration but no place
    yet. *)
Record Candidate : Type := {
  c_subject : string * Subject;
  c_type : SessionType;
  c_duration : Z;
}.

(** Modelled from the spec: the sequencing of section 4.2 over the
    subjects in iteration order; the minutes too few for a session pass to
    the next subject. *)
Fixpoint sequence_all (allocations : list ((string * Subject) * Z)) (carry : Z)
    : list (list Candidate) :=
  match allocations with
  | [] => []
  | (s, a) :: rest =>
      let (l, carry') := sequence_sessions (a + carry) in
      map (fun e => {| c_subject := s; c_type := e.1; c_duration := e.2 |}) l
      :: sequence_all rest carry'
  end.

(** *** Placement (section 4.3) *)

(** Step 2: one session from each subject per pass. *)
Fixpoint round_robin {A} (passes : nat) (queues : list (list A)) : list A :=
  match passes with
  | O => []
  | S n => omap head queues ++ round_robin n (map tail queues)
  end.

Definition interleave {A} (queues : list (list A)) : list A :=
  round_robin (foldr Nat.max 0%nat (map length queues)) queues.

(** The capacity of one day: the minutes of the daily budget that remain,
    and the minutes already taken at the head of each block. *)
Record DayState : Type := {
  remaining : Q;
  used : TimeBlock -> Z;
}.

Definition fresh_day (h : Q) : DayState :=
  {| remaining := (h * 60)%Q; used := fun _ => 0%Z |}.

Definition fits (ds : DayState) (duration : Z) (b : TimeBlock) : bool :=
  Qle_bool (inject_Z duration) (remaining ds)
  && (used ds b + duration <=? window_length)%Z.

Definition consume (ds : DayState) (b : TimeBlock) (duration : Z) : DayState :=
  {| remaining := (remaining ds - inject_Z duration)%Q;
     used := fun b' => if decide (b' = b) then (used ds b + duration)%Z else used ds b' |}.

(** Step 3: the first day, and in it the first preferred block, in which
    the session fits. *)
Fixpoint find_slot (capacity : list DayState) (bs : list TimeBlock)
    (duration : Z) (d : nat) : option (nat * TimeBlock) :=
  match capacity with
  | [] => None
  | ds :: rest =>
      match List.find (fits ds duration) bs with
      | Some b => Some (d, b)
      | None => find_slot rest bs duration (S d)
      end
  end.

Definition type_label (ty : SessionType) : string :=
  match ty with
  | deep_focus => "Deep Focus"
  | review => "Review"
  | quick_recap => "Quick Recap"
  end.

(** Steps 3 and 4 for one session: it is placed at the next free minute
    of its block and the capacity is consumed, or it is dropped. *)
Definition place (bs : list TimeBlock)
    (st : list DayState * list StudySession) (c : Candidate)
    : list DayState * list StudySession :=
  match find_slot st.1 bs (c_duration c) 0 with
  | None => st
  | Some (d, b) =>
      match st.1 !! d with
      | None => st
      | Some ds =>
          (<[d := consume ds b (c_duration c)]> st.1,
           st.2 ++ [ {| id := "session-" +:+ pretty (S (length st.2));
                        subject_id := (c_subject c).1;
                        subject_name := name (c_subject c).2;
                        subject_color := color (c_subject c).2;
                        title := type_label (c_type c) +:+ ": " +:+ name (c_subject c).2;
                        duration_minutes := c_duration c;
                        start_time := window_start b + used ds b;
                        day_index := d;
                        session_type := c_type c |} ])
      end
  end.

(** Modelled from the spec: the placement of section 4.3, the capacity
    counters being threaded through it. *)
Definition place_all (bs : list TimeBlock) (capacity : list DayState)
    (cs : list Candidate) : list StudySession :=
  (foldl (place bs) (capacity, []) cs).2.

(** *** Schedule assembly (section 4.4) *)

Definition round_to_one_decimal (x : Q) : Q :=
  Qred (inject_Z (Qfloor (x * 10 + (1 # 2))) / 10)%Q.

(** Modelled from the spec: the summary of section 4.4. *)
Definition assemble (l : list StudySession) : Schedule :=
  {| sessions := l;
     total_hours :=
       round_to_one_decimal (inject_Z (foldr Z.add 0%Z (map duration_minutes l)) / 60)%Q;
     days := foldr Nat.max 0%nat (map (fun s => S (day_index s)) l);
     subjects_covered := length (remove_dups (map subject_id l)) |}.

(** *** The engine *)

(** Modelled from the spec: the timetable generator of section 2,
    [(subjects, constraints) -> schedule], which is the backend's handler
    of [POST /timetable/generate] and is not among the client sources.  It
    runs on the day [today] against the snapshot [store] of the subject
    store: validation, the effective horizon, distribution, sequencing,
    round-robin placement and assembly. *)
Definition generate (today : Z) (store : gmap string Subject) (req : GenerationRequest)
    : Error + Schedule :=
  match validate store req with
  | inl e => inl e
  | inr c =>
      let n := effective_days_count today c in
      let available := (hours c * 60 * inject_Z n)%Q in
      let queues := sequence_all (distribute available (subjects c)) 0 in
      inr (assemble (place_all (blocks c)
                               (replicate (Z.to_nat n) (fresh_day (hours c)))
                               (interleave queues)))
  end.

(** Whether two sessions of one day occupy overlapping ranges
    [[start_time, start_time + duration)]. *)
Definition overlap (s1 s2 : StudySession) : Prop :=
  day_index s1 = day_index s2
  /\ (start_time s1 < start_time s2 + duration_minutes s2)%Z
  /\ (start_time s2 < start_time s1 + duration_minutes s1)%Z.

Definition no_overlap (l : list StudySession) : Prop :=
  forall i j s1 s2, i <> j -> l !! i = Some s1 -> l !! j = Some s2 -> ~ overlap s1 s2.

(** *** What a request must satisfy, and the empty schedule *)

(** A request that passes validation: some subject is asked for, every
    subject asked for is in the store, the daily budget and the number of
    days are positive, and the exam date, when there is one, parses. *)
Definition valid_request (store : gmap string Subject) (req : GenerationRequest) : Prop :=
  subject_ids req <> []
  /\ (forall i, i ∈ subject_ids req -> is_Some (store !! i))
  /\ (0 < default (4 # 1) (hours_per_day req))%Q
  /\ (0 < default 7 (days_count req))%Z
  /\ (forall s, exam_date req = Some s -> is_Some (parse_iso_date s)).

Definition empty_schedule : Schedule :=
  {| sessions := []; total_hours := 0; days := 0; subjects_covered := 0 |}.

(** *** The invariant of placement *)

(** No block of any day is filled beyond its window. *)
Definition well_formed (capacity : list DayState) : Prop :=
  forall d ds b, capacity !! d = Some ds -> (0 <= used ds b <= window_length)%Z.

(** A placed session lies in the part of some block of its day that has
    been taken. *)
Definition within (capacity : list DayState) (s : StudySession) : Prop :=
  exists ds b,
    capacity !! day_index s = Some ds
    /\ (window_start b <= start_time s)%Z
    /\ (start_time s + duration_minutes s <= window_start b + used ds b)%Z.

Definition placement_invariant (st : list DayState * list StudySession) : Prop :=
  well_formed st.1 /\ Forall (within st.1) st.2 /\ no_overlap st.2.

End Engine.

(** ** Sample data *)

Module Sample.

Definition session : gmap string jsvalue :=
  list_to_map
    [ ("id", JString "session-1");
      ("subject", JString "Algebra");
      ("subject_color", JString "#7c3aed");
      ("title", JString "Deep Focus: Algebra");
      ("duration", JNumber (int 90));
      ("start_time", JString "06:00");
      ("day", JString "Monday");
      ("session_type", JString "deep_focus") ].

Definition backend (c : Api.ApiCall) : Api.settled :=
  Api.Resolved {| Api.sessions := [session];
                  Api.total_hours := Finite (3 # 2);
                  Api.days := int 1;
                  Api.subjects_covered := int 1 |}.

(** A form with one subject selected, no block chosen, the hours
    cleared and letters typed for the days. *)
Definition form : PlannerView.FormData :=
  {| PlannerView.hoursPerDay := "";
     PlannerView.studyBlocks := [];
     PlannerView.examDate := "";
     PlannerView.selectedSubjectIds := ["subject-1"];
     PlannerView.daysCount := "abc" |}.

Definition with_form (f : PlannerView.FormData) : PlannerView.State :=
  {| PlannerView.showGenerateForm := true;
     PlannerView.showEditModal := false;
     PlannerView.selectedSession := None;
     PlannerView.viewMode := PlannerView.week;
     PlannerView.subjects := [];
     PlannerView.studySessions := [];
     PlannerView.generating := false;
     PlannerView.timetableStats := PlannerView.timetableStats PlannerView.initial;
     PlannerView.formData := f |}.

Definition metadata : AnalysisModal.FileMetadata :=
  {| AnalysisModal.pages := Some (int 5);
     AnalysisModal.estimatedTime := Some "1h 30m";
     AnalysisModal.md_difficulty := None;
     AnalysisModal.aiKeyTopics := None;
     AnalysisModal.aiStudyTips := None;
     AnalysisModal.md_aiReasoning := None;
     AnalysisModal.wordCount := Some (int 100);
     AnalysisModal.imageCount := None |}.

(** The two subjects of the scenario of section 8 of the specification. *)
Definition store : gmap string Engine.Subject :=
  <["A" := {| Engine.name := "Algebra"; Engine.color := "#7c3aed";
              Engine.outstanding_minutes := 180 |}]>
  (<["B" := {| Engine.name := "Biology"; Engine.color := "#059669";
               Engine.outstanding_minutes := 60 |}]> ∅).

Definition request (exam : option string) : Engine.GenerationRequest :=
  {| Engine.subject_ids := ["A"; "B"];
     Engine.hours_per_day := Some (4 # 1);
     Engine.preferred_blocks := [];
     Engine.exam_date := exam;
     Engine.days_count := Some 7%Z |}.

(** 2026-11-02, in days since 1970-01-01. *)
Definition today : Z := 20759.


(** A host for the sample runs.  None of them prints a number that is
    not a whole number of at most 53 bits, so the digits of the other
    numbers are left out. *)
Definition host : Host := {| shortest_notation := fun _ => "" |}.



(** A backend that rejects every request. *)
Definition unreachable (c : Api.ApiCall) : Api.settled :=
  Api.Rejected "Failed to fetch".

Definition subject (id name : string) : Api.SubjectResponse :=
  {| Api.id := id; Api.name := name; Api.description := None;
     Api.color := "#8B5CF6"; Api.file_count := int 0;
     Api.total_study_time := int 0;
     Api.created_at := "2026-11-02T00:00:00"; Api.updated_at := "2026-11-02T00:00:00" |}.

Definition subjects : list Api.SubjectResponse :=
  [subject "subject-1" "Algebra"; subject "subject-2" "Biology"].

(** An analysed deck of slides, a file without an analysis, and two
    uploads: one that reports its progress and succeeds, one that fails
    without a message. *)
Definition analysis : Api.File.FileAnalysisResponse :=
  {| Api.File.slide_count := int 12;
     Api.File.total_word_count := int 600;
     Api.File.total_image_count := int 4;
     Api.File.total_char_count := int 3600;
     Api.File.estimated_reading_time := int 30;
     Api.File.estimated_study_time := int 90;
     Api.File.difficulty := "medium";
     Api.File.slides := [];
     Api.File.ai_estimated_study_time := None;
     Api.File.ai_difficulty := None;
     Api.File.ai_key_topics := None;
     Api.File.ai_study_tips := None;
     Api.File.ai_reasoning := None |}.

Definition file (id name : string) (analysis : option Api.File.FileAnalysisResponse)
    : Api.File.UploadedFileResponse :=
  {| Api.File.id := id;
     Api.File.file_name := name;
     Api.File.original_name := name;
     Api.File.file_type := "ppt";
     Api.File.file_size := int 1536;
     Api.File.subject_id := "subject-1";
     Api.File.subject_name := Some "Algebra";
     Api.File.subject_color := Some "#8B5CF6";
     Api.File.uploaded_at := "2026-11-02T00:00:00";
     Api.File.analysis := analysis |}.

Definition uploads : list AnalyzeView.Upload :=
  [ {| AnalyzeView.file_name := "algebra.pptx";
       AnalyzeView.started := int 1793592000000;
       AnalyzeView.progress := [int 40; int 100];
       AnalyzeView.outcome := Api.Fulfilled (file "file-2" "algebra.pptx" (Some analysis)) |};
    {| AnalyzeView.file_name := "notes.pdf";
       AnalyzeView.started := int 1793592000250;
       AnalyzeView.progress := [];
       AnalyzeView.outcome := Api.Failed "" |} ].

(** The analyze view with a subject selected and one file listed. *)
Definition analyzing : AnalyzeView.State :=
  {| AnalyzeView.subjects := subjects;
     AnalyzeView.selectedSubjectId := "subject-1";
     AnalyzeView.uploadedFiles := [file "file-1" "logic.pptx" None];
     AnalyzeView.uploadingFiles := ∅;
     AnalyzeView.analyzingFile := None;
     AnalyzeView.loading := false |}.

(** The subject form, open for a new subject under the name typed. *)
Definition naming (name : string) : SubjectManagement.State :=
  {| SubjectManagement.subjects := subjects;
     SubjectManagement.isModalOpen := true;
     SubjectManagement.editingSubject := None;
     SubjectManagement.formData :=
       {| SubjectManagement.name := name;
          SubjectManagement.description := "";
          SubjectManagement.color := "#EC4899" |} |}.

(** A backend that saves every subject, and one whose list of subjects
    cannot be fetched. *)
Definition saving (f : Api.Fetch) : Api.promise Api.SubjectResponse :=
  Api.Fulfilled (subject "subject-3" "Chemistry").

Definition unlisted (f : Api.Fetch) : Api.promise (list Api.SubjectResponse) :=
  Api.Failed "Failed to fetch".

End Sample.

(* ================================================================== *)
(** * Part IV.  Properties                                             *)
(* ================================================================== *)

(** ** Sample runs *)

Section SampleRuns.
Context `{Host}.

Example parseFloat_4 : parseFloat "4" = int 4.
Proof. vm_compute. reflexivity. Qed.

Example parseFloat_2_5 : parseFloat "  2.5h" = Finite (5 # 2).
Proof. vm_compute. reflexivity. Qed.

Example parseFloat_exp : parseFloat "-.5e1x" = int (-5).
Proof. vm_compute. reflexivity. Qed.

Example parseFloat_tenth :
  parseFloat "0.1" = Finite (3602879701896397 # 36028797018963968).
Proof. vm_compute. reflexivity. Qed.

Example parseFloat_overflow : parseFloat "1e400" = Infinity false.
Proof. vm_compute. reflexivity. Qed.

(** A number too small for binary64 reads as zero, which is falsy. *)
Example parseFloat_underflow : num_or (parseFloat "1e-400") (int 4) = int 4.
Proof. vm_compute. reflexivity. Qed.

Example parseFloat_dot : parseFloat "." = NaN.
Proof. reflexivity. Qed.

Example parseFloat_e_without_digits : parseFloat "3e+" = int 3.
Proof. vm_compute. reflexivity. Qed.

Example parseInt_7 : parseInt "7 days" = int 7.
Proof. vm_compute. reflexivity. Qed.

Example parseInt_hex : parseInt "-0x1A" = int (-26).
Proof. vm_compute. reflexivity. Qed.

Example parseInt_fraction : parseInt "07.9" = int 7.
Proof. vm_compute. reflexivity. Qed.

(** 2^53 + 1 is not a binary64 value. *)
Example parseInt_rounds : parseInt "9007199254740993" = int 9007199254740992.
Proof. vm_compute. reflexivity. Qed.

Example parseInt_0x : parseInt "0x" = NaN.
Proof. reflexivity. Qed.

Example toString_90 : Number_toString (int 90) = "90".
Proof. vm_compute. reflexivity. Qed.

Example remove_h_m_1h_30m : remove_h_m "1h 30m" = "1 30".
Proof. reflexivity. Qed.

Example formatMinutes_90 : SubjectManagement.formatMinutes (int 90) = "1h 30m".
Proof. vm_compute. reflexivity. Qed.

Example formatMinutes_120 : AnalyzeView.formatMinutes (int 120) = "2h".
Proof. vm_compute. reflexivity. Qed.

Example formatMinutes_45 : LibraryView.formatMinutes (Finite (89 # 2)) = "45m".
Proof. vm_compute. reflexivity. Qed.

Example formatMinutes_59_9 : AnalyzeView.formatMinutes (Finite (599 # 10)) = "60m".
Proof. vm_compute. reflexivity. Qed.

Example formatMinutes_NaN : DashboardView.formatMinutes NaN = "NaNh".
Proof. vm_compute. reflexivity. Qed.

Example toggle_off :
  PlannerView.toggleArrayItem ["Morning (6-12)"; "Evening (18-24)"] "Morning (6-12)"
  = ["Evening (18-24)"].
Proof. vm_compute. reflexivity. Qed.

Example toggle_on :
  PlannerView.toggleArrayItem ["Evening (18-24)"] "Morning (6-12)"
  = ["Evening (18-24)"; "Morning (6-12)"].
Proof. vm_compute. reflexivity. Qed.

Example density_of_sample :
  AnalysisModal.contentDensity (AnalysisModal.analysisResult (Some Sample.metadata))
  = int 46
  /\ AnalysisModal.estimatedHours (AnalysisModal.analysisResult (Some Sample.metadata))
     = int 1.
Proof. vm_compute. split; reflexivity. Qed.

Example progress_when_done :
  AnalysisModal.progress (AnalysisModal.runAnalysis None AnalysisModal.closed) = int 100
  /\ AnalysisModal.currentStep (AnalysisModal.runAnalysis None AnalysisModal.closed)
     = "Generating insights...".
Proof. vm_compute. split; reflexivity. Qed.

(** The density is a number only for a finite count of words: infinitely
    many words on infinitely many pages give [NaN]. *)
Example density_of_infinities :
  AnalysisModal.contentDensity
    (AnalysisModal.analysisResult
       (Some {| AnalysisModal.pages := Some (Infinity false);
                AnalysisModal.estimatedTime := None;
                AnalysisModal.md_difficulty := None;
                AnalysisModal.aiKeyTopics := None;
                AnalysisModal.aiStudyTips := None;
                AnalysisModal.md_aiReasoning := None;
                AnalysisModal.wordCount := Some (Infinity false);
                AnalysisModal.imageCount := None |}))
  = NaN.
Proof. vm_compute. reflexivity. Qed.

(** Without metadata the result is 20 pages, density 30 and 3 hours. *)
Example analysis_without_metadata :
  AnalysisModal.totalPages (AnalysisModal.analysisResult None) = int 20
  /\ AnalysisModal.contentDensity (AnalysisModal.analysisResult None) = int 30
  /\ AnalysisModal.estimatedHours (AnalysisModal.analysisResult None) = int 3.
Proof. vm_compute. repeat split; reflexivity. Qed.

Example sample_session_conforms :
  conforms Sample.session Api.StudySessionResponse = true.
Proof. vm_compute. reflexivity. Qed.

Example handleGenerate_sample :
  let (st, calls) :=
    PlannerView.handleGenerate Sample.backend (Sample.with_form Sample.form) in
  length calls = 1%nat
  /\ PlannerView.showGenerateForm st = false
  /\ PlannerView.generating st = false
  /\ PlannerView.studySessions st = [PlannerView.toStudySession Sample.session]
  /\ PlannerView.totalHours (PlannerView.timetableStats st) = Finite (3 # 2).
Proof. vm_compute. repeat split; reflexivity. Qed.

End SampleRuns.

(** The scenarios of section 8 of the specification, run on the model of
    the engine. *)

Example day_number_of_today : Engine.parse_iso_date "2026-11-02" = Some Sample.today.
Proof. vm_compute. reflexivity. Qed.

Example unparseable_dates :
  Engine.parse_iso_date "2023-02-29" = None /\ Engine.parse_iso_date "tomorrow" = None.
Proof. vm_compute. split; reflexivity. Qed.

Example scenario_proportional :
  match Engine.generate Sample.today Sample.store (Sample.request None) with
  | inr sched =>
      map (fun s => (Engine.subject_id s, Engine.duration_minutes s,
                     Engine.start_time s, Engine.day_index s))
          (Engine.sessions sched)
      = [ ("A", 90%Z, 360%Z, 0%nat); ("B", 60%Z, 450%Z, 0%nat);
          ("A", 60%Z, 510%Z, 0%nat); ("A", 30%Z, 570%Z, 0%nat) ]
      /\ Engine.total_hours sched = 4%Q
      /\ Engine.days sched = 1%nat
      /\ Engine.subjects_covered sched = 2%nat
  | inl _ => False
  end.
Proof. vm_compute. repeat split; reflexivity. Qed.

Example scenario_nothing_owed :
  match Engine.generate Sample.today
          (<["A" := {| Engine.name := "Algebra"; Engine.color := "#7c3aed";
                       Engine.outstanding_minutes := 0 |}]> ∅)
          {| Engine.subject_ids := ["A"]; Engine.hours_per_day := Some (2 # 1);
             Engine.preferred_blocks := []; Engine.exam_date := None;
             Engine.days_count := Some 1%Z |} with
  | inr sched =>
      map Engine.duration_minutes (Engine.sessions sched) = [90%Z; 30%Z]
      /\ Engine.total_hours sched = 2%Q
  | inl _ => False
  end.
Proof. vm_compute. split; reflexivity. Qed.

Example scenario_exam_clamp :
  match Engine.generate Sample.today Sample.store
          {| Engine.subject_ids := ["A"; "B"]; Engine.hours_per_day := Some (1 # 1);
             Engine.preferred_blocks := [Engine.Evening];
             Engine.exam_date := Some "2026-11-05";
             Engine.days_count := Some 30%Z |} with
  | inr sched => Engine.days sched = 2%nat /\ (Engine.days sched <= 3)%nat
  | inl _ => False
  end.
Proof. vm_compute. split; [reflexivity | lia]. Qed.

Example scenario_unknown_subject :
  Engine.generate Sample.today Sample.store
    {| Engine.subject_ids := ["A"; "Z"]; Engine.hours_per_day := None;
       Engine.preferred_blocks := []; Engine.exam_date := None;
       Engine.days_count := None |}
  = inl (Engine.InvalidRequest (Engine.UnknownSubject "Z")).
Proof. vm_compute. reflexivity. Qed.

(** ** [toggleArrayItem] *)

Section Toggle.
Import PlannerView.

Lemma toggle_included (a : list string) (x : string) :
  x ∈ a -> toggleArrayItem a x = filter (fun i => i ≠ x) a.
Proof. intros Hin. unfold toggleArrayItem. by rewrite bool_decide_eq_true_2. Qed.

Lemma toggle_not_included (a : list string) (x : string) :
  x ∉ a -> toggleArrayItem a x = a ++ [x].
Proof. intros Hin. unfold toggleArrayItem. by rewrite bool_decide_eq_false_2. Qed.

Lemma count_occ_filter_ne (a : list string) (x y : string) :
  y ≠ x ->
  count_occ string_dec (filter (fun i => i ≠ x) a) y = count_occ string_dec a y.
Proof.
  intros Hne. induction a as [|z a IH]; [done|].
  rewrite filter_cons. destruct (decide (z ≠ x)) as [Hz|Hz].
  - simpl. by rewrite IH.
  - apply dec_stable in Hz. subst z. simpl.
    destruct (string_dec x y); [congruence | exact IH].
Qed.

(** C8.  For every string array [a] and string [x], [toggleArrayItem a x]
    contains [x] if and only if [a] does not; every element other than
    [x] occurs in the result exactly as often as in [a]; and toggling the
    same item twice gives an array with the members of [a]. *)
Theorem toggleArrayItem_membership (a : list string) (x : string) :
  (x ∈ toggleArrayItem a x <-> x ∉ a)
  /\ (forall y, y ≠ x ->
        count_occ string_dec (toggleArrayItem a x) y = count_occ string_dec a y)
  /\ (forall y, y ∈ toggleArrayItem (toggleArrayItem a x) x <-> y ∈ a).
Proof.
  destruct (decide (x ∈ a)) as [Hin|Hout].
  - rewrite (toggle_included a x Hin).
    assert (Hgone : x ∉ filter (fun i => i ≠ x) a).
    { rewrite list_elem_of_filter. tauto. }
    split; [tauto|]. split.
    + intros y Hy. by apply count_occ_filter_ne.
    + intros y. rewrite (toggle_not_included _ x Hgone).
      rewrite elem_of_app, list_elem_of_filter, list_elem_of_singleton.
      destruct (decide (y = x)) as [->|Hne]; tauto.
  - rewrite (toggle_not_included a x Hout).
    split; [|split].
    + rewrite elem_of_app, list_elem_of_singleton. tauto.
    + intros y Hy. rewrite count_occ_app. simpl.
      destruct (string_dec x y); [congruence | lia].
    + intros y.
      assert (Hnow : x ∈ a ++ [x]).
      { rewrite elem_of_app, list_elem_of_singleton. tauto. }
      rewrite (toggle_included _ x Hnow).
      rewrite list_elem_of_filter, elem_of_app, list_elem_of_singleton.
      destruct (decide (y = x)) as [->|Hne]; tauto.
Qed.

End Toggle.

(** ** The [formatMinutes] helpers *)

Section FormatMinutes.
Context `{Host}.

(** Without the special case, zero minutes still print as "0m". *)
Lemma formatMinutes_at_zero (minutes : number) :
  num_strict_eq minutes (int 0) = true ->
  AnalyzeView.formatMinutes minutes = "0m".
Proof.
  destruct minutes as [| s | q]; simpl; try discriminate.
  intros Hq. apply Qeq_bool_iff in Hq.
  unfold AnalyzeView.formatMinutes, num_lt, int, Math_round, Number_toString.
  assert (Hlt : Qle_bool (inject_Z 60) q = false).
  { destruct (Qle_bool (inject_Z 60) q) eqn:E; [|done].
    apply Qle_bool_iff in E. rewrite Hq in E. vm_compute in E. by destruct E. }
  rewrite Hlt. simpl negb. cbv iota.
  assert (Hfl : Qfloor (q + (1 # 2)) = 0%Z) by (rewrite Hq; reflexivity).
  rewrite Hfl. reflexivity.
Qed.

Lemma formatMinutes_guard_redundant (minutes : number) :
  SubjectManagement.formatMinutes minutes = AnalyzeView.formatMinutes minutes.
Proof.
  unfold SubjectManagement.formatMinutes.
  destruct (num_strict_eq minutes (int 0)) eqn:E.
  - symmetry. by apply formatMinutes_at_zero.
  - reflexivity.
Qed.

(** C9.  The four [formatMinutes] helpers, of the subject management, of
    the dashboard, of the analyze view and of the library view, return the
    same string for every number of minutes, the nonnegative ones in
    particular, although only the first two single out [minutes === 0]. *)
Theorem formatMinutes_extensionally_equal (minutes : number) :
  SubjectManagement.formatMinutes minutes = DashboardView.formatMinutes minutes
  /\ DashboardView.formatMinutes minutes = AnalyzeView.formatMinutes minutes
  /\ AnalyzeView.formatMinutes minutes = LibraryView.formatMinutes minutes.
Proof.
  split; [reflexivity|]. split; [|reflexivity].
  change (DashboardView.formatMinutes minutes)
    with (SubjectManagement.formatMinutes minutes).
  apply formatMinutes_guard_redundant.
Qed.

End FormatMinutes.

(** ** The analysis modal *)

Section Analysis.
Import AnalysisModal.

(** C7.  Whatever the metadata of the file, [runAnalysis] ends with a
    result whose recommended sessions are the four entries deep focus 90,
    review 60, deep focus 90 and quick recap 30, in that order. *)
Theorem recommendedSessions_fixed (fileMetadata : option FileMetadata) (st : State) :
  exists r, result (runAnalysis fileMetadata st) = Some r
    /\ recommendedSessions r
       = [ {| duration := int 90; type := "Deep focus" |};
           {| duration := int 60; type := "Review" |};
           {| duration := int 90; type := "Deep focus" |};
           {| duration := int 30; type := "Quick recap" |} ].
Proof. eexists. split; reflexivity. Qed.

End Analysis.

(** ** Rounding to binary64 *)

Lemma two_pow_pos (k : Z) : (0 < 2 ^ k)%Q.
Proof. apply Qpower_0_lt. reflexivity. Qed.

Lemma two_pow_inject (k : Z) : (0 <= k)%Z -> (inject_Z (2 ^ k) == 2 ^ k)%Q.
Proof. intros Hk. apply (Zpower_Qpower 2 k Hk). Qed.

Lemma two_pow_add (a b : Z) : (2 ^ (a + b) == 2 ^ a * 2 ^ b)%Q.
Proof. apply Qpower_plus. discriminate. Qed.

Lemma two_pow_le (a b : Z) : (a <= b)%Z -> (2 ^ a <= 2 ^ b)%Q.
Proof. intros. apply Qpower_le_compat_l; [done|]. discriminate. Qed.

Lemma two_pow_lt_inv (a b : Z) : (2 ^ a < 2 ^ b)%Q -> (a < b)%Z.
Proof. intros. apply (Qpower_lt_compat_l_inv 2); [done|]. reflexivity. Qed.

(** The base-2 logarithm of a positive integer brackets it. *)
Lemma log2_bracket (n : Z) :
  (0 < n)%Z -> (2 ^ Z.log2 n <= inject_Z n /\ inject_Z n < 2 ^ (Z.log2 n + 1))%Q.
Proof.
  intros Hn. destruct (Z.log2_spec n Hn) as [Hlo Hhi].
  pose proof (Z.log2_nonneg n) as H0.
  rewrite <- !two_pow_inject by lia.
  rewrite <- Zle_Qle, <- Zlt_Qlt. replace (Z.log2 n + 1)%Z with (Z.succ (Z.log2 n)) by lia.
  done.
Qed.

(** The binade of a positive rational brackets it. *)
Lemma binade_bracket (x : Q) :
  (0 < x)%Q -> (2 ^ binade x <= x /\ x < 2 ^ (binade x + 1))%Q.
Proof.
  intros Hx. destruct x as [n d].
  assert (Hn : (0 < n)%Z).
  { unfold Qlt in Hx. simpl in Hx. lia. }
  destruct (log2_bracket n Hn) as [Hnl Hnh].
  destruct (log2_bracket (Zpos d) ltac:(done)) as [Hdl Hdh].
  set (ln := Z.log2 n) in *. set (ld := Z.log2 (Zpos d)) in *.
  assert (Ex : (n # d == inject_Z n / inject_Z (Zpos d))%Q) by apply Qmake_Qdiv.
  assert (Hd0 : (0 < inject_Z (Zpos d))%Q) by (rewrite <- (Zlt_Qlt 0); done).
  assert (Hup : (n # d < 2 ^ (ln - ld + 1))%Q).
  { rewrite Ex. apply Qlt_shift_div_r; [done|].
    replace (ln - ld + 1)%Z with ((ln + 1) + - ld)%Z by lia.
    rewrite two_pow_add, Qpower_opp.
    pose proof (two_pow_pos ld). pose proof (two_pow_pos (ln + 1)).
    assert (2 ^ (ln + 1) <= 2 ^ (ln + 1) * / 2 ^ ld * inject_Z (Z.pos d))%Q; [|lra].
    rewrite <- Qmult_assoc.
    rewrite <- (Qmult_1_r (2 ^ (ln + 1))) at 1.
    apply Qmult_le_l; [done|].
    rewrite Qmult_comm. apply Qle_shift_div_l; [done|]. lra. }
  assert (Hdown : (2 ^ (ln - ld - 1) <= n # d)%Q).
  { rewrite Ex. apply Qle_shift_div_l; [done|].
    replace (ln - ld - 1)%Z with (ln + - (ld + 1))%Z by lia.
    rewrite two_pow_add, Qpower_opp.
    pose proof (two_pow_pos (ld + 1)). pose proof (two_pow_pos ln).
    assert (2 ^ ln * / 2 ^ (ld + 1) * inject_Z (Z.pos d) <= 2 ^ ln)%Q; [|lra].
    rewrite <- Qmult_assoc.
    rewrite <- (Qmult_1_r (2 ^ ln)) at 2.
    apply Qmult_le_l; [done|].
    rewrite Qmult_comm. apply Qle_shift_div_r; [done|]. lra. }
  unfold binade. simpl Qnum. simpl Qden. fold ln. fold ld.
  destruct (Qle_bool (2 ^ (ln - ld)) (n # d)) eqn:E.
  - apply Qle_bool_iff in E. done.
  - split; [done|].
    replace (ln - ld - 1 + 1)%Z with (ln - ld)%Z by lia.
    apply Qnot_le_lt. intros Hle. apply Qle_bool_iff in Hle. congruence.
Qed.

Lemma binade_monotone (a b : Q) : (0 < a)%Q -> (a <= b)%Q -> (binade a <= binade b)%Z.
Proof.
  intros Ha Hab.
  destruct (binade_bracket a Ha) as [Hal _].
  destruct (binade_bracket b ltac:(lra)) as [_ Hbh].
  assert (H : (2 ^ binade a < 2 ^ (binade b + 1))%Q) by lra.
  apply two_pow_lt_inv in H. lia.
Qed.

(** Rounding to the nearest integer, ties to even. *)
Lemma round_half_even_bounds (q : Q) :
  (Qfloor q <= round_half_even q <= Qfloor q + 1)%Z.
Proof.
  unfold round_half_even. destruct (Qcompare _ _); [destruct (Z.even _)| |]; lia.
Qed.

Lemma round_half_even_comp (p q : Q) : (p == q)%Q -> round_half_even p = round_half_even q.
Proof.
  intros E. unfold round_half_even. rewrite (Qfloor_comp _ _ E).
  assert (E' : (p - inject_Z (Qfloor q) == q - inject_Z (Qfloor q))%Q) by (rewrite E; reflexivity).
  by rewrite (Qcompare_comp _ _ E' _ _ (Qeq_refl _)).
Qed.

Lemma round_half_even_Z (z : Z) : round_half_even (inject_Z z) = z.
Proof.
  unfold round_half_even. rewrite Qfloor_Z.
  assert (E : (inject_Z z - inject_Z z ?= 1 # 2)%Q = Lt).
  { rewrite <- Qlt_alt. lra. }
  by rewrite E.
Qed.

Lemma round_half_even_monotone (p q : Q) :
  (p <= q)%Q -> (round_half_even p <= round_half_even q)%Z.
Proof.
  intros Hpq.
  pose proof (Qfloor_resp_le _ _ Hpq) as Hf.
  pose proof (round_half_even_bounds p) as Bp.
  pose proof (round_half_even_bounds q) as Bq.
  destruct (Z.eq_dec (Qfloor p) (Qfloor q)) as [E|NE]; [|lia].
  unfold round_half_even in *. rewrite E in *.
  destruct (Qcompare (p - inject_Z (Qfloor q)) (1 # 2)) eqn:Cp;
    destruct (Qcompare (q - inject_Z (Qfloor q)) (1 # 2)) eqn:Cq;
    try destruct (Z.even (Qfloor q)); try lia; exfalso;
    first [apply Qeq_alt in Cp | apply Qlt_alt in Cp | apply Qgt_alt in Cp];
    first [apply Qeq_alt in Cq | apply Qlt_alt in Cq | apply Qgt_alt in Cq]; lra.
Qed.

Lemma round_half_even_le (q : Q) (z : Z) :
  (q <= inject_Z z)%Q -> (round_half_even q <= z)%Z.
Proof. intros H. rewrite <- (round_half_even_Z z). by apply round_half_even_monotone. Qed.

Lemma round_half_even_ge (q : Q) (z : Z) :
  (inject_Z z <= q)%Q -> (z <= round_half_even q)%Z.
Proof. intros H. rewrite <- (round_half_even_Z z). by apply round_half_even_monotone. Qed.

Lemma nearest_nonneg (a : Q) : (0 <= a)%Q -> (0 <= nearest a)%Q.
Proof.
  intros Ha. unfold nearest, ulp. set (u := (2 ^ _)%Q).
  assert (Hu : (0 < u)%Q) by apply two_pow_pos.
  clearbody u.
  apply Qmult_le_0_compat; [|lra].
  rewrite <- (Zle_Qle 0). apply round_half_even_ge.
  apply Qle_shift_div_l; [done|]. by rewrite Qmult_0_l.
Qed.

(** A positive rational rounds into the closure of its binade. *)
Lemma nearest_upper (a : Q) :
  (0 < a)%Q -> (nearest a <= 2 ^ (Z.max (binade a) (-1022) + 1))%Q.
Proof.
  intros Ha. unfold nearest, ulp. set (e := Z.max (binade a) (-1022)).
  destruct (binade_bracket a Ha) as [_ Hhi].
  pose proof (two_pow_pos (e - 52)) as Hu.
  assert (Hm : (round_half_even (a / 2 ^ (e - 52)) <= 2 ^ 53)%Z).
  { apply round_half_even_le. rewrite (two_pow_inject 53) by lia.
    apply Qle_shift_div_r; [done|]. rewrite <- two_pow_add.
    replace (53 + (e - 52))%Z with (e + 1)%Z by lia.
    pose proof (two_pow_le (binade a + 1) (e + 1) ltac:(lia)). lra. }
  replace (e + 1)%Z with (53 + (e - 52))%Z by lia. rewrite two_pow_add.
  apply Qmult_le_compat_r; [|lra].
  rewrite <- (two_pow_inject 53) by lia. by rewrite <- Zle_Qle.
Qed.

Lemma nearest_lower (a : Q) :
  (0 < a)%Q -> (-1022 <= binade a)%Z -> (2 ^ binade a <= nearest a)%Q.
Proof.
  intros Ha He. unfold nearest, ulp. rewrite Z.max_l by done.
  set (e := binade a).
  destruct (binade_bracket a Ha) as [Hlo _]. fold e in Hlo.
  pose proof (two_pow_pos (e - 52)) as Hu.
  assert (Hm : (2 ^ 52 <= round_half_even (a / 2 ^ (e - 52)))%Z).
  { apply round_half_even_ge. rewrite (two_pow_inject 52) by lia.
    apply Qle_shift_div_l; [done|]. rewrite <- two_pow_add.
    replace (52 + (e - 52))%Z with e by lia. done. }
  replace e with (52 + (e - 52))%Z at 1 by lia. rewrite two_pow_add.
  apply Qmult_le_compat_r; [|lra].
  rewrite <- (two_pow_inject 52) by lia. by rewrite <- Zle_Qle.
Qed.

Lemma nearest_monotone (a b : Q) : (0 < a)%Q -> (a <= b)%Q -> (nearest a <= nearest b)%Q.
Proof.
  intros Ha Hab.
  pose proof (binade_monotone a b Ha Hab) as He.
  destruct (Z.eq_dec (Z.max (binade a) (-1022)) (Z.max (binade b) (-1022))) as [E|NE].
  - unfold nearest, ulp. rewrite E. set (u := (2 ^ _)%Q).
    assert (Hu : (0 < u)%Q) by apply two_pow_pos.
    apply Qmult_le_compat_r; [|lra].
    rewrite <- Zle_Qle. apply round_half_even_monotone.
    unfold Qdiv. apply Qmult_le_compat_r; [done|].
    apply Qlt_le_weak, Qinv_lt_0_compat, Hu.
  - assert (Hb : (-1022 <= binade b)%Z) by lia.
    pose proof (nearest_upper a Ha) as Hup.
    pose proof (nearest_lower b ltac:(lra) Hb) as Hlo.
    pose proof (two_pow_le (Z.max (binade a) (-1022) + 1) (binade b) ltac:(lia)).
    lra.
Qed.

(** An integer of at most 53 bits is its own rounding. *)
Lemma nearest_integer (z : Z) : (0 < z <= 2 ^ 53)%Z -> (nearest (inject_Z z) == inject_Z z)%Q.
Proof.
  intros [Hz0 Hz53].
  assert (Hq : (0 < inject_Z z)%Q) by (by rewrite <- (Zlt_Qlt 0)).
  destruct (binade_bracket _ Hq) as [Hlo Hhi].
  set (e := binade (inject_Z z)) in *.
  assert (He0 : (0 <= e)%Z).
  { assert (H : (2 ^ 0 < 2 ^ (e + 1))%Q).
    { eapply Qle_lt_trans; [|exact Hhi]. rewrite <- (Zle_Qle 1). lia. }
    apply two_pow_lt_inv in H. lia. }
  assert (He53 : (e <= 53)%Z).
  { assert (H : (2 ^ e < 2 ^ 54)%Q).
    { eapply Qle_lt_trans; [exact Hlo|].
      rewrite <- (two_pow_inject 54) by lia. rewrite <- Zlt_Qlt. lia. }
    apply two_pow_lt_inv in H. lia. }
  unfold nearest, ulp. fold e. rewrite Z.max_l by lia.
  pose proof (two_pow_pos (e - 52)) as Hu.
  assert (Hint : exists k : Z, (inject_Z z / 2 ^ (e - 52) == inject_Z k)%Q).
  { destruct (Z.eq_dec e 53%Z) as [E53|NE].
    - exists (2 ^ 52)%Z.
      assert (Ez : z = (2 ^ 53)%Z).
      { apply Z.le_antisymm; [done|].
        rewrite E53 in Hlo. rewrite <- (two_pow_inject 53) in Hlo by lia.
        by rewrite <- Zle_Qle in Hlo. }
      rewrite E53, Ez. reflexivity.
    - exists (z * 2 ^ (52 - e))%Z.
      rewrite inject_Z_mult, (two_pow_inject (52 - e)) by lia.
      replace (e - 52)%Z with (- (52 - e))%Z by lia. rewrite Qpower_opp.
      pose proof (two_pow_pos (52 - e)) as Hp.
      set (p := (2 ^ (52 - e))%Q) in *. clearbody p.
      field. lra. }
  destruct Hint as [k Hk].
  rewrite (round_half_even_comp _ _ Hk), round_half_even_Z, <- Hk.
  field. lra.
Qed.

(** The three cases of [binary64]. *)
Lemma binary64_positive (x : Q) :
  (0 < x)%Q ->
  binary64 x = Infinity false /\ (2 ^ 1024 <= nearest x)%Q
  \/ exists r, binary64 x = Finite r /\ (r == nearest x)%Q /\ (nearest x < 2 ^ 1024)%Q.
Proof.
  intros Hx. unfold binary64.
  assert (E : (x ?= 0)%Q = Gt) by (by rewrite <- Qgt_alt).
  rewrite E. destruct (Qle_bool (2 ^ 1024) (nearest x)) eqn:Eo.
  - left. split; [done|]. by apply Qle_bool_iff.
  - right. eexists. split; [done|]. split; [apply Qred_correct|].
    apply Qnot_le_lt. intros Hle. apply Qle_bool_iff in Hle. congruence.
Qed.

Lemma binary64_negative (x : Q) :
  (x < 0)%Q ->
  binary64 x = Infinity true /\ (2 ^ 1024 <= nearest (- x))%Q
  \/ exists r, binary64 x = Finite r /\ (r == - nearest (- x))%Q
               /\ (nearest (- x) < 2 ^ 1024)%Q.
Proof.
  intros Hx. unfold binary64.
  assert (E : (x ?= 0)%Q = Lt) by (by rewrite <- Qlt_alt).
  rewrite E. destruct (Qle_bool (2 ^ 1024) (nearest (- x))) eqn:Eo.
  - left. split; [done|]. by apply Qle_bool_iff.
  - right. eexists. split; [done|]. split; [apply Qred_correct|].
    apply Qnot_le_lt. intros Hle. apply Qle_bool_iff in Hle. congruence.
Qed.

Lemma binary64_zero (x : Q) : (x == 0)%Q -> binary64 x = Finite 0.
Proof.
  intros Hx. unfold binary64.
  assert (E : (x ?= 0)%Q = Eq) by (by rewrite <- Qeq_alt).
  by rewrite E.
Qed.

(** Rounding is monotone. *)
Lemma binary64_monotone (x y : Q) : (x <= y)%Q -> num_le (binary64 x) (binary64 y).
Proof.
  intros Hxy.
  destruct (Q_dec x 0) as [[Hx | Hx] | Hx], (Q_dec y 0) as [[Hy | Hy] | Hy];
    try (exfalso; lra).
  - pose proof (nearest_monotone (- y) (- x) ltac:(lra) ltac:(lra)) as Hm.
    destruct (binary64_negative x Hx) as [[-> _] | (rx & -> & Ex & Hfx)];
      destruct (binary64_negative y Hy) as [[-> Hoy] | (ry & -> & Ey & Hfy)];
      simpl; try done; lra.
  - pose proof (nearest_nonneg (- x) ltac:(lra)) as Hn.
    pose proof (nearest_nonneg y ltac:(lra)).
    destruct (binary64_negative x Hx) as [[-> _] | (rx & -> & Ex & Hfx)];
      destruct (binary64_positive y Hy) as [[-> _] | (ry & -> & Ey & Hfy)];
      simpl; try done; lra.
  - pose proof (nearest_nonneg (- x) ltac:(lra)) as Hn.
    rewrite (binary64_zero y Hy).
    destruct (binary64_negative x Hx) as [[-> _] | (rx & -> & Ex & Hfx)];
      simpl; try done; lra.
  - pose proof (nearest_monotone x y Hx Hxy) as Hm.
    destruct (binary64_positive x Hx) as [[-> Hox] | (rx & -> & Ex & Hfx)];
      destruct (binary64_positive y Hy) as [[-> _] | (ry & -> & Ey & Hfy)];
      simpl; try done; lra.
  - rewrite (binary64_zero x Hx). pose proof (nearest_nonneg y ltac:(lra)).
    destruct (binary64_positive y Hy) as [[-> _] | (ry & -> & Ey & Hfy)];
      simpl; try done; lra.
  - rewrite (binary64_zero x Hx), (binary64_zero y Hy). simpl. lra.
Qed.

Lemma small_integer_no_overflow (z : Z) : (0 < z <= 2 ^ 53)%Z -> (inject_Z z < 2 ^ 1024)%Q.
Proof.
  intros Hz. rewrite <- (two_pow_inject 1024) by lia. rewrite <- Zlt_Qlt.
  assert (2 ^ 53 < 2 ^ 1024)%Z by (apply Z.pow_lt_mono_r; lia). lia.
Qed.

(** Every integer of magnitude at most 2^53 is representable. *)
Lemma binary64_exact_on_integers (z : Z) :
  (Z.abs z <= 2 ^ 53)%Z -> num_eq (binary64 (inject_Z z)) (Finite (inject_Z z)).
Proof.
  intros Hz. destruct (Z.lt_trichotomy z 0) as [Hneg | [-> | Hpos]].
  - assert (Hq : (inject_Z z < 0)%Q) by (change (inject_Z z < inject_Z 0)%Q; by rewrite <- Zlt_Qlt).
    pose proof (nearest_integer (- z) ltac:(lia)) as Hn.
    pose proof (small_integer_no_overflow (- z) ltac:(lia)) as Ho.
    destruct (binary64_negative _ Hq) as [[_ Hov] | (r & -> & Er & _)];
      change (- inject_Z z)%Q with (inject_Z (- z)) in *; [lra|].
    simpl. rewrite Er, Hn, inject_Z_opp. ring.
  - reflexivity.
  - assert (Hq : (0 < inject_Z z)%Q) by (change (inject_Z 0 < inject_Z z)%Q; by rewrite <- Zlt_Qlt).
    pose proof (nearest_integer z ltac:(lia)) as Hn.
    pose proof (small_integer_no_overflow z ltac:(lia)) as Ho.
    destruct (binary64_positive _ Hq) as [[_ Hov] | (r & -> & Er & _)]; [lra|].
    simpl. lra.
Qed.

(** ** The content density *)

Ltac compare_constants := unfold Qle, Qlt; simpl; lia.

Lemma Qle_bool_false (a b : Q) : Qle_bool a b = false <-> (b < a)%Q.
Proof.
  split.
  - intros E. apply Qnot_le_lt. intros Hle. apply Qle_bool_iff in Hle. congruence.
  - intros Hlt. destruct (Qle_bool a b) eqn:E; [|done].
    apply Qle_bool_iff in E. lra.
Qed.

Lemma Qeq_bool_false (a b : Q) : Qeq_bool a b = false <-> ~ (a == b)%Q.
Proof.
  split.
  - intros E Heq. apply Qeq_bool_iff in Heq. congruence.
  - intros Hne. destruct (Qeq_bool a b) eqn:E; [|done].
    apply Qeq_bool_iff in E. tauto.
Qed.

Lemma num_le_antisym a b : num_le a b -> num_le b a -> num_eq a b.
Proof.
  destruct a as [| [] | x], b as [| [] | y]; simpl; try tauto.
  intros. lra.
Qed.

Lemma num_eq_trans a b c : num_eq a b -> num_eq b c -> num_eq a c.
Proof.
  destruct a as [| [] | x], b as [| [] | y], c as [| [] | z];
    simpl; try tauto; try congruence.
  intros. lra.
Qed.

Section Density.

Lemma binary64_compat (x y : Q) : (x == y)%Q -> num_eq (binary64 x) (binary64 y).
Proof. intros E. apply num_le_antisym; apply binary64_monotone; lra. Qed.

Lemma binary64_integer (x : Q) (z : Z) :
  (x == inject_Z z)%Q -> (Z.abs z <= 2 ^ 53)%Z ->
  exists y, binary64 x = Finite y /\ (y == inject_Z z)%Q.
Proof.
  intros E Hz.
  pose proof (num_eq_trans _ _ _ (binary64_compat _ _ E) (binary64_exact_on_integers z Hz)) as Heq.
  destruct (binary64 x) as [| s | y]; simpl in Heq; try tauto. eauto.
Qed.

Lemma binary64_above (x : Q) (z : Z) :
  (inject_Z z <= x)%Q -> (Z.abs z <= 2 ^ 53)%Z ->
  binary64 x = Infinity false \/ exists y, binary64 x = Finite y /\ (inject_Z z <= y)%Q.
Proof.
  intros Hle Hz.
  pose proof (binary64_monotone _ _ Hle) as Hm.
  destruct (binary64_integer (inject_Z z) z ltac:(reflexivity) Hz) as (y0 & Ey0 & Hy0).
  rewrite Ey0 in Hm.
  destruct (binary64 x) as [| [] | y]; simpl in Hm; try tauto.
  right. exists y. split; [done | lra].
Qed.

Lemma binary64_below (x : Q) (z : Z) :
  (x <= inject_Z z)%Q -> (Z.abs z <= 2 ^ 53)%Z ->
  binary64 x = Infinity true \/ exists y, binary64 x = Finite y /\ (y <= inject_Z z)%Q.
Proof.
  intros Hle Hz.
  pose proof (binary64_monotone _ _ Hle) as Hm.
  destruct (binary64_integer (inject_Z z) z ltac:(reflexivity) Hz) as (y0 & Ey0 & Hy0).
  rewrite Ey0 in Hm.
  destruct (binary64 x) as [| [] | y]; simpl in Hm; try tauto.
  right. exists y. split; [done | lra].
Qed.

Lemma binary64_nonneg (x : Q) : (0 <= x)%Q -> nonneg (binary64 x).
Proof.
  intros Hx. destruct (binary64_above x 0) as [E | (y & E & Hy)]; [exact Hx | done | |];
    rewrite E; simpl; [done | exact Hy].
Qed.

(** [Math.max(pages || 20, 1)] is at least one. *)
Lemma divisor_at_least_one (pages : option number) :
  let d := Math_max (opt_num_or pages (int 20)) (int 1) in
  d = Infinity false \/ exists q, d = Finite q /\ (1 <= q)%Q.
Proof.
  assert (Hint : forall z, (1 <= z)%Z -> let d := Math_max (int z) (int 1) in
            d = Infinity false \/ exists q, d = Finite q /\ (1 <= q)%Q).
  { intros z Hz. right. unfold Math_max, int, num_lt.
    destruct (Qle_bool (inject_Z 1) (inject_Z z)) eqn:E; simpl.
    - exists (inject_Z z). split; [done|]. by apply Qle_bool_iff in E.
    - exists (inject_Z 1). split; [done | apply Qle_refl]. }
  destruct pages as [[| s | q] |]; simpl; try (apply (Hint 20%Z); lia).
  - destruct s; simpl; [right | left; done].
    exists (inject_Z 1). split; [done | apply Qle_refl].
  - unfold num_or, truthy. destruct (Qeq_bool q 0) eqn:E; simpl;
      [apply (Hint 20%Z); lia|].
    right. unfold Math_max, int, num_lt.
    destruct (Qle_bool (inject_Z 1) q) eqn:E1; simpl.
    + exists q. split; [done|]. by apply Qle_bool_iff in E1.
    + exists (inject_Z 1). split; [done | apply Qle_refl].
Qed.

(** [wordCount || 0] is finite and not negative when the count is. *)
Lemma words_nonneg (w : option number) :
  (forall n, w = Some n -> nonnegative n) ->
  exists q, opt_num_or w (int 0) = Finite q /\ (0 <= q)%Q.
Proof.
  intros Hw. destruct w as [n|]; simpl.
  - specialize (Hw n eq_refl). destruct n as [| s | q]; simpl in Hw; try tauto.
    unfold num_or, truthy. destruct (Qeq_bool q 0); simpl.
    + exists (inject_Z 0). split; [done | apply Qle_refl].
    + exists q. done.
  - exists (inject_Z 0). split; [done | apply Qle_refl].
Qed.

(** The literal [1.2] is a finite number between one and two. *)
Lemma literal_1_2 : exists c, lit (12 # 10) = Finite c /\ (1 <= c)%Q /\ (c <= 2)%Q.
Proof.
  unfold lit.
  destruct (binary64_above (12 # 10) 1) as [E | (y & E & Hy)]; [by compare_constants | done | |];
    destruct (binary64_below (12 # 10) 2) as [E' | (y' & E' & Hy')];
    try (by compare_constants); try done; try congruence.
  exists y. split; [done|]. split; [exact Hy|].
  rewrite E in E'. injection E' as <-. exact Hy'.
Qed.

Lemma div_nonneg (a b : number) :
  nonneg a -> (exists q, a = Finite q) \/ (exists q, b = Finite q) ->
  (b = Infinity false \/ exists q, b = Finite q /\ (1 <= q)%Q) ->
  nonneg (num_div a b).
Proof.
  intros Ha Hfin Hb.
  destruct Hb as [-> | (y & -> & Hy)].
  - destruct Hfin as [(q & ->) | (q & ?)]; [|done]. simpl. lra.
  - destruct a as [| [] | x]; simpl in Ha; try tauto.
    + simpl. assert (E : is_negative y = false).
      { unfold is_negative. destruct (Qle_bool 0 y) eqn:E; [done|].
        apply Qle_bool_false in E. lra. }
      rewrite E. done.
    + simpl. assert (E : Qeq_bool y 0 = false) by (apply Qeq_bool_false; lra).
      rewrite E. apply binary64_nonneg.
      apply Qle_shift_div_l; lra.
Qed.

Lemma floor_nonneg (a : number) :
  nonneg a ->
  Math_floor a = Infinity false \/ exists k, Math_floor a = int k /\ (0 <= k)%Z.
Proof.
  destruct a as [| [] | x]; simpl; try tauto.
  intros Hx. right. exists (Qfloor x). split; [done|].
  change 0%Z with (Qfloor 0). by apply Qfloor_resp_le.
Qed.

(** A rounded result that has the value of an integer is that integer
    in lowest terms. *)
Lemma Qred_idempotent (q : Q) : Qred (Qred q) = Qred q.
Proof. apply Qred_complete, Qred_correct. Qed.

Lemma Qred_inject_Z (z : Z) : Qred (inject_Z z) = inject_Z z.
Proof.
  unfold Qred, inject_Z.
  pose proof (Z.ggcd_gcd z 1) as Hg. pose proof (Z.ggcd_correct_divisors z 1) as Hd.
  destruct (Z.ggcd z 1) as [g [aa bb]]. simpl in *.
  rewrite Z.gcd_1_r in Hg. subst g. destruct Hd as [Ha Hb].
  assert (Eb : bb = 1%Z) by lia. assert (Ea : aa = z) by lia.
  rewrite Ea, Eb. reflexivity.
Qed.

Lemma binary64_canonical (x y : Q) (z : Z) :
  binary64 x = Finite y -> (y == inject_Z z)%Q -> y = inject_Z z.
Proof.
  unfold binary64. intros Hb Hy.
  assert (Hc : Qred y = y).
  { destruct (x ?= 0)%Q; [| destruct (Qle_bool _ _) | destruct (Qle_bool _ _)];
      try discriminate; injection Hb as <-; [reflexivity | |]; apply Qred_idempotent. }
  rewrite <- Hc, <- (Qred_inject_Z z). by apply Qred_complete.
Qed.

Lemma binary64_of_integer (x : Q) (z : Z) :
  (x == inject_Z z)%Q -> (Z.abs z <= 2 ^ 53)%Z -> binary64 x = int z.
Proof.
  intros E Hz. destruct (binary64_integer x z E Hz) as (y & Ey & Hy).
  rewrite Ey. unfold int. f_equal. by eapply binary64_canonical.
Qed.

(** [Math.min(k + 30, 100)] for an integer [k] that is not negative. *)
Lemma clamp (k : Z) :
  (0 <= k)%Z ->
  exists z, Math_min (num_add (int k) (int 30)) (int 100) = int z
            /\ (30 <= z <= 100)%Z.
Proof.
  intros Hk. unfold num_add, int.
  assert (Esum : (inject_Z k + inject_Z 30 == inject_Z (k + 30))%Q)
    by (rewrite inject_Z_plus; reflexivity).
  destruct (Z_lt_le_dec (k + 30) 100) as [Hlt | Hge].
  - rewrite (binary64_of_integer _ _ Esum) by lia.
    exists (k + 30)%Z. split; [|lia].
    unfold Math_min, num_lt, int.
    assert (E : Qle_bool (inject_Z (k + 30)) (inject_Z 100) = true).
    { apply Qle_bool_iff. rewrite <- Zle_Qle. lia. }
    by rewrite E.
  - exists 100%Z. split; [|lia].
    destruct (binary64_above (inject_Z k + inject_Z 30) 100) as [-> | (y & Ey & Hy)];
      [rewrite Esum, <- Zle_Qle; lia | done | reflexivity |].
    rewrite Ey. unfold Math_min, num_lt.
    destruct (Qle_bool y (inject_Z 100)) eqn:E; simpl; [|reflexivity].
    apply Qle_bool_iff in E. f_equal.
    eapply binary64_canonical; [exact Ey | lra].
Qed.

Import AnalysisModal.

(** C10.  For every word count that is not negative (or is absent) and
    every page count, the [contentDensity] of the analysis result is an
    integer between 30 and 100: the floor of the words per page divided by
    1.2, plus 30, clamped at 100, the pages counting as at least one. *)
Theorem contentDensity_range (fileMetadata : option FileMetadata) :
  (forall n, field fileMetadata wordCount = Some n -> nonnegative n) ->
  exists z : Z,
    contentDensity (analysisResult fileMetadata) = int z
    /\ (30 <= z <= 100)%Z.
Proof.
  intros Hw. unfold analysisResult, contentDensity.
  destruct (words_nonneg _ Hw) as (w & Ew & Hw0). rewrite Ew.
  pose proof (divisor_at_least_one (field fileMetadata pages)) as Hd. cbv zeta in Hd.
  destruct literal_1_2 as (c & Ec & Hc1 & Hc2). rewrite Ec.
  set (d := Math_max _ _) in *.
  assert (H1 : nonneg (num_div (Finite w) d)).
  { apply div_nonneg; [exact Hw0 | left; eauto | exact Hd]. }
  assert (H2 : nonneg (num_div (num_div (Finite w) d) (Finite c))).
  { apply div_nonneg; [exact H1 | right; eauto | right; eauto]. }
  destruct (floor_nonneg _ H2) as [-> | (k & -> & Hk)].
  - exists 100%Z. split; [reflexivity | lia].
  - by apply clamp.
Qed.

End Density.

(** The sample file, 100 words on 5 pages. *)
Lemma contentDensity_range_witness :
  (forall n, AnalysisModal.field (Some Sample.metadata) AnalysisModal.wordCount = Some n ->
             nonnegative n)
  /\ exists z : Z,
       AnalysisModal.contentDensity
         (AnalysisModal.analysisResult (Some Sample.metadata)) = int z
       /\ (30 <= z <= 100)%Z.
Proof.
  assert (Hw : forall n,
             AnalysisModal.field (Some Sample.metadata) AnalysisModal.wordCount = Some n ->
             nonnegative n).
  { intros n [= <-]. simpl. compare_constants. }
  split; [exact Hw|].
  exact (contentDensity_range (Some Sample.metadata) Hw).
Defined.

(** ** The planner *)

Section Planner.
Import Api PlannerView.

(** An empty string, like any string without a number at its head, parses
    to [NaN]. *)
Lemma parseFloat_empty : parseFloat "" = NaN.
Proof. reflexivity. Qed.

Lemma parseInt_empty : parseInt "" = NaN.
Proof. reflexivity. Qed.

Lemma parseInt_letters : parseInt "abc" = NaN.
Proof. reflexivity. Qed.

(** With a subject selected, [handleGenerate] issues exactly one call, the
    POST of the request built from the form, whatever the backend
    answers. *)
Lemma handleGenerate_sends (backend : ApiCall -> settled) (st : State) :
  selectedSubjectIds (formData st) <> [] ->
  (handleGenerate backend st).2
  = [ {| path := "/api/timetable/generate"; method := "POST";
         body := generateRequest (formData st) |} ].
Proof.
  intros Hne. unfold handleGenerate.
  destruct (selectedSubjectIds (formData st)) as [|i l] eqn:E; [done|].
  simpl length. simpl Nat.eqb. cbv iota.
  unfold generateTimetable. simpl.
  destruct (backend _); reflexivity.
Qed.

(** C4.  When no subject is selected, [handleGenerate] returns at once:
    it issues no generate-timetable call and leaves the whole state, the
    displayed sessions and the timetable stats included, as it was; the
    button that runs it is disabled. *)
Theorem no_subject_no_call (backend : ApiCall -> settled) (st : State) :
  selectedSubjectIds (formData st) = [] ->
  handleGenerate backend st = (st, [])
  /\ studySessions (handleGenerate backend st).1 = studySessions st
  /\ timetableStats (handleGenerate backend st).1 = timetableStats st
  /\ generateDisabled st = true.
Proof.
  intros E. unfold handleGenerate, generateDisabled. rewrite E. simpl.
  repeat split. apply orb_true_r.
Qed.

(** C2, as amended.  When the user selected no preferred study block, the
    request is sent with [preferred_blocks] equal to the two-element list
    of the labels ["Morning (6-12)"] and ["Afternoon (12-18)"]. *)
Theorem default_preferred_blocks (backend : ApiCall -> settled) (st : State) :
  selectedSubjectIds (formData st) <> [] ->
  studyBlocks (formData st) = [] ->
  exists call,
    (handleGenerate backend st).2 = [call]
    /\ preferred_blocks (body call) = ["Morning (6-12)"; "Afternoon (12-18)"].
Proof.
  intros Hne Hb. eexists. split; [by apply handleGenerate_sends|].
  simpl. by rewrite Hb.
Qed.

(** C5.  When the hours-per-day input is absent or does not parse as a
    number the request is sent with [hours_per_day = 4], and when the
    days-to-plan input is absent or does not parse it is sent with
    [days_count = 7]. *)
Theorem unparseable_inputs_default (backend : ApiCall -> settled) (st : State) :
  selectedSubjectIds (formData st) <> [] ->
  exists call,
    (handleGenerate backend st).2 = [call]
    /\ (hoursPerDay (formData st) = "" \/ parseFloat (hoursPerDay (formData st)) = NaN ->
        hours_per_day (body call) = int 4)
    /\ (daysCount (formData st) = "" \/ parseInt (daysCount (formData st)) = NaN ->
        days_count (body call) = int 7).
Proof.
  intros Hne. eexists. split; [by apply handleGenerate_sends|].
  simpl. split.
  - intros [E | E]; [rewrite E, parseFloat_empty | rewrite E]; reflexivity.
  - intros [E | E]; [rewrite E, parseInt_empty | rewrite E]; reflexivity.
Qed.

End Planner.

Lemma no_subject_no_call_witness :
  PlannerView.selectedSubjectIds (PlannerView.formData PlannerView.initial) = []
  /\ PlannerView.handleGenerate Sample.backend PlannerView.initial
     = (PlannerView.initial, []).
Proof.
  split; [reflexivity|].
  exact (proj1 (no_subject_no_call Sample.backend PlannerView.initial eq_refl)).
Defined.

(** C2, as stated: the default is not the list of the bare names
    ["Morning"] and ["Afternoon"]. *)
Lemma default_blocks_not_bare_names :
  ~ (forall (backend : Api.ApiCall -> Api.settled) (st : PlannerView.State),
       PlannerView.selectedSubjectIds (PlannerView.formData st) <> [] ->
       PlannerView.studyBlocks (PlannerView.formData st) = [] ->
       exists call,
         (PlannerView.handleGenerate backend st).2 = [call]
         /\ Api.preferred_blocks (Api.body call) = ["Morning"; "Afternoon"]).
Proof.
  intros Hclaim.
  destruct (Hclaim Sample.backend (Sample.with_form Sample.form))
    as (call & Hcall & Hblocks); [done | reflexivity |].
  vm_compute in Hcall. injection Hcall as <-.
  vm_compute in Hblocks. discriminate Hblocks.
Qed.

Lemma default_preferred_blocks_witness :
  PlannerView.selectedSubjectIds (PlannerView.formData (Sample.with_form Sample.form)) <> []
  /\ PlannerView.studyBlocks (PlannerView.formData (Sample.with_form Sample.form)) = []
  /\ exists call,
       (PlannerView.handleGenerate Sample.backend
          (Sample.with_form Sample.form)).2 = [call]
       /\ Api.preferred_blocks (Api.body call) = ["Morning (6-12)"; "Afternoon (12-18)"].
Proof.
  assert (Hne : PlannerView.selectedSubjectIds
                  (PlannerView.formData (Sample.with_form Sample.form)) <> [])
    by (simpl; discriminate).
  split; [exact Hne|]. split; [reflexivity|].
  exact (default_preferred_blocks Sample.backend
           (Sample.with_form Sample.form) Hne eq_refl).
Defined.

Lemma unparseable_inputs_default_witness :
  PlannerView.selectedSubjectIds (PlannerView.formData (Sample.with_form Sample.form)) <> []
  /\ exists call,
       (PlannerView.handleGenerate Sample.backend
          (Sample.with_form Sample.form)).2 = [call]
       /\ Api.hours_per_day (Api.body call) = int 4
       /\ Api.days_count (Api.body call) = int 7.
Proof.
  assert (Hne : PlannerView.selectedSubjectIds
                  (PlannerView.formData (Sample.with_form Sample.form)) <> [])
    by (simpl; discriminate).
  split; [exact Hne|].
  destruct (unparseable_inputs_default Sample.backend
              (Sample.with_form Sample.form) Hne) as (call & Hcall & Hh & Hd).
  exists call. split; [exact Hcall|]. split.
  - apply Hh. left. reflexivity.
  - apply Hd. right. reflexivity.
Defined.

(** ** The session-response interface *)

Section SessionResponse.
Import Api PlannerView.






End SessionResponse.



(** ** The engine *)

Section Placement.
Import Engine.

Lemma windows_apart (b1 b2 : TimeBlock) :
  b1 <> b2 ->
  (window_start b1 + window_length <= window_start b2
   \/ window_start b2 + window_length <= window_start b1)%Z.
Proof. destruct b1, b2; unfold window_start, window_length; intros; try done; lia. Qed.

(** The slot that [find_slot] returns is a day of the horizon in which
    the session fits. *)
Lemma find_slot_sound (capacity : list DayState) bs duration d0 d b :
  find_slot capacity bs duration d0 = Some (d, b) ->
  exists ds, (d0 <= d)%nat /\ capacity !! (d - d0)%nat = Some ds
             /\ fits ds duration b = true.
Proof.
  revert d0. induction capacity as [|ds rest IH]; intros d0; simpl; [done|].
  destruct (List.find (fits ds duration) bs) as [b'|] eqn:E.
  - intros [= <- <-]. exists ds. rewrite Nat.sub_diag. split; [lia|]. split; [done|].
    by apply find_some in E as [_ E].
  - intros Hf. destruct (IH _ Hf) as (ds' & Hle & Hl & Hfit).
    exists ds'. split; [lia|]. split; [|done].
    replace (d - d0)%nat with (S (d - S d0)) by lia. exact Hl.
Qed.

Lemma no_overlap_nil : no_overlap [].
Proof. intros i j s1 s2 _ Hi. by rewrite lookup_nil in Hi. Qed.

Lemma overlap_sym s1 s2 : overlap s1 s2 -> overlap s2 s1.
Proof. unfold overlap. intuition congruence. Qed.

Lemma no_overlap_snoc (l : list StudySession) (s : StudySession) :
  no_overlap l -> Forall (fun s' => ~ overlap s' s) l -> no_overlap (l ++ [s]).
Proof.
  intros Hl Hs i j s1 s2 Hij Hi Hj.
  rewrite Forall_lookup in Hs.
  apply lookup_snoc_Some in Hi as [[Hi1 Hi2] | [Hi1 ->]];
    apply lookup_snoc_Some in Hj as [[Hj1 Hj2] | [Hj1 ->]].
  - by apply (Hl i j).
  - by apply (Hs i).
  - intros Ho. apply (Hs j s2 Hj2). by apply overlap_sym.
  - lia.
Qed.

(** Placing one more session keeps the invariant: the session starts
    where its block was free, and the windows of two blocks are apart. *)
Lemma place_invariant bs st c :
  (0 <= c_duration c)%Z -> placement_invariant st -> placement_invariant (place bs st c).
Proof.
  intros Hdur (Hwf & Hin & Hno). unfold place.
  destruct (find_slot st.1 bs (c_duration c) 0) as [[d b]|] eqn:Ef; [|done].
  destruct (find_slot_sound _ _ _ _ _ _ Ef) as (ds & _ & Hds & Hfit).
  rewrite Nat.sub_0_r in Hds. rewrite Hds.
  unfold fits in Hfit. apply andb_true_iff in Hfit as [_ Hroom].
  apply Z.leb_le in Hroom.
  pose proof (lookup_lt_Some _ _ _ Hds) as Hlen.
  pose proof (Hwf d ds b Hds) as Hb.
  split; [|split]; simpl.
  - intros d' ds' b' Hl.
    destruct (decide (d' = d)) as [->|Hne].
    + rewrite list_lookup_insert_eq in Hl by done. injection Hl as <-. simpl.
      destruct (decide (b' = b)) as [->|]; [lia | by apply (Hwf d)].
    + rewrite list_lookup_insert_ne in Hl by done. by apply (Hwf d').
  - apply Forall_app. split.
    + eapply Forall_impl; [exact Hin|]. intros s (ds' & b' & Hl & Hlo & Hhi).
      destruct (decide (day_index s = d)) as [Hd|Hne].
      * rewrite Hd, Hds in Hl. injection Hl as <-.
        exists (consume ds b (c_duration c)), b'. rewrite Hd.
        rewrite list_lookup_insert_eq by done. split; [done|]. split; [done|].
        simpl. destruct (decide (b' = b)) as [->|]; lia.
      * exists ds', b'. rewrite list_lookup_insert_ne by done. done.
    + apply Forall_singleton. exists (consume ds b (c_duration c)), b. simpl.
      rewrite list_lookup_insert_eq by done. split; [done|].
      rewrite decide_True by done. lia.
  - apply no_overlap_snoc; [done|].
    eapply Forall_impl; [exact Hin|]. intros s (ds' & b' & Hl & Hlo & Hhi).
    unfold overlap. simpl. intros (Hd & H1 & H2).
    rewrite Hd, Hds in Hl. injection Hl as <-.
    pose proof (Hwf d ds b' Hds) as Hb'.
    destruct (decide (b' = b)) as [->|Hne]; [lia|].
    destruct (windows_apart b' b Hne); lia.
Qed.

Lemma place_all_invariant bs cs st :
  Forall (fun c => (0 <= c_duration c)%Z) cs ->
  placement_invariant st -> placement_invariant (foldl (place bs) st cs).
Proof.
  revert st. induction cs as [|c cs IH]; intros st Hcs Hst; simpl; [done|].
  apply Forall_cons in Hcs as [Hc Hcs].
  apply IH; [done|]. by apply place_invariant.
Qed.

Lemma fresh_invariant n h : placement_invariant (replicate n (fresh_day h), []).
Proof.
  split; [|split]; simpl.
  - intros d ds b Hl. apply lookup_replicate in Hl as [-> _]. simpl.
    unfold window_length. lia.
  - constructor.
  - apply no_overlap_nil.
Qed.

(** Without a day in the horizon nothing is placed. *)
Lemma place_without_days bs cs l : foldl (place bs) ([], l) cs = ([], l).
Proof. induction cs as [|c cs IH]; simpl; [done|]. exact IH. Qed.

(** Every sequenced session has a positive duration. *)
Lemma catalog_positive : Forall (fun e => (0 < e.2)%Z) catalog.
Proof. unfold catalog. repeat constructor; simpl; lia. Qed.

Lemma walk_positive entries remaining :
  Forall (fun e => (0 < e.2)%Z) entries ->
  Forall (fun e => (0 < e.2)%Z) (walk entries remaining).1.
Proof.
  revert remaining.
  induction entries as [|[ty d] rest IH]; intros remaining He; simpl; [done|].
  apply Forall_cons in He as [Hd Hrest].
  destruct (d <=? remaining)%Z.
  - specialize (IH (remaining - d)%Z Hrest).
    destruct (walk rest (remaining - d)) as [l carry]. simpl in *. by constructor.
  - destruct (minimum_session <=? remaining)%Z eqn:E; simpl; [|done].
    apply Z.leb_le in E. unfold minimum_session in E.
    constructor; [simpl; lia | done].
Qed.

Lemma sequence_sessions_positive allocated :
  Forall (fun e => (0 < e.2)%Z) (sequence_sessions allocated).1.
Proof.
  unfold sequence_sessions.
  pose proof (walk_positive catalog (allocated mod catalog_minutes) catalog_positive) as Hw.
  destruct (walk catalog _) as [l carry]. simpl in *.
  apply Forall_app. split; [|done].
  apply Forall_concat, Forall_replicate, catalog_positive.
Qed.

Lemma sequence_all_positive allocations carry :
  Forall (Forall (fun c => (0 < c_duration c)%Z)) (sequence_all allocations carry).
Proof.
  revert carry. induction allocations as [|[s a] rest IH]; intros carry; simpl; [done|].
  pose proof (sequence_sessions_positive (a + carry)) as Hs.
  destruct (sequence_sessions (a + carry)) as [l carry']. simpl in Hs.
  constructor; [|apply IH].
  apply Forall_fmap. eapply Forall_impl; [exact Hs|]. done.
Qed.

Lemma round_robin_Forall {A} (P : A -> Prop) passes (queues : list (list A)) :
  Forall (Forall P) queues -> Forall P (round_robin passes queues).
Proof.
  revert queues. induction passes as [|n IH]; intros queues Hq; simpl; [done|].
  apply Forall_app. split.
  - clear IH. induction Hq as [|q qs Hq Hqs IHq]; simpl; [done|].
    destruct q as [|x q]; simpl; [done|].
    apply Forall_cons in Hq as [Hx _]. by constructor.
  - apply IH. apply Forall_fmap. eapply Forall_impl; [exact Hq|].
    intros q Hq'. simpl. destruct q; [done|]. by apply Forall_cons in Hq' as [_ ?].
Qed.

Lemma place_all_no_overlap bs n h (queues : list (list Candidate)) :
  Forall (Forall (fun c => (0 < c_duration c)%Z)) queues ->
  no_overlap (place_all bs (replicate n (fresh_day h)) (interleave queues)).
Proof.
  intros Hq. unfold place_all.
  apply place_all_invariant; [|apply fresh_invariant].
  eapply Forall_impl; [apply (round_robin_Forall _ _ _ Hq)|].
  simpl. intros. lia.
Qed.

(** Whatever schedule the engine returns has no overlap. *)
Lemma returned_schedule_no_overlap today store req sched :
  generate today store req = inr sched -> no_overlap (sessions sched).
Proof.
  unfold generate. destruct (validate store req) as [e|c]; [done|].
  intros [= <-]. simpl. apply place_all_no_overlap, sequence_all_positive.
Qed.

Lemma resolve_known store ids :
  (forall i, i ∈ ids -> is_Some (store !! i)) -> exists l, resolve store ids = inr l.
Proof.
  induction ids as [|i rest IH]; intros Hk; simpl; [eauto|].
  destruct (Hk i) as [s ->]; [by left|].
  destruct IH as [l ->]; [|eauto].
  intros j Hj. apply Hk. by right.
Qed.

(** A valid request passes validation, its exam date parsed. *)
Lemma validate_accepts store req :
  valid_request store req ->
  exists c, validate store req = inr c
            /\ exam_day c = from_option parse_iso_date None (exam_date req).
Proof.
  intros (Hne & Hknown & Hh & Hn & He). unfold validate.
  destruct (subject_ids req) as [|i0 ids0] eqn:Eids; [done|].
  assert (E1 : Qle_bool (default (4 # 1) (hours_per_day req)) 0 = false).
  { destruct (Qle_bool _ _) eqn:E; [|done]. apply Qle_bool_iff in E. lra. }
  rewrite E1.
  assert (E2 : (default 7 (days_count req) <=? 0)%Z = false) by (apply Z.leb_gt; lia).
  rewrite E2.
  destruct (resolve_known store (remove_dups (i0 :: ids0))) as [l El].
  { intros i Hi. apply Hknown. rewrite elem_of_remove_dups in Hi. exact Hi. }
  rewrite El.
  destruct (exam_date req) as [s|] eqn:Ex; cbn [from_option].
  - destruct (He s eq_refl) as [e Ee]. rewrite Ee. eauto.
  - eauto.
Qed.

(** C3.  For every request with at least one subject, all of them known
    to the store, and a positive capacity, the engine returns a schedule,
    and no two of its sessions on the same day have overlapping ranges
    [[start_time, start_time + duration)]. *)
Theorem generate_no_overlap today store req :
  valid_request store req ->
  exists sched, generate today store req = inr sched /\ no_overlap (sessions sched).
Proof.
  intros Hv. destruct (validate_accepts _ _ Hv) as (c & Ec & _).
  destruct (generate today store req) as [e|sched] eqn:Eg.
  - unfold generate in Eg. rewrite Ec in Eg. discriminate.
  - exists sched. split; [done|]. by eapply returned_schedule_no_overlap.
Qed.

(** C6.  For every request, as section 3 of the specification defines
    one and with its subjects known to the store, whose exam date lies in
    the past, before tomorrow, the engine returns the empty schedule, with
    [sessions = []], [total_hours = 0], [days = 0] and
    [subjects_covered = 0], and raises no error. *)
Theorem past_exam_date_empty_schedule today store req s e :
  valid_request store req ->
  exam_date req = Some s -> parse_iso_date s = Some e -> (e < today + 1)%Z ->
  generate today store req = inr empty_schedule.
Proof.
  intros Hv Hs He Hpast. destruct (validate_accepts _ _ Hv) as (c & Ec & Ed).
  rewrite Hs in Ed. simpl in Ed. rewrite He in Ed.
  unfold generate. rewrite Ec.
  assert (E0 : effective_days_count today c = 0%Z).
  { unfold effective_days_count. rewrite Ed.
    by rewrite (proj2 (Z.ltb_lt _ _) Hpast). }
  rewrite E0. simpl. unfold place_all. rewrite place_without_days. reflexivity.
Qed.

End Placement.

Lemma sample_request_valid (exam : option string) :
  (forall s, exam = Some s -> is_Some (Engine.parse_iso_date s)) ->
  Engine.valid_request Sample.store (Sample.request exam).
Proof.
  intros He. split; [simpl; discriminate|]. split; [|split; [|split]].
  - intros i Hi. simpl in Hi.
    apply elem_of_cons in Hi as [-> | Hi]; [by eexists|].
    apply elem_of_cons in Hi as [-> | Hi]; [by eexists|].
    by apply elem_of_nil in Hi.
  - simpl. compare_constants.
  - simpl. lia.
  - exact He.
Qed.

Lemma generate_no_overlap_witness :
  Engine.valid_request Sample.store (Sample.request None)
  /\ exists sched,
       Engine.generate Sample.today Sample.store (Sample.request None) = inr sched
       /\ Engine.no_overlap (Engine.sessions sched).
Proof.
  assert (Hv : Engine.valid_request Sample.store (Sample.request None)).
  { apply sample_request_valid. intros s Hs. discriminate Hs. }
  split; [exact Hv|].
  exact (generate_no_overlap Sample.today Sample.store (Sample.request None) Hv).
Defined.

Lemma past_exam_date_empty_schedule_witness :
  Engine.valid_request Sample.store (Sample.request (Some "2026-11-01"))
  /\ Engine.parse_iso_date "2026-11-01" = Some 20758%Z
  /\ (20758 < Sample.today + 1)%Z
  /\ Engine.generate Sample.today Sample.store (Sample.request (Some "2026-11-01"))
     = inr Engine.empty_schedule.
Proof.
  assert (Hv : Engine.valid_request Sample.store (Sample.request (Some "2026-11-01"))).
  { apply sample_request_valid. intros s [= <-]. by eexists. }
  split; [exact Hv|]. split; [reflexivity|]. split; [reflexivity|].
  exact (past_exam_date_empty_schedule Sample.today Sample.store
           (Sample.request (Some "2026-11-01")) "2026-11-01" 20758%Z
           Hv eq_refl eq_refl eq_refl).
Defined.

(** ** Exact quotients

    Dividing two integers rounds, but the floor of the rounded quotient is
    still the integer quotient when the dyadic rational just below the
    next integer is representable. *)

(** A dyadic rational with a numerator of at most 53 bits is its own
    rounding. *)
Lemma nearest_dyadic (z j : Z) :
  (0 < z <= 2 ^ 53)%Z -> (0 <= j <= 1022)%Z ->
  (nearest (inject_Z z / 2 ^ j) == inject_Z z / 2 ^ j)%Q.
Proof.
  intros [Hz0 Hz53] Hj.
  pose proof (two_pow_pos j) as Hpj.
  assert (Hz : (1 <= inject_Z z)%Q) by (rewrite <- (Zle_Qle 1); lia).
  assert (Hz' : (inject_Z z <= 2 ^ 53)%Q).
  { rewrite <- (two_pow_inject 53) by lia. rewrite <- Zle_Qle. lia. }
  set (a := (inject_Z z / 2 ^ j)%Q).
  assert (Ea : (a * 2 ^ j == inject_Z z)%Q) by (unfold a; field; lra).
  assert (Hq : (0 < a)%Q) by (apply Qlt_shift_div_l; lra).
  destruct (binade_bracket _ Hq) as [Hlo Hhi].
  set (e := binade a) in *.
  assert (He0 : (- j <= e)%Z).
  { assert (H : (2 ^ (- j) < 2 ^ (e + 1))%Q).
    { eapply Qle_lt_trans; [|exact Hhi]. rewrite Qpower_opp.
      unfold a. unfold Qdiv. rewrite <- (Qmult_1_l (/ 2 ^ j)) at 1.
      apply Qmult_le_compat_r; [done|]. apply Qlt_le_weak, Qinv_lt_0_compat, Hpj. }
    apply two_pow_lt_inv in H. lia. }
  assert (Hej : (2 ^ (e + j) <= inject_Z z)%Q).
  { rewrite two_pow_add, <- Ea. apply Qmult_le_compat_r; lra. }
  assert (He53 : (e + j <= 53)%Z).
  { assert (H : (2 ^ (e + j) < 2 ^ 54)%Q).
    { assert (2 ^ 53 < 2 ^ 54)%Q by (by compare_constants). lra. }
    apply two_pow_lt_inv in H. lia. }
  unfold nearest, ulp. fold e. rewrite Z.max_l by lia.
  pose proof (two_pow_pos (e - 52)) as Hu.
  assert (Escale : (a / 2 ^ (e - 52) == inject_Z z * 2 ^ (52 - e - j))%Q).
  { replace (52 - e - j)%Z with (- j + - (e - 52))%Z by lia.
    rewrite two_pow_add, !Qpower_opp. unfold a. field. lra. }
  assert (Hint : exists k : Z, (a / 2 ^ (e - 52) == inject_Z k)%Q).
  { destruct (Z.eq_dec (e + j)%Z 53%Z) as [E53|NE].
    - exists (2 ^ 52)%Z.
      assert (Ez : (inject_Z z == 2 ^ 53)%Q).
      { apply Qle_antisym; [done|]. by rewrite <- E53. }
      rewrite Escale, Ez, <- two_pow_add, (two_pow_inject 52) by lia.
      replace (53 + (52 - e - j))%Z with 52%Z by lia. reflexivity.
    - exists (z * 2 ^ (52 - e - j))%Z.
      rewrite Escale, inject_Z_mult, (two_pow_inject (52 - e - j)) by lia.
      reflexivity. }
  destruct Hint as [k Hk].
  rewrite (round_half_even_comp _ _ Hk), round_half_even_Z, <- Hk.
  field. lra.
Qed.

Lemma binary64_dyadic (z j : Z) :
  (0 <= z <= 2 ^ 53)%Z -> (0 <= j <= 1022)%Z ->
  exists y, binary64 (inject_Z z / 2 ^ j) = Finite y /\ (y == inject_Z z / 2 ^ j)%Q.
Proof.
  intros Hz Hj. pose proof (two_pow_pos j) as Hpj.
  destruct (Z.eq_dec z 0%Z) as [-> | Hne].
  - exists 0%Q. split; [|unfold Qdiv; by rewrite Qmult_0_l].
    apply binary64_zero. unfold Qdiv. by rewrite Qmult_0_l.
  - assert (Hz1 : (1 <= inject_Z z)%Q) by (rewrite <- (Zle_Qle 1); lia).
    assert (Hq : (0 < inject_Z z / 2 ^ j)%Q) by (apply Qlt_shift_div_l; lra).
    pose proof (nearest_dyadic z j ltac:(lia) Hj) as Hn.
    destruct (binary64_positive _ Hq) as [[_ Hov] | (r & -> & Er & _)].
    + exfalso. rewrite Hn in Hov.
      pose proof (small_integer_no_overflow z ltac:(lia)) as Ho.
      assert (inject_Z z / 2 ^ j <= inject_Z z)%Q; [|lra].
      apply Qle_shift_div_r; [done|].
      assert (1 <= 2 ^ j)%Q.
      { change 1%Q with (2 ^ 0)%Q. apply two_pow_le. lia. }
      nra.
    + exists r. split; [done|]. lra.
Qed.

(** The floor of a rounded quotient of integers is the integer quotient,
    as long as the quotient has bits to spare for the fraction. *)
Lemma floor_quotient (n d j : Z) :
  (0 <= n)%Z -> (0 < d <= 2 ^ j)%Z -> (0 <= j <= 1022)%Z ->
  ((n / d + 1) * 2 ^ j <= 2 ^ 53)%Z ->
  Math_floor (num_div (int n) (int d)) = int (n / d).
Proof.
  intros Hn Hd Hj Hbits.
  assert (Hk0 : (0 <= n / d)%Z) by (apply Z.div_pos; lia).
  assert (Hp1 : (1 <= 2 ^ j)%Z) by (apply (Z.pow_le_mono_r 2 0 j); lia).
  assert (Hk53 : (n / d + 1 <= 2 ^ 53)%Z) by nia.
  assert (Hdq : (0 < inject_Z d)%Q) by (rewrite <- (Zlt_Qlt 0); lia).
  unfold num_div, int.
  assert (E0 : Qeq_bool (inject_Z d) 0 = false) by (apply Qeq_bool_false; lra).
  rewrite E0.
  pose proof (Z.mul_div_le n d ltac:(lia)) as Hlo.
  pose proof (Z.mul_succ_div_gt n d ltac:(lia)) as Hhi.
  assert (Hlow : (inject_Z (n / d) <= inject_Z n / inject_Z d)%Q).
  { apply Qle_shift_div_l; [done|]. rewrite <- inject_Z_mult, <- Zle_Qle. lia. }
  set (top := ((n / d + 1) * 2 ^ j - 1)%Z).
  pose proof (two_pow_pos j) as Hpj.
  assert (Hhigh : (inject_Z n / inject_Z d <= inject_Z top / 2 ^ j)%Q).
  { apply Qle_shift_div_r; [done|].
    assert (E : (inject_Z top / 2 ^ j * inject_Z d == inject_Z top * inject_Z d / 2 ^ j)%Q)
      by (field; lra).
    rewrite E. apply Qle_shift_div_l; [done|].
    rewrite <- (two_pow_inject j), <- !inject_Z_mult, <- Zle_Qle by lia.
    unfold top. nia. }
  destruct (binary64_dyadic top j ltac:(unfold top; nia) Hj) as (yt & Eyt & Hyt).
  pose proof (binary64_monotone _ _ Hhigh) as Hm. rewrite Eyt in Hm.
  destruct (binary64_above _ (n / d) Hlow ltac:(lia)) as [E | (y & Ey & Hy)];
    rewrite ?E, ?Ey in Hm; simpl in Hm; [done|].
  rewrite Ey. simpl. do 2 f_equal.
  assert (Hylt : (y < inject_Z (n / d + 1))%Q).
  { eapply Qle_lt_trans; [exact Hm|]. rewrite Hyt.
    apply Qlt_shift_div_r; [done|].
    rewrite <- (two_pow_inject j), <- inject_Z_mult, <- Zlt_Qlt by lia.
    unfold top. lia. }
  pose proof (Qfloor_le y) as F1. pose proof (Qlt_floor y) as F2.
  assert (G1 : (n / d <= Qfloor y)%Z).
  { rewrite <- (Qfloor_Z (n / d)). by apply Qfloor_resp_le. }
  assert (G2 : (Qfloor y < n / d + 1)%Z).
  { rewrite Zlt_Qlt. lra. }
  lia.
Qed.

(** The rounding of a whole number is a whole number, when it is not an
    infinity. *)
Lemma nearest_whole (z : Z) :
  (0 < z)%Z -> exists k, (nearest (inject_Z z) == inject_Z k)%Q.
Proof.
  intros Hz. destruct (Z_le_gt_dec z (2 ^ 53)) as [Hsmall | Hbig].
  - exists z. apply nearest_integer. lia.
  - assert (Hq : (0 < inject_Z z)%Q) by (by rewrite <- (Zlt_Qlt 0)).
    destruct (binade_bracket _ Hq) as [_ Hhi].
    set (e := binade (inject_Z z)) in *.
    assert (He : (53 <= e)%Z).
    { assert (H : (2 ^ 53 < 2 ^ (e + 1))%Q).
      { eapply Qlt_trans; [|exact Hhi].
        rewrite <- (two_pow_inject 53) by lia. rewrite <- Zlt_Qlt. lia. }
      apply two_pow_lt_inv in H. lia. }
    unfold nearest, ulp. fold e. rewrite Z.max_l by lia.
    exists (round_half_even (inject_Z z / 2 ^ (e - 52)) * 2 ^ (e - 52))%Z.
    rewrite inject_Z_mult, (two_pow_inject (e - 52)) by lia. reflexivity.
Qed.

Lemma binary64_whole (z : Z) :
  (exists k, binary64 (inject_Z z) = int k) \/ (exists s, binary64 (inject_Z z) = Infinity s).
Proof.
  destruct (Z.lt_trichotomy z 0) as [Hneg | [-> | Hpos]].
  - assert (Hq : (inject_Z z < 0)%Q)
      by (change (inject_Z z < inject_Z 0)%Q; by rewrite <- Zlt_Qlt).
    destruct (nearest_whole (- z) ltac:(lia)) as (k & Hk).
    destruct (binary64_negative _ Hq) as [[E _] | (r & E & Er & _)].
    + right. eauto.
    + left. exists (- k)%Z. rewrite E. unfold int. f_equal.
      eapply binary64_canonical; [exact E|].
      change (- inject_Z z)%Q with (inject_Z (- z)) in Er.
      by rewrite Er, Hk, inject_Z_opp.
  - left. by exists 0%Z.
  - assert (Hq : (0 < inject_Z z)%Q)
      by (change (inject_Z 0 < inject_Z z)%Q; by rewrite <- Zlt_Qlt).
    destruct (nearest_whole z Hpos) as (k & Hk).
    destruct (binary64_positive _ Hq) as [[E _] | (r & E & Er & _)].
    + right. eauto.
    + left. exists k. rewrite E. unfold int. f_equal.
      eapply binary64_canonical; [exact E|]. by rewrite Er, Hk.
Qed.

(** ** Numerals *)

Lemma append_cons (c : ascii) (a b : string) : String c a +:+ b = String c (a +:+ b).
Proof. reflexivity. Qed.

Lemma append_empty_l (a : string) : "" +:+ a = a.
Proof. reflexivity. Qed.

Lemma append_assoc (a b c : string) : (a +:+ b) +:+ c = a +:+ (b +:+ c).
Proof. induction a as [|x a IH]; [done|]. rewrite !append_cons. by rewrite IH. Qed.

(** The numeral of a natural number, one digit after the other. *)
Lemma pretty_N_go_app (x : N) (s : string) : pretty_N_go x s = pretty_N_go x "" +:+ s.
Proof.
  revert s. induction (N.lt_wf_0 x) as [x _ IH]; intros s.
  destruct (N.eq_dec x 0%N) as [-> | Hx]; [by rewrite !pretty_N_go_0|].
  rewrite !(pretty_N_go_step x) by lia.
  rewrite (IH (x `div` 10)%N) by (apply N.div_lt; lia).
  rewrite (IH (x `div` 10)%N ltac:(apply N.div_lt; lia) (String _ "")).
  by rewrite append_assoc.
Qed.

Lemma small_cases (y : N) :
  (y < 10)%N ->
  y = 0%N \/ y = 1%N \/ y = 2%N \/ y = 3%N \/ y = 4%N \/ y = 5%N \/ y = 6%N
  \/ y = 7%N \/ y = 8%N \/ y = 9%N.
Proof. lia. Qed.

Ltac by_digit y H :=
  destruct (small_cases y H) as [-> | [-> | [-> | [-> | [-> | [-> | [-> | [-> | [-> | ->]]]]]]]]].

Lemma digit_of_char (y : N) :
  (y < 10)%N -> decimal_digit (pretty_N_char y) = Some (Z.of_N y).
Proof. intros H. by_digit y H; reflexivity. Qed.

(** Reading a numeral back gives the number. *)
Lemma scan_numeral (x : N) :
  exists k, (0 <= k)%Z /\ ((0 < x)%N -> (0 < k)%Z)
    /\ forall rest v c,
         scan_digits decimal_digit 10 (pretty_N_go x "" +:+ rest) v c
         = scan_digits decimal_digit 10 rest (v * 10 ^ k + Z.of_N x) (c + k).
Proof.
  induction (N.lt_wf_0 x) as [x _ IH].
  destruct (N.eq_dec x 0%N) as [-> | Hx].
  - exists 0%Z. split; [lia|]. split; [lia|]. intros rest v c.
    rewrite pretty_N_go_0, append_empty_l. f_equal; lia.
  - destruct (IH (x `div` 10)%N ltac:(apply N.div_lt; lia)) as (k & Hk & _ & Hscan).
    exists (k + 1)%Z. split; [lia|]. split; [lia|]. intros rest v c.
    rewrite (pretty_N_go_step x) by lia.
    rewrite pretty_N_go_app, append_assoc, append_cons, append_empty_l, Hscan.
    cbn [scan_digits]. rewrite digit_of_char by (apply N.mod_lt; lia).
    f_equal; [|lia].
    rewrite Z.pow_add_r, Z.pow_1_r by lia.
    rewrite N2Z.inj_div, N2Z.inj_mod. simpl (Z.of_N 10).
    pose proof (Z.div_mod (Z.of_N x) 10 ltac:(lia)). lia.
Qed.

(** The numeral of a positive number starts with a digit. *)
Lemma numeral_head (x : N) (s : string) :
  (0 < x)%N -> exists y r, (y < 10)%N /\ pretty_N_go x s = String (pretty_N_char y) r.
Proof.
  revert s. induction (N.lt_wf_0 x) as [x _ IH]; intros s Hx.
  rewrite pretty_N_go_step by done.
  destruct (N.eq_dec (x `div` 10)%N 0%N) as [E | Hne].
  - rewrite E, pretty_N_go_0. exists (x `mod` 10)%N. eexists. split; [|done].
    apply N.mod_lt. lia.
  - apply IH; [apply N.div_lt; lia | by apply N.neq_0_lt_0].
Qed.

Lemma numeral_Z_head (z : Z) :
  (0 <= z)%Z -> exists y r, (y < 10)%N /\ pretty z = String (pretty_N_char y) r.
Proof.
  intros Hz. destruct z as [|p|p]; [| |lia].
  - exists 0%N, "". split; [lia | reflexivity].
  - apply (numeral_head (Npos p) ""). lia.
Qed.

Lemma scan_numeral_Z (z : Z) :
  (0 <= z)%Z ->
  exists k, (0 < k)%Z
    /\ forall rest,
         scan_digits decimal_digit 10 (pretty z +:+ rest) 0 0
         = scan_digits decimal_digit 10 rest z k.
Proof.
  intros Hz. destruct z as [|p|p]; [| |lia].
  - exists 1%Z. split; [lia|]. intros rest. reflexivity.
  - destruct (scan_numeral (Npos p)) as (k & _ & Hk & Hscan).
    exists k. split; [apply Hk; lia|]. intros rest.
    change (pretty (Z.pos p)) with (pretty_N_go (Npos p) "").
    rewrite Hscan. f_equal.
Qed.

Lemma trim_start_digit (y : N) (r : string) :
  (y < 10)%N -> trim_start (String (pretty_N_char y) r) = String (pretty_N_char y) r.
Proof.
  intros H. by_digit y H; destruct r as [|c2 [|c3 r3]]; reflexivity.
Qed.

Lemma append_empty_r (a : string) : a +:+ "" = a.
Proof. induction a as [|c a IH]; [done|]. by rewrite append_cons, IH. Qed.

Lemma scan_sign_numeral (z : Z) (rest : string) :
  (0 <= z)%Z -> scan_sign (pretty z +:+ rest) = (false, pretty z +:+ rest).
Proof.
  intros Hz. destruct (numeral_Z_head z Hz) as (y & r & Hy & ->).
  rewrite append_cons. by_digit y Hy; reflexivity.
Qed.

Lemma trim_start_numeral (z : Z) (rest : string) :
  (0 <= z)%Z -> trim_start (pretty z +:+ rest) = pretty z +:+ rest.
Proof.
  intros Hz. destruct (numeral_Z_head z Hz) as (y & r & Hy & ->).
  rewrite append_cons. by apply trim_start_digit.
Qed.

Lemma no_Infinity_in_numeral (z : Z) (rest : string) :
  (0 <= z)%Z -> String.prefix "Infinity" (pretty z +:+ rest) = false.
Proof.
  intros Hz. destruct (numeral_Z_head z Hz) as (y & r & Hy & ->).
  rewrite append_cons. by_digit y Hy; reflexivity.
Qed.

(** A numeral reads back as its number when nothing or a space follows
    it. *)
Lemma parseFloat_numeral (z : Z) (rest : string) :
  (0 <= z <= 2 ^ 53)%Z ->
  rest = "" \/ (exists r, rest = String " " r) ->
  parseFloat (pretty z +:+ rest) = int z.
Proof.
  intros Hz Hrest. unfold parseFloat.
  rewrite trim_start_numeral, scan_sign_numeral by lia.
  unfold scan_unsigned_decimal. rewrite no_Infinity_in_numeral by lia.
  destruct (scan_numeral_Z z ltac:(lia)) as (k & Hk & Hscan). rewrite Hscan.
  assert (Estop : scan_digits decimal_digit 10 rest z k
                  = {| dvalue := z; dcount := k; drest := rest |}).
  { destruct Hrest as [-> | (r & ->)]; reflexivity. }
  rewrite Estop. cbn [dcount dvalue drest].
  assert (Ek : (0 <? k)%Z = true) by (by apply Z.ltb_lt). rewrite Ek.
  assert (Evalue : (inject_Z z * 10 ^ 0 == inject_Z z)%Q).
  { change (10 ^ 0)%Q with 1%Q. ring. }
  destruct Hrest as [-> | (r & ->)]; cbv beta iota zeta.
  - change (scan_exponent "") with 0%Z. apply binary64_of_integer; [done | lia].
  - change (scan_exponent (String " " r)) with 0%Z.
    apply binary64_of_integer; [done | lia].
Qed.

Lemma remove_h_m_app (a b : string) :
  remove_h_m (a +:+ b) = remove_h_m a +:+ remove_h_m b.
Proof.
  induction a as [|c a IH]; [done|]. rewrite append_cons. cbn [remove_h_m].
  destruct (Ascii.eqb c "h" || Ascii.eqb c "m")%bool; [done|].
  by rewrite append_cons, IH.
Qed.

Lemma remove_h_m_digits (x : N) (s : string) :
  remove_h_m (pretty_N_go x s) = pretty_N_go x (remove_h_m s).
Proof.
  revert s. induction (N.lt_wf_0 x) as [x _ IH]; intros s.
  destruct (N.eq_dec x 0%N) as [-> | Hx]; [by rewrite !pretty_N_go_0|].
  rewrite !(pretty_N_go_step x) by lia.
  rewrite IH by (apply N.div_lt; lia). f_equal.
  assert (Hy : (x `mod` 10 < 10)%N) by (apply N.mod_lt; lia).
  by_digit (x `mod` 10)%N Hy; reflexivity.
Qed.

(** A numeral has neither an [h] nor an [m]. *)
Lemma remove_h_m_numeral (z : Z) : (0 <= z)%Z -> remove_h_m (pretty z) = pretty z.
Proof.
  intros Hz. destruct z as [|p|p]; [done | | lia].
  change (pretty (Z.pos p)) with (pretty_N_go (Npos p) "").
  by rewrite remove_h_m_digits.
Qed.

(** Every character of a numeral is a digit. *)
Lemma numeral_chars (x : N) (s : string) (c : ascii) :
  c ∈ list_ascii_of_string (pretty_N_go x s) ->
  c ∈ list_ascii_of_string s \/ exists y, (y < 10)%N /\ c = pretty_N_char y.
Proof.
  revert s. induction (N.lt_wf_0 x) as [x _ IH]; intros s Hc.
  destruct (N.eq_dec x 0%N) as [-> | Hx]; [left; by rewrite pretty_N_go_0 in Hc|].
  rewrite pretty_N_go_step in Hc by lia.
  apply IH in Hc; [|apply N.div_lt; lia].
  destruct Hc as [Hc | Hc]; [|by right].
  cbn in Hc. apply elem_of_cons in Hc as [-> | Hc]; [|by left].
  right. exists (x `mod` 10)%N. split; [apply N.mod_lt; lia | done].
Qed.

Lemma numeral_Z_chars (z : Z) (c : ascii) :
  (0 <= z)%Z -> c ∈ list_ascii_of_string (pretty z) ->
  exists y, (y < 10)%N /\ c = pretty_N_char y.
Proof.
  intros Hz Hc. destruct z as [|p|p]; [| |lia].
  - cbn in Hc. apply list_elem_of_singleton in Hc. exists 0%N. split; [lia | done].
  - change (pretty (Z.pos p)) with (pretty_N_go (Npos p) "") in Hc.
    apply numeral_chars in Hc as [Hc | Hc]; [|done].
    cbn in Hc. by apply elem_of_nil in Hc.
Qed.

(** A numeral reads back as its number with [parseInt] as well. *)
Lemma parseInt_numeral (z : Z) : (0 <= z <= 2 ^ 53)%Z -> parseInt (pretty z) = int z.
Proof.
  intros Hz. unfold parseInt.
  rewrite <- (append_empty_r (pretty z)).
  rewrite trim_start_numeral, scan_sign_numeral by lia.
  rewrite (append_empty_r (pretty z)).
  assert (Hdec : match pretty z with
                 | String "0" (String x r') =>
                     if (Ascii.eqb x "x" || Ascii.eqb x "X")%bool
                     then scan_digits hex_digit 16 r' 0 0
                     else scan_digits decimal_digit 10 (pretty z) 0 0
                 | _ => scan_digits decimal_digit 10 (pretty z) 0 0
                 end = scan_digits decimal_digit 10 (pretty z) 0 0).
  { pose proof (numeral_Z_chars z) as Hchars.
    destruct (pretty z) as [|c1 [|c2 r']]; try reflexivity.
    - destruct c1 as [[] [] [] [] [] [] [] []]; reflexivity.
    - destruct (Hchars c2 ltac:(lia)) as (y & Hy & ->).
      { cbn. apply list_elem_of_further, list_elem_of_here. }
      destruct c1 as [[] [] [] [] [] [] [] []]; try reflexivity.
      by_digit y Hy; reflexivity. }
  rewrite Hdec.
  destruct (scan_numeral_Z z ltac:(lia)) as (k & Hk & Hscan).
  rewrite <- (append_empty_r (pretty z)), Hscan. cbn [scan_digits dcount dvalue].
  assert (Ek : (0 <? k)%Z = true) by (by apply Z.ltb_lt). rewrite Ek.
  by apply binary64_of_integer; [|lia].
Qed.

(** ** Whole numbers *)

(** Powers of two in a goal of integer arithmetic, written out. *)
Ltac powers :=
  repeat match goal with
  | H : context [(2 ^ Zpos ?k)%Z] |- _ =>
      let v := eval vm_compute in (2 ^ Zpos k)%Z in
      change (2 ^ Zpos k)%Z with v in H
  | |- context [(2 ^ Zpos ?k)%Z] =>
      let v := eval vm_compute in (2 ^ Zpos k)%Z in
      change (2 ^ Zpos k)%Z with v
  end.

Lemma num_lt_int (a b : Z) : num_lt (int a) (int b) = (a <? b)%Z.
Proof.
  unfold num_lt, int. destruct (Z.ltb_spec a b) as [Hlt | Hge].
  - apply negb_true_iff, Qle_bool_false. by rewrite <- Zlt_Qlt.
  - apply negb_false_iff, Qle_bool_iff. by rewrite <- Zle_Qle.
Qed.

Lemma num_strict_eq_int (a b : Z) : num_strict_eq (int a) (int b) = (a =? b)%Z.
Proof.
  unfold num_strict_eq, int. destruct (Z.eqb_spec a b) as [-> | Hne].
  - by apply Qeq_bool_iff.
  - apply Qeq_bool_false. intros E. apply Hne. by apply inject_Z_injective.
Qed.

Lemma Math_round_int (z : Z) : Math_round (int z) = int z.
Proof.
  unfold Math_round, int. do 2 f_equal.
  assert (H1 : (z <= Qfloor (inject_Z z + (1 # 2)))%Z).
  { rewrite <- (Qfloor_Z z) at 1. apply Qfloor_resp_le. lra. }
  pose proof (Qfloor_le (inject_Z z + (1 # 2))) as H2.
  assert (H3 : (Qfloor (inject_Z z + (1 # 2)) < z + 1)%Z).
  { rewrite Zlt_Qlt, inject_Z_plus. change (inject_Z 1) with 1%Q. lra. }
  lia.
Qed.

Lemma Math_ceil_int (z : Z) : Math_ceil (int z) = int z.
Proof. unfold Math_ceil, int. by rewrite Qceiling_Z. Qed.

Lemma Number_toString_int `{Host} (z : Z) :
  (Z.abs z <= 2 ^ 53)%Z -> Number_toString (int z) = pretty z.
Proof.
  intros Hz. unfold Number_toString, int, is_integer. rewrite Qfloor_Z.
  assert (E1 : Qeq_bool (inject_Z z) (inject_Z z) = true) by (by apply Qeq_bool_iff).
  assert (E2 : (Z.abs z <=? 2 ^ 53)%Z = true) by (by apply Z.leb_le).
  by rewrite E1, E2.
Qed.

(** The floor of the exact quotient of two integers. *)
Lemma Qfloor_div (n d : Z) : (0 < d)%Z -> Qfloor (inject_Z n / inject_Z d) = (n / d)%Z.
Proof.
  intros Hd.
  assert (Hdq : (0 < inject_Z d)%Q) by (rewrite <- (Zlt_Qlt 0); lia).
  pose proof (Z.mul_div_le n d ltac:(lia)) as Hlo.
  pose proof (Z.mul_succ_div_gt n d ltac:(lia)) as Hhi.
  set (q := (inject_Z n / inject_Z d)%Q).
  assert (Hlow : (inject_Z (n / d) <= q)%Q).
  { apply Qle_shift_div_l; [done|]. rewrite <- inject_Z_mult, <- Zle_Qle. lia. }
  assert (Hhigh : (q < inject_Z (n / d + 1))%Q).
  { apply Qlt_shift_div_r; [done|]. rewrite <- inject_Z_mult, <- Zlt_Qlt. lia. }
  assert (G1 : (n / d <= Qfloor q)%Z).
  { rewrite <- (Qfloor_Z (n / d)). by apply Qfloor_resp_le. }
  pose proof (Qfloor_le q) as F1.
  assert (G2 : (Qfloor q < n / d + 1)%Z) by (rewrite Zlt_Qlt; lra).
  lia.
Qed.

(** The remainder of a whole number that is not negative. *)
Lemma num_rem_int (n d : Z) :
  (0 <= n)%Z -> (0 < d)%Z -> num_rem (int n) (int d) = int (n mod d).
Proof.
  intros Hn Hd.
  assert (Hdq : (0 < inject_Z d)%Q) by (rewrite <- (Zlt_Qlt 0); lia).
  unfold num_rem, int.
  assert (E0 : Qeq_bool (inject_Z d) 0 = false) by (apply Qeq_bool_false; lra).
  rewrite E0. f_equal.
  assert (Hpos : (0 <= inject_Z n / inject_Z d)%Q).
  { apply Qle_shift_div_l; [done|]. rewrite Qmult_0_l. rewrite <- (Zle_Qle 0). lia. }
  unfold Qtrunc. apply Qle_bool_iff in Hpos. rewrite Hpos, Qfloor_div by done.
  rewrite <- (Qred_inject_Z (n mod d)). apply Qred_complete.
  unfold Qminus. rewrite <- inject_Z_mult, <- inject_Z_opp, <- inject_Z_plus.
  rewrite (Z.mod_eq n d) by lia.
  replace (n + - (d * (n / d)))%Z with (n - d * (n / d))%Z by lia. reflexivity.
Qed.

(** ** The [formatMinutes] helpers on whole minutes *)

Section WholeMinutes.
Context `{Host}.

(** The string that a whole number of minutes is shown as. *)
Lemma formatMinutes_of_int (n : Z) :
  (Z.abs n <= 2 ^ 52)%Z ->
  AnalyzeView.formatMinutes (int n)
  = if (n <? 60)%Z then pretty n +:+ "m"
    else if (0 <? n mod 60)%Z
         then pretty (n / 60)%Z +:+ "h " +:+ pretty (n mod 60)%Z +:+ "m"
         else pretty (n / 60)%Z +:+ "h".
Proof.
  intros Hn. unfold AnalyzeView.formatMinutes.
  rewrite num_lt_int. destruct (Z.ltb_spec n 60) as [Hlt | Hge].
  - by rewrite Math_round_int, Number_toString_int by lia.
  - assert (Hq : (n / 60 <= 2 ^ 52 / 60)%Z) by (apply Z.div_le_mono; lia).
    rewrite (floor_quotient n 60 6) by (powers; change (4503599627370496 / 60)%Z with 75059993789508%Z in Hq; lia).
    rewrite num_rem_int, Math_round_int by lia.
    unfold num_gt. rewrite num_lt_int.
    pose proof (Z.mod_pos_bound n 60 ltac:(lia)).
    rewrite !Number_toString_int
      by (powers; change (4503599627370496 / 60)%Z with 75059993789508%Z in Hq;
          pose proof (Z.div_pos n 60); lia).
    reflexivity.
Qed.

(** X1.  For a whole number [n] of minutes, negative or not, of
    magnitude at most 2^52, each of the four [formatMinutes] helpers prints
    [n] followed by "m" when [n] is below 60, and otherwise the quotient of
    [n] by 60 followed by "h" and, when it is not zero, by the remainder
    followed by "m". *)
Theorem formatMinutes_whole_minutes (n : Z) :
  (Z.abs n <= 2 ^ 52)%Z ->
  let shown :=
    if (n <? 60)%Z then pretty n +:+ "m"
    else if (0 <? n mod 60)%Z
         then pretty (n / 60)%Z +:+ "h " +:+ pretty (n mod 60)%Z +:+ "m"
         else pretty (n / 60)%Z +:+ "h" in
  SubjectManagement.formatMinutes (int n) = shown
  /\ DashboardView.formatMinutes (int n) = shown
  /\ AnalyzeView.formatMinutes (int n) = shown
  /\ LibraryView.formatMinutes (int n) = shown.
Proof.
  intros Hn shown.
  assert (E : AnalyzeView.formatMinutes (int n) = shown) by (by apply formatMinutes_of_int).
  assert (E' : SubjectManagement.formatMinutes (int n) = shown)
    by (by rewrite formatMinutes_guard_redundant).
  repeat split; assumption.
Qed.

End WholeMinutes.

Lemma formatMinutes_whole_minutes_witness :
  (Z.abs 135 <= 2 ^ 52)%Z
  /\ SubjectManagement.formatMinutes (H := Sample.host) (int 135) = "2h 15m"
  /\ DashboardView.formatMinutes (H := Sample.host) (int 135) = "2h 15m"
  /\ AnalyzeView.formatMinutes (H := Sample.host) (int 135) = "2h 15m"
  /\ LibraryView.formatMinutes (H := Sample.host) (int 135) = "2h 15m".
Proof.
  assert (Hn : (Z.abs 135 <= 2 ^ 52)%Z) by (vm_compute; discriminate).
  split; [exact Hn|].
  exact (formatMinutes_whole_minutes (H := Sample.host) 135 Hn).
Defined.

(** ** From the analyze view to the analysis modal *)

Lemma truthy_int (z : Z) : truthy (int z) = negb (z =? 0)%Z.
Proof.
  unfold truthy, int. f_equal. destruct (Z.eqb_spec z 0) as [-> | Hne].
  - by apply Qeq_bool_iff.
  - apply Qeq_bool_false. intros E. apply Hne.
    by apply (inject_Z_injective z 0).
Qed.

Lemma str_or_numeral (z : Z) (rest d : string) :
  (0 <= z)%Z -> str_or (pretty z +:+ rest) d = pretty z +:+ rest.
Proof.
  intros Hz. destruct (numeral_Z_head z Hz) as (y & r & _ & ->). reflexivity.
Qed.

Section ModalHours.
Context `{Host}.
Import AnalysisModal.

(** X2.  When the estimated time given to the modal is the string that
    the analyze view's [formatMinutes] makes of a whole number [n] of
    minutes, the result shows 3 hours for [n = 0], [n] hours for [n] from 1
    to 59, and the whole hours [n / 60] from 60 minutes on. *)
Theorem estimatedHours_of_formatted_minutes (md : FileMetadata) (n : Z) :
  (0 <= n <= 2 ^ 52)%Z ->
  estimatedTime md = Some (AnalyzeView.formatMinutes (int n)) ->
  estimatedHours (analysisResult (Some md))
  = int (if (n =? 0)%Z then 3 else if (n <? 60)%Z then n else n / 60).
Proof.
  intros Hn Hmd. unfold analysisResult. cbn [estimatedHours field].
  rewrite Hmd. cbn [opt_str_or].
  rewrite formatMinutes_of_int by lia.
  assert (Hq : (n / 60 <= 2 ^ 52 / 60)%Z) by (apply Z.div_le_mono; lia).
  change (2 ^ 52 / 60)%Z with 75059993789508%Z in Hq.
  pose proof (Z.div_pos n 60 ltac:(lia) ltac:(lia)) as Hq0.
  pose proof (Z.mod_pos_bound n 60 ltac:(lia)) as Hm.
  assert (Hparse : forall z rest,
            (0 <= z <= 2 ^ 53)%Z ->
            remove_h_m rest = "" \/ (exists r, remove_h_m rest = String " " r) ->
            Math_ceil (num_or (parseFloat (remove_h_m (str_or (pretty z +:+ rest) "3h")))
                              (int 3))
            = int (if (z =? 0)%Z then 3 else z)).
  { intros z rest Hz Hrest.
    rewrite str_or_numeral, remove_h_m_app, remove_h_m_numeral by lia.
    rewrite parseFloat_numeral by done.
    unfold num_or. rewrite truthy_int.
    destruct (z =? 0)%Z; apply Math_ceil_int. }
  destruct (Z.ltb_spec n 60) as [Hlt | Hge].
  - rewrite Hparse; [reflexivity | powers; lia | left; reflexivity].
  - assert (E0 : (n =? 0)%Z = false) by (apply Z.eqb_neq; lia). rewrite E0.
    assert (Eh : (n / 60 =? 0)%Z = false).
    { apply Z.eqb_neq. pose proof (Z.div_le_lower_bound n 60 1). lia. }
    destruct (0 <? n mod 60)%Z.
    + rewrite Hparse, Eh; [reflexivity | powers; lia |].
      right. rewrite remove_h_m_app. eexists. reflexivity.
    + rewrite Hparse, Eh; [reflexivity | powers; lia | left; reflexivity].
Qed.

(** X3.  Whatever the metadata, the estimated hours of the result are a
    whole number or an infinity, never [NaN]. *)
Theorem estimatedHours_whole_or_infinite (fileMetadata : option FileMetadata) :
  (exists z, estimatedHours (analysisResult fileMetadata) = int z)
  \/ (exists s, estimatedHours (analysisResult fileMetadata) = Infinity s).
Proof.
  unfold analysisResult. cbn [estimatedHours].
  destruct (parseFloat _) as [| s | q]; unfold num_or; cbn [truthy].
  - left. exists 3%Z. reflexivity.
  - right. by exists s.
  - left. destruct (negb (Qeq_bool q 0)).
    + by exists (Qceiling q).
    + exists 3%Z. reflexivity.
Qed.

End ModalHours.

Lemma estimatedHours_of_formatted_minutes_witness :
  (0 <= 90 <= 2 ^ 52)%Z
  /\ AnalysisModal.estimatedTime Sample.metadata
     = Some (AnalyzeView.formatMinutes (H := Sample.host) (int 90))
  /\ AnalysisModal.estimatedHours (AnalysisModal.analysisResult (Some Sample.metadata))
     = int 1.
Proof.
  assert (Hn : (0 <= 90 <= 2 ^ 52)%Z) by (vm_compute; split; discriminate).
  assert (Hmd : AnalysisModal.estimatedTime Sample.metadata
                = Some (AnalyzeView.formatMinutes (H := Sample.host) (int 90)))
    by (vm_compute; reflexivity).
  split; [exact Hn|]. split; [exact Hmd|].
  exact (estimatedHours_of_formatted_minutes (H := Sample.host) Sample.metadata 90 Hn Hmd).
Defined.

(** ** [formatFileSize] *)

Lemma num_mul_1024 : num_mul (int 1024) (int 1024) = int 1048576.
Proof. vm_compute. reflexivity. Qed.

(** Dividing a whole number of at most 53 bits by a power of two is
    exact. *)
Lemma num_div_power_of_two (b j : Z) :
  (0 <= b <= 2 ^ 53)%Z -> (0 <= j <= 1022)%Z ->
  exists y, num_div (int b) (int (2 ^ j)) = Finite y
            /\ (y == inject_Z b / inject_Z (2 ^ j))%Q.
Proof.
  intros Hb Hj.
  pose proof (two_pow_pos j) as Hpj.
  pose proof (two_pow_inject j ltac:(lia)) as Ej.
  unfold num_div, int.
  assert (E0 : Qeq_bool (inject_Z (2 ^ j)) 0 = false) by (apply Qeq_bool_false; lra).
  rewrite E0.
  destruct (binary64_dyadic b j Hb Hj) as (y & Ey & Hy).
  assert (Ex : (inject_Z b / inject_Z (2 ^ j) == inject_Z b / 2 ^ j)%Q) by (by rewrite Ej).
  pose proof (binary64_compat _ _ Ex) as Hc. rewrite Ey in Hc.
  destruct (binary64 (inject_Z b / inject_Z (2 ^ j))) as [| s | y']; simpl in Hc; try done.
  exists y'. split; [done|]. by rewrite Hc, Hy, Ej.
Qed.

Lemma pretty_digit (d : Z) :
  (0 <= d < 10)%Z -> String (pretty_N_char (Z.to_N d)) "" = pretty d.
Proof.
  intros Hd.
  assert (Hy : (Z.to_N d < 10)%N) by lia.
  rewrite <- (Z2N.id d) at 2 by lia.
  by_digit (Z.to_N d) Hy; reflexivity.
Qed.

Section FileSize.
Context `{Host}.

(** [toFixed] on a number that is not negative and stays below 10^21. *)
Lemma toFixed_nonneg (y : Q) (f : nat) (n : Z) :
  (0 <= y)%Q -> (y < 10 ^ 21)%Q ->
  Qfloor (y * 10 ^ Z.of_nat f + (1 # 2)) = n ->
  toFixed (Finite y) f
  = pretty (n / 10 ^ Z.of_nat f)%Z
    +:+ match f with O => "" | S _ => "." +:+ fraction_digits f n end.
Proof.
  intros Hy0 Hy21 Hn. unfold toFixed.
  assert (Ea : (Qabs y == y)%Q) by (by apply Qabs_pos).
  assert (E1 : Qle_bool (10 ^ 21) (Qabs y) = false) by (apply Qle_bool_false; by rewrite Ea).
  assert (E2 : is_negative y = false).
  { unfold is_negative. apply negb_false_iff. by apply Qle_bool_iff. }
  rewrite E1, E2.
  assert (E3 : Qfloor (Qabs y * 10 ^ Z.of_nat f + (1 # 2)) = n).
  { rewrite <- Hn. apply Qfloor_comp. by rewrite Ea. }
  by rewrite E3.
Qed.

Lemma formatFileSize_of_int (b : Z) :
  (Z.abs b <= 2 ^ 53)%Z ->
  AnalyzeView.formatFileSize (int b)
  = if (b <? 1024)%Z then pretty b +:+ " B"
    else if (b <? 1048576)%Z then
      let t := ((20 * b + 1024) / 2048)%Z in
      pretty (t / 10)%Z +:+ "." +:+ pretty (t mod 10)%Z +:+ " KB"
    else
      let c := ((200 * b + 1048576) / 2097152)%Z in
      pretty (c / 100)%Z +:+ "." +:+ pretty (c / 10 mod 10)%Z
      +:+ pretty (c mod 10)%Z +:+ " MB".
Proof.
  intros Hb. unfold AnalyzeView.formatFileSize.
  rewrite num_mul_1024, !num_lt_int.
  destruct (Z.ltb_spec b 1024) as [H1 | H1].
  { by rewrite Number_toString_int. }
  assert (Hbq : (inject_Z b <= 2 ^ 53)%Q).
  { rewrite <- (two_pow_inject 53) by lia. rewrite <- Zle_Qle. lia. }
  assert (Hbq0 : (1024 <= inject_Z b)%Q) by (rewrite <- (Zle_Qle 1024); lia).
  assert (Hbig : (2 ^ 53 < 10 ^ 21)%Q) by (by compare_constants).
  destruct (Z.ltb_spec b 1048576) as [H2 | H2].
  - destruct (num_div_power_of_two b 10 ltac:(lia) ltac:(lia)) as (y & Ey & Hy).
    change (2 ^ 10)%Z with 1024%Z in *. rewrite Ey.
    cbv zeta. set (t := ((20 * b + 1024) / 2048)%Z).
    assert (Hy' : (y * 1024 == inject_Z b)%Q) by (rewrite Hy; field; discriminate).
    rewrite (toFixed_nonneg y 1 t).
    + change (10 ^ Z.of_nat 1)%Z with 10%Z. cbn [fraction_digits].
      rewrite append_empty_l, pretty_digit by (apply Z.mod_pos_bound; lia).
      by rewrite !append_assoc.
    + change (inject_Z 1024) with 1024%Q in *. lra.
    + change (inject_Z 1024) with 1024%Q in *. lra.
    + unfold t. rewrite <- Qfloor_div by lia. apply Qfloor_comp.
      change (10 ^ Z.of_nat 1)%Q with 10%Q.
      rewrite Hy, inject_Z_plus, inject_Z_mult. field.
  - destruct (num_div_power_of_two b 20 ltac:(lia) ltac:(lia)) as (y & Ey & Hy).
    change (2 ^ 20)%Z with 1048576%Z in *. rewrite Ey.
    cbv zeta. set (c := ((200 * b + 1048576) / 2097152)%Z).
    assert (Hy' : (y * 1048576 == inject_Z b)%Q) by (rewrite Hy; field; discriminate).
    rewrite (toFixed_nonneg y 2 c).
    + change (10 ^ Z.of_nat 2)%Z with 100%Z. cbn [fraction_digits].
      rewrite append_empty_l, !pretty_digit by (apply Z.mod_pos_bound; lia).
      by rewrite !append_assoc.
    + change (inject_Z 1048576) with 1048576%Q in *. lra.
    + change (inject_Z 1048576) with 1048576%Q in *. lra.
    + unfold c. rewrite <- Qfloor_div by lia. apply Qfloor_comp.
      change (10 ^ Z.of_nat 2)%Q with 100%Q.
      rewrite Hy, inject_Z_plus, inject_Z_mult. field.
Qed.

(** X4.  For a whole number [b] of bytes of magnitude at most 2^53,
    [formatFileSize] prints [b] and " B" below 1024; below 1024 * 1024 the
    number [t] of tenths of a kilobyte nearest to [b / 1024], a tie going
    up, with a point before its last digit, and " KB"; and otherwise the
    number [c] of hundredths of a megabyte nearest to [b / 1048576], with
    a point before its last two digits, and " MB".  The analyze view and
    the library print the same. *)
Theorem formatFileSize_whole_bytes (b : Z) :
  (Z.abs b <= 2 ^ 53)%Z ->
  let shown :=
    if (b <? 1024)%Z then pretty b +:+ " B"
    else if (b <? 1048576)%Z then
      let t := ((20 * b + 1024) / 2048)%Z in
      pretty (t / 10)%Z +:+ "." +:+ pretty (t mod 10)%Z +:+ " KB"
    else
      let c := ((200 * b + 1048576) / 2097152)%Z in
      pretty (c / 100)%Z +:+ "." +:+ pretty (c / 10 mod 10)%Z
      +:+ pretty (c mod 10)%Z +:+ " MB" in
  AnalyzeView.formatFileSize (int b) = shown
  /\ LibraryView.formatFileSize (int b) = shown.
Proof.
  intros Hb shown.
  assert (E : AnalyzeView.formatFileSize (int b) = shown) by (by apply formatFileSize_of_int).
  split; exact E.
Qed.

End FileSize.

Lemma formatFileSize_whole_bytes_witness :
  (Z.abs 1536 <= 2 ^ 53)%Z
  /\ AnalyzeView.formatFileSize (H := Sample.host) (int 1536) = "1.5 KB"
  /\ LibraryView.formatFileSize (H := Sample.host) (int 1536) = "1.5 KB".
Proof.
  assert (Hb : (Z.abs 1536 <= 2 ^ 53)%Z) by (vm_compute; discriminate).
  split; [exact Hb|].
  exact (formatFileSize_whole_bytes (H := Sample.host) 1536 Hb).
Defined.

(** ** [getTimeAgo] *)

Lemma milliseconds_per_hour : num_mul (num_mul (int 1000) (int 60)) (int 60) = int 3600000.
Proof. vm_compute. reflexivity. Qed.

Lemma num_sub_int (a b : Z) :
  (Z.abs (a - b) <= 2 ^ 53)%Z -> num_sub (int a) (int b) = int (a - b).
Proof.
  intros Hab. unfold num_sub, int. apply binary64_of_integer; [|done].
  unfold Qminus. by rewrite <- inject_Z_opp, <- inject_Z_plus.
Qed.

(** The quotient of a negative number by a positive whole number floors
    below one. *)
Lemma floor_of_negative_quotient (n d : Z) :
  (n < 0)%Z -> (0 < d)%Z ->
  num_lt (Math_floor (num_div (int n) (int d))) (int 1) = true.
Proof.
  intros Hn Hd.
  assert (Hdq : (0 < inject_Z d)%Q) by (rewrite <- (Zlt_Qlt 0); lia).
  assert (Hnq : (inject_Z n < 0)%Q) by (change 0%Q with (inject_Z 0); rewrite <- Zlt_Qlt; lia).
  unfold num_div, int.
  assert (E0 : Qeq_bool (inject_Z d) 0 = false) by (apply Qeq_bool_false; lra).
  rewrite E0.
  assert (Hx : (inject_Z n / inject_Z d <= inject_Z 0)%Q).
  { apply Qle_shift_div_r; [done|]. change (inject_Z 0) with 0%Q. lra. }
  destruct (binary64_below _ 0 Hx ltac:(done)) as [-> | (y & -> & Hy)]; [reflexivity|].
  cbn [Math_floor num_lt]. apply negb_true_iff, Qle_bool_false.
  pose proof (Qfloor_le y). change (inject_Z 0) with 0%Q in Hy.
  change (inject_Z 1) with 1%Q. lra.
Qed.

Section TimeAgo.
Context `{Host}.
Variable Date_now : number.
Variable Date_getTime : string -> number.

(** X5.  For a date whose time value is [t] milliseconds, read at [now]
    milliseconds, with [now - t] between -2^53 and 2^52, [getTimeAgo] counts
    the whole hours elapsed: below one hour, and for every date in the
    future, it says "Just now"; below 24 hours it prints the hours; from 24
    to 47 hours it says "Yesterday"; and otherwise it prints the whole
    days. *)
Theorem getTimeAgo_whole_milliseconds (s : string) (now t : Z) :
  s <> "" ->
  Date_now = int now ->
  Date_getTime s = int t ->
  (- 2 ^ 53 <= now - t <= 2 ^ 52)%Z ->
  DashboardView.getTimeAgo Date_now Date_getTime (Some s)
  = let hours := ((now - t) / 3600000)%Z in
    if (hours <? 1)%Z then "Just now"
    else if (hours <? 24)%Z then pretty hours +:+ "h ago"
    else if (hours / 24 =? 1)%Z then "Yesterday"
    else pretty (hours / 24)%Z +:+ "d ago".
Proof.
  intros Hs Hnow Ht Hd. destruct s as [|c s]; [done|].
  unfold DashboardView.getTimeAgo. rewrite Hnow, Ht, milliseconds_per_hour.
  rewrite num_sub_int by (powers; lia).
  set (d := (now - t)%Z) in *. cbv zeta.
  destruct (Z_lt_le_dec d 0) as [Hneg | Hpos].
  - rewrite floor_of_negative_quotient by lia.
    assert (E : (d / 3600000 <? 1)%Z = true).
    { apply Z.ltb_lt. pose proof (Z.div_lt_upper_bound d 3600000 0). lia. }
    by rewrite E.
  - assert (Hq : (d / 3600000 <= 2 ^ 52 / 3600000)%Z) by (apply Z.div_le_mono; lia).
    change (2 ^ 52 / 3600000)%Z with 1250999896%Z in Hq.
    pose proof (Z.div_pos d 3600000 Hpos ltac:(lia)) as Hq0.
    rewrite (floor_quotient d 3600000 22) by (powers; lia).
    set (h := (d / 3600000)%Z) in *.
    rewrite !num_lt_int.
    destruct (h <? 1)%Z; [reflexivity|].
    destruct (h <? 24)%Z.
    + by rewrite Number_toString_int by (powers; lia).
    + assert (Hq' : (h / 24 <= h)%Z) by (apply Z.div_le_upper_bound; lia).
      pose proof (Z.div_pos h 24 Hq0 ltac:(lia)) as Hq0'.
      rewrite (floor_quotient h 24 5) by (powers; lia).
      rewrite num_strict_eq_int.
      destruct (h / 24 =? 1)%Z; [reflexivity|].
      by rewrite Number_toString_int by (powers; lia).
Qed.

(** X6.  For a string that is not a date, whose time value is [NaN],
    [getTimeAgo] prints "NaNd ago" whatever the clock reads; only the
    empty string and a missing date give the empty string. *)
Theorem getTimeAgo_not_a_date (s : string) :
  Date_getTime s = NaN ->
  DashboardView.getTimeAgo Date_now Date_getTime (Some s)
  = match s with EmptyString => "" | _ => "NaNd ago" end
  /\ DashboardView.getTimeAgo Date_now Date_getTime None = "".
Proof.
  intros Hs. split; [|reflexivity].
  destruct s as [|c s]; [reflexivity|].
  unfold DashboardView.getTimeAgo. rewrite Hs.
  destruct Date_now as [| b | q]; reflexivity.
Qed.

End TimeAgo.

(** A date of half past midnight on 2026-11-02, read at four o'clock. *)
Lemma getTimeAgo_whole_milliseconds_witness :
  "2026-11-02T00:30:00Z" <> ""
  /\ int 1793592000000 = int 1793592000000
  /\ int 1793579400000 = int 1793579400000
  /\ (- 2 ^ 53 <= 1793592000000 - 1793579400000 <= 2 ^ 52)%Z
  /\ DashboardView.getTimeAgo (H := Sample.host)
       (int 1793592000000) (fun _ => int 1793579400000) (Some "2026-11-02T00:30:00Z")
     = "3h ago".
Proof.
  assert (Hs : "2026-11-02T00:30:00Z" <> "") by discriminate.
  assert (Hd : (- 2 ^ 53 <= 1793592000000 - 1793579400000 <= 2 ^ 52)%Z)
    by (vm_compute; split; discriminate).
  split; [exact Hs|]. split; [reflexivity|]. split; [reflexivity|]. split; [exact Hd|].
  exact (getTimeAgo_whole_milliseconds (H := Sample.host)
           (int 1793592000000) (fun _ => int 1793579400000)
           "2026-11-02T00:30:00Z" 1793592000000 1793579400000 Hs eq_refl eq_refl Hd).
Defined.

Lemma getTimeAgo_not_a_date_witness :
  (fun _ : string => NaN) "soon" = NaN
  /\ DashboardView.getTimeAgo (H := Sample.host) (int 1793592000000) (fun _ => NaN)
       (Some "soon") = "NaNd ago".
Proof.
  split; [reflexivity|].
  exact (proj1 (getTimeAgo_not_a_date (H := Sample.host)
                  (int 1793592000000) (fun _ => NaN) "soon" eq_refl)).
Defined.

(** ** The planner: what [handleGenerate] sends and leaves *)

Lemma truthy_num_or (a b : number) : truthy b = true -> truthy (num_or a b) = true.
Proof. intros Hb. unfold num_or. by destruct (truthy a) eqn:E. Qed.

Section Generate.
Import Api PlannerView.

(** X7.  Every request that [handleGenerate] sends is a POST to
    [/api/timetable/generate] whose subject list and block list are not
    empty, whose hours per day and days count are neither [NaN] nor zero,
    and whose exam date, when there is one, is not the empty string. *)
Theorem handleGenerate_request_well_formed
    (backend : ApiCall -> settled) (st : State) (call : ApiCall) :
  call ∈ (handleGenerate backend st).2 ->
  path call = "/api/timetable/generate"
  /\ method call = "POST"
  /\ subject_ids (body call) <> []
  /\ preferred_blocks (body call) <> []
  /\ truthy (hours_per_day (body call)) = true
  /\ truthy (days_count (body call)) = true
  /\ exam_date (body call) <> Some "".
Proof.
  intros Hin.
  destruct (selectedSubjectIds (formData st)) as [|i l] eqn:E.
  - unfold handleGenerate in Hin. rewrite E in Hin. by apply elem_of_nil in Hin.
  - rewrite handleGenerate_sends in Hin by (by rewrite E).
    apply list_elem_of_singleton in Hin. subst call. cbn.
    rewrite E. repeat split; try done.
    + destruct (studyBlocks (formData st)); done.
    + by apply truthy_num_or.
    + by apply truthy_num_or.
    + by destruct (examDate (formData st)).
Qed.

(** X8.  When the backend rejects the request, [handleGenerate] leaves
    the state as it found it, the displayed sessions, the stats and the
    open form included, apart from [generating], which it resets. *)
Theorem handleGenerate_rejected
    (backend : ApiCall -> settled) (st : State) (detail : string) :
  selectedSubjectIds (formData st) <> [] ->
  backend {| path := "/api/timetable/generate"; method := "POST";
             body := generateRequest (formData st) |} = Rejected detail ->
  (handleGenerate backend st).1 = setGenerating false st
  /\ studySessions (handleGenerate backend st).1 = studySessions st
  /\ timetableStats (handleGenerate backend st).1 = timetableStats st
  /\ showGenerateForm (handleGenerate backend st).1 = showGenerateForm st.
Proof.
  intros Hne Hrej.
  assert (E : (handleGenerate backend st).1 = setGenerating false st).
  { unfold handleGenerate.
    destruct (selectedSubjectIds (formData st)) as [|i l] eqn:Esel; [done|].
    cbn [length Nat.eqb]. unfold generateTimetable.
    change (API_BASE +:+ "/timetable/generate") with "/api/timetable/generate".
    change (formData (setGenerating true st)) with (formData st).
    by rewrite Hrej. }
  rewrite E. repeat split.
Qed.

(** X9.  Whatever the backend answers, [handleGenerate] sends at most
    one request, never touches the form data, the subjects, the view mode
    or the edit modal, never opens the generate form, and, once a subject
    is selected, always ends with [generating] reset. *)
Theorem handleGenerate_frame (backend : ApiCall -> settled) (st : State) :
  let st' := (handleGenerate backend st).1 in
  (length (handleGenerate backend st).2 <= 1)%nat
  /\ formData st' = formData st
  /\ subjects st' = subjects st
  /\ viewMode st' = viewMode st
  /\ selectedSession st' = selectedSession st
  /\ showEditModal st' = showEditModal st
  /\ (showGenerateForm st' = true -> showGenerateForm st = true)
  /\ (selectedSubjectIds (formData st) <> [] -> generating st' = false).
Proof.
  unfold handleGenerate.
  destruct (selectedSubjectIds (formData st)) as [|i l] eqn:E.
  - cbn. repeat split; try done. lia.
  - cbn [length Nat.eqb]. unfold generateTimetable.
    destruct (backend _); cbn; repeat split; try done; lia.
Qed.


Lemma parseInt_whole (s : string) :
  parseInt s = NaN
  \/ (exists k, parseInt s = int k)
  \/ (exists b, parseInt s = Infinity b).
Proof.
  unfold parseInt. destruct (scan_sign _) as [neg r].
  match goal with |- context [dcount ?d] => destruct (0 <? dcount d)%Z end; [|by left].
  right. apply binary64_whole.
Qed.

(** X10.  The days count of a request is a whole number other than zero,
    or an infinity when the input has too many digits for a number: never a
    fraction, whatever was typed. *)
Theorem days_count_whole (f : FormData) :
  (exists k, k <> 0%Z /\ days_count (generateRequest f) = int k)
  \/ (exists b, days_count (generateRequest f) = Infinity b).
Proof.
  cbn. unfold num_or.
  destruct (parseInt_whole (daysCount f)) as [-> | [(k & ->) | (b & ->)]].
  - left. by exists 7%Z.
  - left. rewrite truthy_int. destruct (Z.eqb_spec k 0) as [-> | Hne].
    + by exists 7%Z.
    + by exists k.
  - right. by exists b.
Qed.

(** X11.  A positive whole number of at most 53 bits, typed as its
    decimal numeral into the field of the hours per day or of the days to
    plan, is sent as that very number. *)
Theorem typed_numbers_are_sent (f : FormData) (h d : Z) :
  (0 < h <= 2 ^ 53)%Z -> (0 < d <= 2 ^ 53)%Z ->
  hoursPerDay f = pretty h -> daysCount f = pretty d ->
  hours_per_day (generateRequest f) = int h
  /\ days_count (generateRequest f) = int d.
Proof.
  intros Hh Hd Eh Ed. cbn. rewrite Eh, Ed.
  rewrite <- (append_empty_r (pretty h)), parseFloat_numeral by (try lia; by left).
  rewrite parseInt_numeral by lia.
  unfold num_or. rewrite !truthy_int.
  assert (E1 : (h =? 0)%Z = false) by (apply Z.eqb_neq; lia).
  assert (E2 : (d =? 0)%Z = false) by (apply Z.eqb_neq; lia).
  by rewrite E1, E2.
Qed.

End Generate.

Lemma handleGenerate_request_well_formed_witness :
  exists call,
    call ∈ (PlannerView.handleGenerate Sample.backend (Sample.with_form Sample.form)).2
    /\ Api.subject_ids (Api.body call) <> []
    /\ truthy (Api.days_count (Api.body call)) = true.
Proof.
  eexists.
  assert (Hin : {| Api.path := "/api/timetable/generate"; Api.method := "POST";
                   Api.body := PlannerView.generateRequest Sample.form |}
                ∈ (PlannerView.handleGenerate Sample.backend
                     (Sample.with_form Sample.form)).2)
    by (vm_compute; apply list_elem_of_here).
  split; [exact Hin|].
  pose proof (handleGenerate_request_well_formed Sample.backend
                (Sample.with_form Sample.form) _ Hin) as Hw.
  split; [exact (proj1 (proj2 (proj2 Hw))) | exact (proj1 (proj2 (proj2 (proj2 (proj2 (proj2 Hw))))))].
Defined.

Lemma handleGenerate_rejected_witness :
  PlannerView.selectedSubjectIds (PlannerView.formData (Sample.with_form Sample.form)) <> []
  /\ Sample.unreachable
       {| Api.path := "/api/timetable/generate"; Api.method := "POST";
          Api.body := PlannerView.generateRequest
                        (PlannerView.formData (Sample.with_form Sample.form)) |}
     = Api.Rejected "Failed to fetch"
  /\ (PlannerView.handleGenerate Sample.unreachable (Sample.with_form Sample.form)).1
     = PlannerView.setGenerating false (Sample.with_form Sample.form).
Proof.
  assert (Hne : PlannerView.selectedSubjectIds
                  (PlannerView.formData (Sample.with_form Sample.form)) <> [])
    by (simpl; discriminate).
  split; [exact Hne|]. split; [reflexivity|].
  exact (proj1 (handleGenerate_rejected Sample.unreachable
                  (Sample.with_form Sample.form) "Failed to fetch" Hne eq_refl)).
Defined.

(** ** The planner: choosing blocks and subjects *)

Section Choosing.
Import Api PlannerView.

Lemma filter_absent (a : list string) (x : string) :
  x ∉ a -> filter (fun i => i ≠ x) a = a.
Proof.
  intros Hx. induction a as [|y a IH]; [done|].
  apply not_elem_of_cons in Hx as [Hne Hx].
  rewrite filter_cons_True by done. by rewrite IH.
Qed.

Lemma filter_gone (a : list string) (x : string) : x ∉ filter (fun i => i ≠ x) a.
Proof. rewrite list_elem_of_filter. tauto. Qed.

Lemma filter_one (a : list string) (x : string) :
  NoDup a -> x ∈ a -> S (length (filter (fun i => i ≠ x) a)) = length a.
Proof.
  intros Hnd Hx. induction Hnd as [|y a Hy Hnd IH]; [by apply elem_of_nil in Hx|].
  destruct (decide (y = x)) as [-> | Hne].
  - rewrite filter_cons_False by tauto. by rewrite filter_absent.
  - rewrite filter_cons_True by done. cbn [length]. f_equal. apply IH.
    apply elem_of_cons in Hx as [-> | Hx]; [done | exact Hx].
Qed.

(** X12.  Toggling an item keeps a list free of duplicates so, and
    changes its length by one: down when the item was included, up when it
    was not. *)
Theorem toggleArrayItem_NoDup (a : list string) (x : string) :
  NoDup a ->
  NoDup (toggleArrayItem a x)
  /\ (x ∈ a -> S (length (toggleArrayItem a x)) = length a)
  /\ (x ∉ a -> length (toggleArrayItem a x) = S (length a)).
Proof.
  intros Hnd. destruct (decide (x ∈ a)) as [Hin | Hout].
  - rewrite (toggle_included a x Hin). split; [by apply NoDup_filter|].
    split; [intros _; by apply filter_one | done].
  - rewrite (toggle_not_included a x Hout). split.
    + apply NoDup_app. split; [done|]. split; [|apply NoDup_singleton].
      intros y Hy Hy'. apply list_elem_of_singleton in Hy'. by subst.
    + split; [done|]. intros _. rewrite length_app. simpl. lia.
Qed.

Lemma toggle_twice_absent (a : list string) (x : string) :
  x ∉ a -> toggleArrayItem (toggleArrayItem a x) x = a.
Proof.
  intros Hout. rewrite (toggle_not_included a x Hout).
  rewrite toggle_included by (rewrite elem_of_app, list_elem_of_singleton; tauto).
  rewrite filter_app, filter_absent by done.
  rewrite filter_cons_False by tauto. by rewrite filter_nil, app_nil_r.
Qed.

(** X13.  Toggling an item twice gives back the very list when the item
    was not included; when it was, the item ends up once, at the end. *)
Theorem toggleArrayItem_twice (a : list string) (x : string) :
  (x ∉ a -> toggleArrayItem (toggleArrayItem a x) x = a)
  /\ (x ∈ a ->
      toggleArrayItem (toggleArrayItem a x) x = filter (fun i => i ≠ x) a ++ [x]).
Proof.
  split.
  - apply toggle_twice_absent.
  - intros Hin. rewrite (toggle_included a x Hin).
    by rewrite toggle_not_included by apply filter_gone.
Qed.

Lemma toggleSubject_selection (x : string) (st : State) :
  selectedSubjectIds (formData (toggleSubject x st))
  = toggleArrayItem (selectedSubjectIds (formData st)) x.
Proof. reflexivity. Qed.

Lemma deselect_each (ids : list string) (st : State) :
  NoDup ids ->
  selectedSubjectIds (formData st) = ids ->
  selectedSubjectIds (formData (foldl (fun s i => toggleSubject i s) st ids)) = [].
Proof.
  intros Hnd. revert st. induction Hnd as [|i ids Hi Hnd IH]; intros st Hsel; [done|].
  cbn [foldl]. apply IH. rewrite toggleSubject_selection, Hsel.
  rewrite toggle_included by apply list_elem_of_here.
  rewrite filter_cons_False by tauto. by apply filter_absent.
Qed.

(** X14.  Once the subjects have loaded, all of them are selected: the
    button is enabled as long as no generation runs, and [handleGenerate]
    sends the ids of all the subjects, in the order of the response. *)
Theorem loadSubjects_selects_all
    (backend : ApiCall -> settled) (data : list SubjectResponse) (st : State) :
  data <> [] ->
  let loaded := loadSubjects (Fulfilled data) st in
  generateDisabled loaded = generating st
  /\ exists call,
       (handleGenerate backend loaded).2 = [call]
       /\ subject_ids (body call) = map Api.id data.
Proof.
  intros Hne loaded.
  assert (Hsel : selectedSubjectIds (formData loaded) = map Api.id data) by reflexivity.
  assert (Hsel' : selectedSubjectIds (formData loaded) <> []).
  { rewrite Hsel. by destruct data. }
  split.
  - unfold generateDisabled. rewrite Hsel.
    change (generating loaded) with (generating st).
    destruct data; [done|]. cbn. apply orb_false_r.
  - eexists. split; [by apply handleGenerate_sends|]. exact Hsel.
Qed.

(** X15.  When the subjects that loaded have distinct ids, a click on
    the badge of each of them deselects them all: the button is disabled
    and [handleGenerate] sends nothing. *)
Theorem deselecting_every_subject
    (backend : ApiCall -> settled) (data : list SubjectResponse) (st : State) :
  NoDup (map Api.id data) ->
  let cleared :=
    foldl (fun s i => toggleSubject i s) (loadSubjects (Fulfilled data) st)
          (map Api.id data) in
  selectedSubjectIds (formData cleared) = []
  /\ generateDisabled cleared = true
  /\ handleGenerate backend cleared = (cleared, []).
Proof.
  intros Hnd cleared.
  assert (E : selectedSubjectIds (formData cleared) = []) by (by apply deselect_each).
  split; [exact E|]. split.
  - unfold generateDisabled. rewrite E. apply orb_true_r.
  - unfold handleGenerate. by rewrite E.
Qed.



End Choosing.

Lemma toggleArrayItem_NoDup_witness :
  NoDup ["Morning (6-12)"; "Evening (18-24)"]
  /\ NoDup (PlannerView.toggleArrayItem ["Morning (6-12)"; "Evening (18-24)"]
              "Morning (6-12)").
Proof.
  assert (Hnd : NoDup ["Morning (6-12)"; "Evening (18-24)"]).
  { apply (bool_decide_unpack _). vm_compute. exact I. }
  split; [exact Hnd|].
  exact (proj1 (toggleArrayItem_NoDup _ "Morning (6-12)" Hnd)).
Defined.

Lemma loadSubjects_selects_all_witness :
  Sample.subjects <> []
  /\ PlannerView.generateDisabled
       (PlannerView.loadSubjects (Api.Fulfilled Sample.subjects) PlannerView.initial)
     = false.
Proof.
  assert (Hne : Sample.subjects <> []) by discriminate.
  split; [exact Hne|].
  exact (proj1 (loadSubjects_selects_all Sample.backend Sample.subjects
                  PlannerView.initial Hne)).
Defined.

Lemma deselecting_every_subject_witness :
  NoDup (map Api.id Sample.subjects)
  /\ PlannerView.generateDisabled
       (foldl (fun s i => PlannerView.toggleSubject i s)
              (PlannerView.loadSubjects (Api.Fulfilled Sample.subjects) PlannerView.initial)
              (map Api.id Sample.subjects))
     = true.
Proof.
  assert (Hnd : NoDup (map Api.id Sample.subjects)).
  { apply (bool_decide_unpack _). vm_compute. exact I. }
  split; [exact Hnd|].
  exact (proj1 (proj2 (deselecting_every_subject Sample.backend Sample.subjects
                         PlannerView.initial Hnd))).
Defined.


(** The form as the planner starts with it asks for 4 hours on 7 days. *)
Lemma typed_numbers_are_sent_witness :
  (0 < 4 <= 2 ^ 53)%Z /\ (0 < 7 <= 2 ^ 53)%Z
  /\ PlannerView.hoursPerDay (PlannerView.formData PlannerView.initial) = pretty 4%Z
  /\ PlannerView.daysCount (PlannerView.formData PlannerView.initial) = pretty 7%Z
  /\ Api.hours_per_day
       (PlannerView.generateRequest (PlannerView.formData PlannerView.initial)) = int 4
  /\ Api.days_count
       (PlannerView.generateRequest (PlannerView.formData PlannerView.initial)) = int 7.
Proof.
  assert (H4 : (0 < 4 <= 2 ^ 53)%Z) by (vm_compute; split; [reflexivity | discriminate]).
  assert (H7 : (0 < 7 <= 2 ^ 53)%Z) by (vm_compute; split; [reflexivity | discriminate]).
  split; [exact H4|]. split; [exact H7|]. split; [reflexivity|]. split; [reflexivity|].
  exact (typed_numbers_are_sent (PlannerView.formData PlannerView.initial) 4 7
           H4 H7 eq_refl eq_refl).
Defined.

(** ** The analyze view: uploading and deleting *)

Section Uploads.
Context `{Host}.
Import Api AnalyzeView.

(** The progress reports of one upload touch one key only. *)
Lemma progress_reports (k : string) (ps : list number) (st : State) :
  foldl (fun s p => setUploadingFiles (<[k := p]> (uploadingFiles s)) s) st ps
  = setUploadingFiles (foldl (fun m p => <[k := p]> m) (uploadingFiles st) ps) st.
Proof.
  revert st. induction ps as [|p ps IH]; intros st; [by destruct st|].
  cbn [foldl]. by rewrite IH.
Qed.

Lemma delete_reports (k : string) (ps : list number) (m : gmap string number) :
  delete k (foldl (fun m p => <[k := p]> m) m ps) = delete k m.
Proof.
  revert m. induction ps as [|p ps IH]; intros m; [done|].
  cbn [foldl]. by rewrite IH, delete_insert_eq.
Qed.

(** One turn of the loop, in closed form. *)
Lemma uploadOne_state (subjectId : string) (st : State) (events : list Event) (u : Upload) :
  uploadOne subjectId (st, events) u
  = ({| subjects := subjects st;
        selectedSubjectId := selectedSubjectId st;
        uploadedFiles :=
          match outcome u with
          | Fulfilled result => result :: uploadedFiles st
          | Failed _ => uploadedFiles st
          end;
        uploadingFiles := delete (tempId u) (uploadingFiles st);
        analyzingFile :=
          match outcome u with
          | Fulfilled result =>
              match File.analysis result with
              | Some _ => Some result
              | None => analyzingFile st
              end
          | Failed _ => analyzingFile st
          end;
        loading := loading st |},
     events ++ [ Sent (uploadFile (file_name u) subjectId);
                 Toast match outcome u with
                       | Fulfilled _ => file_name u +:+ " uploaded and analyzed!"
                       | Failed message => str_or message "Upload failed"
                       end
                       match outcome u with
                       | Fulfilled _ => "success"
                       | Failed _ => "error"
                       end ]).
Proof.
  unfold uploadOne. rewrite progress_reports. cbn.
  rewrite delete_reports, delete_insert_eq.
  destruct (outcome u) as [result | message]; [|reflexivity].
  destruct (File.analysis result); reflexivity.
Qed.

Lemma lookup_deleted (f : Upload -> string) (l : list Upload) (m : gmap string number)
    (k : string) :
  foldl (fun m u => delete (f u) m) m l !! k
  = if bool_decide (k ∈ map f l) then None else m !! k.
Proof.
  revert m. induction l as [|u l IH]; intros m; [done|].
  cbn [foldl map]. rewrite IH.
  destruct (decide (k = f u)) as [-> | Hne].
  - rewrite lookup_delete_eq, (bool_decide_eq_true_2 (f u ∈ f u :: map f l))
      by apply list_elem_of_here.
    by destruct (bool_decide _).
  - rewrite lookup_delete_ne by done.
    destruct (decide (k ∈ map f l)) as [Hin | Hout].
    + by rewrite !bool_decide_eq_true_2 by (try apply list_elem_of_further; done).
    + rewrite !bool_decide_eq_false_2; [done | | done].
      rewrite elem_of_cons. tauto.
Qed.

(** The requests among the events of a handler. *)
Lemma sent_of_app (l1 l2 : list Event) :
  omap (fun e => match e with Sent f => Some f | Toast _ _ => None end) (l1 ++ l2)
  = omap (fun e => match e with Sent f => Some f | Toast _ _ => None end) l1
    ++ omap (fun e => match e with Sent f => Some f | Toast _ _ => None end) l2.
Proof. apply omap_app. Qed.

Lemma last_analysed (rs : list File.UploadedFileResponse)
    (a : option File.UploadedFileResponse) :
  foldl (fun a r => match File.analysis r with Some _ => Some r | None => a end) a rs
  = match last (filter (fun r => is_Some (File.analysis r)) rs) with
    | Some r => Some r
    | None => a
    end.
Proof.
  revert a. induction rs as [|r rs IH]; intros a; [done|].
  cbn [foldl]. rewrite IH. destruct (File.analysis r) as [an|] eqn:E.
  - rewrite filter_cons_True by (by rewrite E). rewrite last_cons.
    by destruct (last _).
  - rewrite filter_cons_False; [done|]. rewrite E. by intros [? ?].
Qed.

(** The loop of [handleUpload], in closed form. *)
Lemma upload_loop (subjectId : string) (files : list Upload) (st : State)
    (events : list Event) :
  let results :=
    omap (fun u => match outcome u with Fulfilled r => Some r | Failed _ => None end)
         files in
  let st' := (foldl (uploadOne subjectId) (st, events) files).1 in
  subjects st' = subjects st
  /\ selectedSubjectId st' = selectedSubjectId st
  /\ loading st' = loading st
  /\ uploadingFiles st' = foldl (fun m u => delete (tempId u) m) (uploadingFiles st) files
  /\ uploadedFiles st' = rev results ++ uploadedFiles st
  /\ analyzingFile st'
     = foldl (fun a r => match File.analysis r with Some _ => Some r | None => a end)
             (analyzingFile st) results
  /\ omap (fun e => match e with Sent f => Some f | Toast _ _ => None end)
          (foldl (uploadOne subjectId) (st, events) files).2
     = omap (fun e => match e with Sent f => Some f | Toast _ _ => None end) events
       ++ map (fun u => uploadFile (file_name u) subjectId) files.
Proof.
  revert st events. induction files as [|u files IH]; intros st events.
  - cbn. by rewrite app_nil_r.
  - cbn [foldl]. rewrite uploadOne_state.
    match goal with
    | |- context [foldl _ (?s, ?e) files] =>
        destruct (IH s e) as (I1 & I2 & I3 & I4 & I5 & I6 & I7)
    end.
    cbv zeta. rewrite I1, I2, I3, I4, I5, I6, I7. cbn [subjects selectedSubjectId loading
      uploadingFiles uploadedFiles analyzingFile].
    repeat split.
    + cbn. destruct (outcome u) as [r | message]; cbn; [|done].
      by rewrite <- app_assoc.
    + cbn. by destruct (outcome u) as [r | message].
    + rewrite sent_of_app. cbn. by rewrite <- app_assoc.
Qed.

(** X17.  Once a subject is selected, [handleUpload] leaves no progress
    entry behind, whether the uploads it waits for succeed or fail: the entry of every
    file of the batch is gone and the other entries are as they were.  In
    particular no entry is left when there was none before. *)
Theorem handleUpload_clears_progress (files : list Upload) (st : State) :
  selectedSubjectId st <> "" ->
  let st' := (handleUpload files st).1 in
  (forall k,
     uploadingFiles st' !! k
     = if bool_decide (k ∈ map tempId files) then None else uploadingFiles st !! k)
  /\ (uploadingFiles st = ∅ -> uploadingFiles st' = ∅).
Proof.
  intros Hsel st'.
  assert (E : uploadingFiles st'
              = foldl (fun m u => delete (tempId u) m) (uploadingFiles st) files).
  { unfold st', handleUpload. destruct (selectedSubjectId st) as [|c s]; [done|].
    pose proof (upload_loop (String c s) files st []) as Hl. cbv zeta in Hl. tauto. }
  assert (Hk : forall k,
            uploadingFiles st' !! k
            = if bool_decide (k ∈ map tempId files) then None else uploadingFiles st !! k).
  { intros k. rewrite E. apply lookup_deleted. }
  split; [exact Hk|].
  intros Hempty. apply map_eq. intros k. rewrite Hk, Hempty, lookup_empty.
  by destruct (bool_decide _).
Qed.

(** X18.  Once a subject is selected, [handleUpload] sends one upload
    for each file, in order and all for the selected subject, whether or
    not an earlier one failed; it puts the files that the uploads resolved
    with in front of the list, the last one first; and it opens the
    analysis of the last of them that has one. *)
Theorem handleUpload_results (files : list Upload) (st : State) :
  selectedSubjectId st <> "" ->
  let results :=
    omap (fun u => match outcome u with Fulfilled r => Some r | Failed _ => None end)
         files in
  let st' := (handleUpload files st).1 in
  omap (fun e => match e with Sent f => Some f | Toast _ _ => None end)
       (handleUpload files st).2
  = map (fun u => uploadFile (file_name u) (selectedSubjectId st)) files
  /\ uploadedFiles st' = rev results ++ uploadedFiles st
  /\ analyzingFile st'
     = match last (filter (fun r => is_Some (File.analysis r)) results) with
       | Some r => Some r
       | None => analyzingFile st
       end.
Proof.
  intros Hsel results st'. unfold st', handleUpload.
  destruct (selectedSubjectId st) as [|c s] eqn:E; [done|].
  pose proof (upload_loop (String c s) files st []) as Hl. cbv zeta in Hl.
  destruct Hl as (_ & _ & _ & _ & I5 & I6 & I7).
  split; [exact I7|]. split; [exact I5|].
  rewrite I6. apply last_analysed.
Qed.

(** X19.  Without a selected subject [handleUpload] uploads nothing and
    changes nothing.  A [loadData] that finds no subject selected selects
    the first subject of the response, and the uploads that follow are
    for that subject; a subject that is selected already stays selected,
    whatever the backend answers. *)
Theorem loadData_selects_for_upload
    (subjectsBackend : Fetch -> promise (list SubjectResponse))
    (filesBackend : Fetch -> promise (list File.UploadedFileResponse))
    (files : list Upload) (st : State) :
  let st1 := (loadData subjectsBackend filesBackend st).1 in
  (selectedSubjectId st = "" ->
   (handleUpload files st).1 = st
   /\ forall f, Sent f ∉ (handleUpload files st).2)
  /\ (selectedSubjectId st <> "" -> selectedSubjectId st1 = selectedSubjectId st)
  /\ (forall s rest fs,
        selectedSubjectId st = "" ->
        subjectsBackend fetchSubjects = Fulfilled (s :: rest) ->
        filesBackend (fetchFiles None) = Fulfilled fs ->
        Api.id s <> "" ->
        selectedSubjectId st1 = Api.id s
        /\ omap (fun e => match e with Sent f => Some f | Toast _ _ => None end)
                (handleUpload files st1).2
           = map (fun u => uploadFile (file_name u) (Api.id s)) files).
Proof.
  intros st1. split; [|split].
  - intros E. unfold handleUpload. rewrite E. split; [done|].
    intros f Hin. apply list_elem_of_singleton in Hin. discriminate.
  - intros Hsel. unfold st1, loadData.
    destruct (subjectsBackend _) as [sd|]; [|done].
    destruct (filesBackend _) as [fd|]; [|done].
    cbn. destruct sd; [done|]. by destruct (selectedSubjectId st).
  - intros s rest fs E Hs Hf Hid.
    assert (E1 : selectedSubjectId st1 = Api.id s).
    { unfold st1, loadData. rewrite Hs, Hf. cbn. by rewrite E. }
    split; [exact E1|].
    unfold handleUpload. rewrite E1.
    destruct (Api.id s) as [|c r] eqn:Eid; [done|].
    pose proof (upload_loop (String c r) files st1 []) as Hl. cbv zeta in Hl.
    destruct Hl as (_ & _ & _ & _ & _ & _ & Hsent). exact Hsent.
Qed.

End Uploads.

(** ** The library: choosing tags *)

Section Tags.
Import LibraryView.

Lemma toggleTag_membership (tag x : string) (prev : list string) :
  bool_decide (x ∈ toggleTag tag prev)
  = xorb (bool_decide (x ∈ prev)) (bool_decide (x = tag)).
Proof.
  unfold toggleTag. destruct (decide (tag ∈ prev)) as [Hin | Hout].
  - rewrite (bool_decide_eq_true_2 _ Hin).
    destruct (decide (x = tag)) as [-> | Hne].
    + rewrite (bool_decide_eq_true_2 _ Hin), (bool_decide_eq_true_2 (tag = tag)) by done.
      apply bool_decide_eq_false_2. rewrite list_elem_of_filter. tauto.
    + rewrite (bool_decide_eq_false_2 (x = tag)) by done. rewrite xorb_false_r.
      apply bool_decide_ext. rewrite list_elem_of_filter. tauto.
  - rewrite (bool_decide_eq_false_2 _ Hout).
    destruct (decide (x = tag)) as [-> | Hne].
    + rewrite (bool_decide_eq_false_2 _ Hout), (bool_decide_eq_true_2 (tag = tag)) by done.
      apply bool_decide_eq_true_2. rewrite elem_of_app, list_elem_of_singleton. tauto.
    + rewrite (bool_decide_eq_false_2 (x = tag)) by done. rewrite xorb_false_r.
      apply bool_decide_ext. rewrite elem_of_app, list_elem_of_singleton. tauto.
Qed.

Lemma toggleTag_keeps_NoDup (tag : string) (prev : list string) :
  NoDup prev -> NoDup (toggleTag tag prev).
Proof.
  intros Hnd. unfold toggleTag. destruct (bool_decide (tag ∈ prev)) eqn:E.
  - by apply NoDup_filter.
  - apply bool_decide_eq_false in E. apply NoDup_app. split; [done|].
    split; [|apply NoDup_singleton].
    intros y Hy Hy'. apply list_elem_of_singleton in Hy'. by subst.
Qed.

(** X20.  Starting from what is selected, after any sequence of clicks
    on tags a tag is selected exactly when it was selected before and
    clicked an even number of times, or was not and clicked an odd number
    of times; and a selection without duplicates, the empty one that the
    library starts with in particular, never gets one. *)
Theorem toggleTag_parity (clicks prev : list string) (x : string) :
  bool_decide (x ∈ foldl (fun selected tag => toggleTag tag selected) prev clicks)
  = xorb (bool_decide (x ∈ prev)) (Nat.odd (count_occ string_dec clicks x))
  /\ (NoDup prev ->
      NoDup (foldl (fun selected tag => toggleTag tag selected) prev clicks)).
Proof.
  revert prev. induction clicks as [|tag clicks IH]; intros prev.
  - cbn. by rewrite xorb_false_r.
  - cbn [foldl]. destruct (IH (toggleTag tag prev)) as [Hmem Hnd]. split.
    + rewrite Hmem, toggleTag_membership. cbn [count_occ].
      destruct (string_dec tag x) as [-> | Hne].
      * rewrite (bool_decide_eq_true_2 (x = x)) by done.
        rewrite Nat.odd_succ, <- Nat.negb_odd.
        by destruct (bool_decide (x ∈ prev)), (Nat.odd (count_occ string_dec clicks x)).
      * rewrite (bool_decide_eq_false_2 (x = tag)) by congruence.
        by rewrite xorb_false_r.
    + intros Hprev. by apply Hnd, toggleTag_keeps_NoDup.
Qed.

End Tags.

(** ** Deleting a file *)

Section Deleting.
Import Api.

(** X21.  In the analyze view and in the library alike, [handleDelete]
    sends one DELETE for the file and takes it off the list only when the
    backend has confirmed: then every entry with that id is gone and the
    others stay, in their order; after a failure the list is as it was. *)
Theorem handleDelete_after_confirmation
    (backend : Fetch -> promise unit) (fileId : string) (st : AnalyzeView.State) :
  let files := AnalyzeView.uploadedFiles st in
  let files' := AnalyzeView.uploadedFiles (AnalyzeView.handleDelete backend fileId st).1 in
  (LibraryView.handleDelete backend fileId files).1 = files'
  /\ files' `sublist_of` files
  /\ match backend (deleteFile fileId) with
     | Fulfilled _ =>
         forall f, f ∈ files' <-> f ∈ files /\ File.id f <> fileId
     | Failed _ => (AnalyzeView.handleDelete backend fileId st).1 = st
     end
  /\ head (AnalyzeView.handleDelete backend fileId st).2
     = Some (Sent {| address := "/api/files/" +:+ fileId;
                     options_method := Some "DELETE";
                     options_body := NoBody |})
  /\ (LibraryView.handleDelete backend fileId files).2
     = [Sent {| address := "/api/files/" +:+ fileId;
                options_method := Some "DELETE";
                options_body := NoBody |}].
Proof.
  unfold AnalyzeView.handleDelete, LibraryView.handleDelete.
  destruct (backend (deleteFile fileId)) as [[] | message]; cbn.
  - split; [done|]. split; [apply sublist_filter|]. split; [|done].
    intros f. rewrite list_elem_of_filter. tauto.
  - done.
Qed.

End Deleting.

Lemma handleUpload_clears_progress_witness :
  AnalyzeView.selectedSubjectId Sample.analyzing <> ""
  /\ AnalyzeView.uploadingFiles
       (AnalyzeView.handleUpload (H := Sample.host) Sample.uploads Sample.analyzing).1
     = ∅.
Proof.
  assert (Hsel : AnalyzeView.selectedSubjectId Sample.analyzing <> "") by discriminate.
  split; [exact Hsel|].
  exact (proj2 (handleUpload_clears_progress (H := Sample.host)
                  Sample.uploads Sample.analyzing Hsel) eq_refl).
Defined.

Lemma handleUpload_results_witness :
  AnalyzeView.selectedSubjectId Sample.analyzing <> ""
  /\ AnalyzeView.uploadedFiles
       (AnalyzeView.handleUpload (H := Sample.host) Sample.uploads Sample.analyzing).1
     = [ Sample.file "file-2" "algebra.pptx" (Some Sample.analysis);
         Sample.file "file-1" "logic.pptx" None ]
  /\ AnalyzeView.analyzingFile
       (AnalyzeView.handleUpload (H := Sample.host) Sample.uploads Sample.analyzing).1
     = Some (Sample.file "file-2" "algebra.pptx" (Some Sample.analysis)).
Proof.
  assert (Hsel : AnalyzeView.selectedSubjectId Sample.analyzing <> "") by discriminate.
  split; [exact Hsel|].
  pose proof (handleUpload_results (H := Sample.host)
                Sample.uploads Sample.analyzing Hsel) as Hr.
  cbv zeta in Hr. destruct Hr as (_ & Hfiles & Hopen).
  split; [exact Hfiles | exact Hopen].
Defined.

(** ** The progress of an upload *)

Lemma binary64_between (x : Q) (a b : Z) :
  (inject_Z a <= x <= inject_Z b)%Q -> (Z.abs a <= 2 ^ 53)%Z -> (Z.abs b <= 2 ^ 53)%Z ->
  exists y, binary64 x = Finite y /\ (inject_Z a <= y <= inject_Z b)%Q.
Proof.
  intros [Ha Hb] Ha53 Hb53.
  destruct (binary64_above x a Ha Ha53) as [E | (y & E & Hy)];
    destruct (binary64_below x b Hb Hb53) as [E' | (y' & E' & Hy')];
    try congruence.
  exists y. split; [done|]. split; [done|].
  rewrite E in E'. by injection E' as ->.
Qed.

Section Progress.
Import Api.

(** X22.  While an upload of known length runs, with [loaded] between
    zero and a positive [total], the percentage reported is a whole number
    from 0 to 100, and it is 100 when everything is loaded. *)
Theorem onprogress_percentage (loaded total : Q) :
  (0 <= loaded <= total)%Q -> (0 < total)%Q ->
  exists k : Z,
    onprogress true (Finite loaded) (Finite total) = Some (int k)
    /\ (0 <= k <= 100)%Z
    /\ ((loaded == total)%Q -> k = 100%Z).
Proof.
  intros [Hl0 Hlt] Ht. unfold onprogress, num_div.
  assert (E0 : Qeq_bool total 0 = false) by (apply Qeq_bool_false; lra).
  rewrite E0.
  assert (Hq : (inject_Z 0 <= loaded / total <= inject_Z 1)%Q).
  { change (inject_Z 0) with 0%Q. change (inject_Z 1) with 1%Q. split.
    - apply Qle_shift_div_l; lra.
    - apply Qle_shift_div_r; lra. }
  destruct (binary64_between _ 0 1 Hq ltac:(done) ltac:(done)) as (y & Ey & Hy0 & Hy1).
  change (inject_Z 0) with 0%Q in Hy0. change (inject_Z 1) with 1%Q in Hy1.
  rewrite Ey. unfold num_mul, int.
  assert (Hp : (inject_Z 0 <= y * inject_Z 100 <= inject_Z 100)%Q).
  { change (inject_Z 0) with 0%Q. change (inject_Z 100) with 100%Q. split; lra. }
  destruct (binary64_between _ 0 100 Hp ltac:(done) ltac:(done)) as (w & Ew & Hw0 & Hw1).
  change (inject_Z 0) with 0%Q in Hw0. change (inject_Z 100) with 100%Q in Hw1.
  rewrite Ew. cbn [Math_round].
  exists (Qfloor (w + (1 # 2))). split; [reflexivity|].
  assert (G0 : (Qfloor 0 <= Qfloor (w + (1 # 2)))%Z) by (apply Qfloor_resp_le; lra).
  assert (G1 : (Qfloor (w + (1 # 2)) <= Qfloor (100 + (1 # 2)))%Z)
    by (apply Qfloor_resp_le; lra).
  change (Qfloor 0) with 0%Z in G0. change (Qfloor (100 + (1 # 2))) with 100%Z in G1.
  split; [lia|].
  intros Hall.
  assert (E1 : (loaded / total == inject_Z 1)%Q).
  { change (inject_Z 1) with 1%Q. rewrite Hall. field. lra. }
  rewrite (binary64_of_integer _ 1 E1) in Ey by done. injection Ey as <-.
  assert (E100 : (inject_Z 1 * inject_Z 100 == inject_Z 100)%Q) by reflexivity.
  rewrite (binary64_of_integer _ 100 E100) in Ew by done. injection Ew as <-.
  reflexivity.
Qed.

End Progress.

(** An upload of no length that says its length is known reports [NaN]. *)
Example onprogress_of_nothing : Api.onprogress true (int 0) (int 0) = Some NaN.
Proof. reflexivity. Qed.

Lemma onprogress_percentage_witness :
  (0 <= 512 <= 2048)%Q /\ (0 < 2048)%Q
  /\ exists k : Z,
       Api.onprogress true (Finite 512) (Finite 2048) = Some (int k)
       /\ (0 <= k <= 100)%Z.
Proof.
  assert (H1 : (0 <= 512 <= 2048)%Q) by (split; compare_constants).
  assert (H2 : (0 < 2048)%Q) by compare_constants.
  split; [exact H1|]. split; [exact H2|].
  destruct (onprogress_percentage 512 2048 H1 H2) as (k & Hk & Hr & _).
  exists k. split; [exact Hk | exact Hr].
Defined.

(** ** Subject management *)

Lemma trim_start_spaces (s : string) :
  (forall c, c ∈ list_ascii_of_string s -> is_space1 (byte_of c) = true) ->
  trim_start s = "".
Proof.
  induction s as [|c s IH]; intros Hall; [done|].
  cbn [trim_start]. rewrite (Hall c) by apply list_elem_of_here.
  apply IH. intros c' Hc'. apply Hall. by apply list_elem_of_further.
Qed.

Section Subjects.
Import Api SubjectManagement.

(** X23.  A name made of spaces, tabs and line breaks only is refused:
    [handleSubmit] sends nothing, says that the name is required and leaves
    the modal open with the form as it is. *)
Theorem handleSubmit_blank_name
    (save : Fetch -> promise SubjectResponse)
    (load : Fetch -> promise (list SubjectResponse)) (st : State) :
  (forall c, c ∈ list_ascii_of_string (name (formData st)) ->
             is_space1 (byte_of c) = true) ->
  handleSubmit save load st = (st, [Toast "Subject name is required" "error"]).
Proof.
  intros Hall. unfold handleSubmit, trim.
  by rewrite (trim_start_spaces _ Hall).
Qed.

(** X24.  With a name that is not blank, [handleSubmit] first sends the
    form as it was typed, the name untrimmed.  When the backend accepts it
    the subjects are fetched again and the modal closes with an empty form,
    also when that fetch fails; when the backend rejects it nothing is
    fetched and the state, the typed form included, stays as it is. *)
Theorem handleSubmit_closes_when_saved
    (save : Fetch -> promise SubjectResponse)
    (load : Fetch -> promise (list SubjectResponse)) (st : State) :
  trim (name (formData st)) <> "" ->
  let st' := (handleSubmit save load st).1 in
  let events := (handleSubmit save load st).2 in
  head events = Some (Sent (saveRequest st))
  /\ options_body (saveRequest st)
     = SubjectJson (name (formData st)) (description (formData st)) (color (formData st))
  /\ match save (saveRequest st) with
     | Fulfilled _ =>
         isModalOpen st' = false
         /\ editingSubject st' = None
         /\ formData st' = emptyForm
         /\ Sent fetchSubjects ∈ events
         /\ subjects st' = match load fetchSubjects with
                           | Fulfilled data => data
                           | Failed _ => subjects st
                           end
     | Failed _ => st' = st /\ Sent fetchSubjects ∉ events
     end.
Proof.
  intros Hname. unfold handleSubmit.
  destruct (trim (name (formData st))) as [|c s] eqn:E; [done|].
  assert (Hbody : options_body (saveRequest st)
                  = SubjectJson (name (formData st)) (description (formData st))
                                (color (formData st))).
  { unfold saveRequest. by destruct (editingSubject st). }
  destruct (save (saveRequest st)) as [saved | message] eqn:Es.
  - unfold loadSubjects. destruct (load fetchSubjects) as [data | message] eqn:El;
      cbn; repeat split; try done.
    + apply list_elem_of_further, list_elem_of_further, list_elem_of_here.
    + apply list_elem_of_further, list_elem_of_further, list_elem_of_here.
  - cbn. repeat split; try done.
    intros Hin. apply elem_of_cons in Hin as [Heq | Hin].
    + injection Heq as Heq. unfold saveRequest, fetchSubjects, request in Heq.
      destruct (editingSubject st); discriminate.
    + apply list_elem_of_singleton in Hin. discriminate.
Qed.

(** X25.  The list of subjects on display is never changed but by a
    [fetchSubjects] that the backend answered: whatever a handler does, the
    list is the one it found or the one that the fetch resolved with. *)
Theorem subjects_come_from_the_backend
    (save : Fetch -> promise SubjectResponse)
    (remove : Fetch -> promise unit)
    (load : Fetch -> promise (list SubjectResponse))
    (confirmed : bool) (id : string) (subject : option SubjectResponse) (st : State) :
  let from_backend (st' : State) :=
    subjects st' = subjects st \/ load fetchSubjects = Fulfilled (subjects st') in
  from_backend (loadSubjects load st).1
  /\ from_backend (handleSubmit save load st).1
  /\ from_backend (handleDelete confirmed remove load id st).1
  /\ from_backend (handleOpenModal subject st)
  /\ from_backend (handleCloseModal st).
Proof.
  assert (Hload : subjects (loadSubjects load st).1 = subjects st
                  \/ load fetchSubjects = Fulfilled (subjects (loadSubjects load st).1)).
  { unfold loadSubjects. destruct (load fetchSubjects); cbn; tauto. }
  cbv zeta. split; [exact Hload|]. split; [|split; [|split]].
  - unfold handleSubmit. destruct (trim _); [by left|].
    destruct (save _); [|by left].
    destruct (loadSubjects load st) as [st1 events]. exact Hload.
  - unfold handleDelete. destruct confirmed; [|by left].
    destruct (remove _); [|by left].
    destruct (loadSubjects load st) as [st1 events]. exact Hload.
  - left. by destruct subject.
  - by left.
Qed.

(** X26.  Submitting the form right after it has been opened on a
    subject sends a PUT to the address of that subject with its own name
    and colour and with its description, the empty string standing for a
    missing one; submitting it right after it has been opened for a new
    subject is refused, the name being empty. *)
Theorem submitting_an_untouched_form
    (save : Fetch -> promise SubjectResponse)
    (load : Fetch -> promise (list SubjectResponse))
    (s : SubjectResponse) (st : State) :
  trim (Api.name s) <> "" ->
  head (handleSubmit save load (handleOpenModal (Some s) st)).2
  = Some (Sent {| address := "/api/subjects/" +:+ Api.id s;
                  options_method := Some "PUT";
                  options_body :=
                    SubjectJson (Api.name s) (default "" (Api.description s))
                                (Api.color s) |})
  /\ handleSubmit save load (handleOpenModal None st)
     = (handleOpenModal None st, [Toast "Subject name is required" "error"]).
Proof.
  intros Hname. split; [|reflexivity].
  unfold handleSubmit. cbn [handleOpenModal formData name].
  destruct (trim (Api.name s)) as [|c r] eqn:E; [done|].
  assert (Ed : opt_str_or (Api.description s) "" = default "" (Api.description s)).
  { destruct (Api.description s) as [[|c' d]|]; reflexivity. }
  unfold saveRequest. cbn [handleOpenModal editingSubject formData name description color].
  rewrite Ed.
  destruct (save _); [|reflexivity].
  unfold loadSubjects. destruct (load _); reflexivity.
Qed.

End Subjects.

Lemma handleSubmit_blank_name_witness :
  (forall c,
     c ∈ list_ascii_of_string
           (SubjectManagement.name (SubjectManagement.formData (Sample.naming "   "))) ->
     is_space1 (byte_of c) = true)
  /\ SubjectManagement.handleSubmit Sample.saving Sample.unlisted (Sample.naming "   ")
     = (Sample.naming "   ", [Toast "Subject name is required" "error"]).
Proof.
  assert (Hall : forall c,
             c ∈ list_ascii_of_string
                   (SubjectManagement.name
                      (SubjectManagement.formData (Sample.naming "   "))) ->
             is_space1 (byte_of c) = true).
  { intros c Hc. cbn in Hc.
    repeat (apply elem_of_cons in Hc as [-> | Hc]; [reflexivity|]).
    by apply elem_of_nil in Hc. }
  split; [exact Hall|].
  exact (handleSubmit_blank_name Sample.saving Sample.unlisted (Sample.naming "   ") Hall).
Defined.

Lemma handleSubmit_closes_when_saved_witness :
  trim (SubjectManagement.name (SubjectManagement.formData (Sample.naming " Chemistry")))
  <> ""
  /\ SubjectManagement.isModalOpen
       (SubjectManagement.handleSubmit Sample.saving Sample.unlisted
          (Sample.naming " Chemistry")).1
     = false
  /\ SubjectManagement.subjects
       (SubjectManagement.handleSubmit Sample.saving Sample.unlisted
          (Sample.naming " Chemistry")).1
     = Sample.subjects.
Proof.
  assert (Hname : trim (SubjectManagement.name
                          (SubjectManagement.formData (Sample.naming " Chemistry")))
                  <> "") by (vm_compute; discriminate).
  split; [exact Hname|].
  pose proof (handleSubmit_closes_when_saved Sample.saving Sample.unlisted
                (Sample.naming " Chemistry") Hname) as Hs.
  cbv zeta in Hs. destruct Hs as (_ & _ & Hclosed & _ & _ & _ & Hlist).
  split; [exact Hclosed | exact Hlist].
Defined.

Lemma submitting_an_untouched_form_witness :
  trim (Api.name (Sample.subject "subject-1" "Algebra")) <> ""
  /\ head (SubjectManagement.handleSubmit Sample.saving Sample.unlisted
             (SubjectManagement.handleOpenModal
                (Some (Sample.subject "subject-1" "Algebra"))
                SubjectManagement.initial)).2
     = Some (Sent {| Api.address := "/api/subjects/subject-1";
                     Api.options_method := Some "PUT";
                     Api.options_body := Api.SubjectJson "Algebra" "" "#8B5CF6" |}).
Proof.
  assert (Hname : trim (Api.name (Sample.subject "subject-1" "Algebra")) <> "")
    by (vm_compute; discriminate).
  split; [exact Hname|].
  exact (proj1 (submitting_an_untouched_form Sample.saving Sample.unlisted
                  (Sample.subject "subject-1" "Algebra") SubjectManagement.initial Hname)).
Defined.

(** ** The analysis modal: the run as a whole *)

Section Run.
Import AnalysisModal.

(** X27.  Whatever the metadata, and whatever state the modal is in when
    it opens, [runAnalysis] ends with the progress at exactly 100, the last
    step named, the analysis complete and the result of the metadata. *)
Theorem runAnalysis_completes (fileMetadata : option FileMetadata) (st : State) :
  runAnalysis fileMetadata st
  = {| progress := int 100;
       currentStep := "Generating insights...";
       isComplete := true;
       result := Some (analysisResult fileMetadata) |}.
Proof.
  unfold runAnalysis.
  assert (E : (foldl runStep (int 0, st) steps).2
              = {| progress := int 100; currentStep := "Generating insights...";
                   isComplete := isComplete st; result := result st |}).
  { vm_compute. reflexivity. }
  by rewrite E.
Qed.

End Run.
